(** * University database generator: a shallow embedding and its properties

    The development follows [university_database_generator.py].  The class
    [UniversityDatabaseManager] becomes a record of its instance fields, its
    methods become computations in a state-and-exception monad, the SQLite
    file becomes a record of four typed tables whose declared constraints are
    checked on insertion, and the ambient sources of randomness ([random],
    [Faker]) become tapes that the computations read from left to right. *)

From Stdlib Require Import QArith Ascii String.
From stdpp Require Import gmap strings list sorting pretty.

Local Open Scope Z_scope.
Local Open Scope string_scope.
Local Open Scope list_scope.

(** ** Python strings *)

(** [str.lower] and [str.upper] on the ASCII range. *)
Definition ascii_lower (c : ascii) : ascii :=
  let n := nat_of_ascii c in
  if ((65 <=? n)%nat && (n <=? 90)%nat)%bool then ascii_of_nat (n + 32) else c.

Definition ascii_upper (c : ascii) : ascii :=
  let n := nat_of_ascii c in
  if ((97 <=? n)%nat && (n <=? 122)%nat)%bool then ascii_of_nat (n - 32) else c.

Fixpoint lower (s : string) : string :=
  match s with
  | EmptyString => EmptyString
  | String c s' => String (ascii_lower c) (lower s')
  end.

Fixpoint upper (s : string) : string :=
  match s with
  | EmptyString => EmptyString
  | String c s' => String (ascii_upper c) (upper s')
  end.

(** The slice [s[:n]]: the first [n] characters, or all of [s] when it is
    shorter. *)
Fixpoint slice_to (n : nat) (s : string) : string :=
  match n, s with
  | S n', String c s' => String c (slice_to n' s')
  | _, _ => EmptyString
  end.

(** ** Exceptions *)

(** The exception classes that the program and the library calls it makes
    can raise.  The first three are subclasses of [sqlite3.Error]. *)
Inductive exn : Type :=
  | OperationalError (msg : string)
  | IntegrityError (msg : string)
  | ProgrammingError (msg : string)
  | ValueError (msg : string)
  | IndexError (msg : string)
  | AttributeError (msg : string)
  | OtherException (cls msg : string).

(** [isinstance(e, sqlite3.Error)] *)
Definition is_sqlite3_Error (e : exn) : bool :=
  match e with
  | OperationalError _ | IntegrityError _ | ProgrammingError _ => true
  | _ => false
  end.

(** [str(e)] *)
Definition exn_str (e : exn) : string :=
  match e with
  | OperationalError m | IntegrityError m | ProgrammingError m
  | ValueError m | IndexError m | AttributeError m => m
  | OtherException _ m => m
  end.

(** ** The relational store *)

Module Student.
(** The tuple that [generate_students] appends to [students]. *)
Record t : Type := mk {
  first_name : string;
  last_name : string;
  gender : string;
  date_of_birth : Z;
  email : string;
  enrollment_status : string;
  total_credits : Z;
  gpa : Q
}.
(** A stored row: the tuple and its [student_id]. *)
Record row : Type := mk_row { student_id : Z; data : t }.
End Student.

Module Department.
Record row : Type := mk_row {
  department_id : Z;
  department_name : string;
  established_year : Z
}.
End Department.

Module Course.
Record t : Type := mk {
  course_id : string;
  course_name : string;
  department_id : Z;
  credit_hours : Z;
  course_level : string
}.
End Course.

Module Enrollment.
Record t : Type := mk {
  student_id : Z;
  course_id : string;
  semester : string;
  academic_year : Z;
  grade : Q
}.
Record row : Type := mk_row { enrollment_id : Z; data : t }.
(** The columns of [UNIQUE(student_id, course_id, semester, academic_year)]. *)
Definition key (e : t) : Z * string * string * Z :=
  (student_id e, course_id e, semester e, academic_year e).
End Enrollment.

(** A table: its rows in insertion order and, for [AUTOINCREMENT] keys, the
    largest row id handed out so far (the table's [sqlite_sequence] entry). *)
Record table (R : Type) : Type := mk_table { rows : list R; last_rowid : Z }.
Arguments mk_table {R} _ _.
Arguments rows {R} _.
Arguments last_rowid {R} _.

Definition empty_table {R : Type} : table R := mk_table [] 0.

(** The database file as the program makes it: each of the four tables is
    absent or present.  This describes a file that does not exist yet or
    that calls of these methods have written.  A file that holds other
    objects (a view or an index bearing one of the four names, tables of
    other names) or that is not an SQLite database is not described, and
    the properties below do not speak of such files. *)
Record database : Type := mk_database {
  Students : option (table Student.row);
  Departments : option (table Department.row);
  Courses : option (table Course.t);
  Enrollments : option (table Enrollment.row)
}.

Definition empty_database : database := mk_database None None None None.

(** ** Program state *)

(** A [sqlite3.Connection] (the cursor made from it is not kept apart). *)
Record connection : Type := mk_connection {
  closed : bool;
  view : database;
  in_transaction : bool
}.

(** The instance fields of [UniversityDatabaseManager] together with the
    part of the world the program acts on: the database file named
    [db_name], standard output, and how far the two tapes have been read. *)
Record state : Type := mk_state {
  db_name : string;
  conn : option connection;
  used_emails : gset string;
  disk : database;
  stdout : list string;
  rand_pos : nat;
  fake_pos : nat
}.

Definition set_conn (c : option connection) (s : state) : state :=
  mk_state (db_name s) c (used_emails s) (disk s) (stdout s) (rand_pos s) (fake_pos s).
Definition set_used_emails (u : gset string) (s : state) : state :=
  mk_state (db_name s) (conn s) u (disk s) (stdout s) (rand_pos s) (fake_pos s).
Definition set_disk (d : database) (s : state) : state :=
  mk_state (db_name s) (conn s) (used_emails s) d (stdout s) (rand_pos s) (fake_pos s).
Definition set_stdout (o : list string) (s : state) : state :=
  mk_state (db_name s) (conn s) (used_emails s) (disk s) o (rand_pos s) (fake_pos s).
Definition set_rand_pos (n : nat) (s : state) : state :=
  mk_state (db_name s) (conn s) (used_emails s) (disk s) (stdout s) n (fake_pos s).
Definition set_fake_pos (n : nat) (s : state) : state :=
  mk_state (db_name s) (conn s) (used_emails s) (disk s) (stdout s) (rand_pos s) n.

(** ** The monad of methods *)

Inductive outcome (A : Type) : Type :=
  | Ok (a : A)
  | Raise (e : exn)
  | Diverge.
Arguments Ok {A} _.
Arguments Raise {A} _.
Arguments Diverge {A}.

Definition M (A : Type) : Type := state -> outcome A * state.

Definition ret {A : Type} (a : A) : M A := fun s => (Ok a, s).

Definition bind {A B : Type} (m : M A) (f : A -> M B) : M B :=
  fun s =>
    match m s with
    | (Ok a, s') => f a s'
    | (Raise e, s') => (Raise e, s')
    | (Diverge, s') => (Diverge, s')
    end.

Definition raise {A : Type} (e : exn) : M A := fun s => (Raise e, s).
Definition diverge {A : Type} : M A := fun s => (Diverge, s).
Definition get : M state := fun s => (Ok s, s).
Definition modify (f : state -> state) : M unit := fun s => (Ok tt, f s).

#[global] Instance M_ret : MRet M := @ret.
#[global] Instance M_bind : MBind M := fun A B f m => bind m f.

(** [for x in l: body x] *)
Fixpoint for_each {A : Type} (l : list A) (body : A -> M unit) : M unit :=
  match l with
  | [] => ret tt
  | x :: l' => body x ;; for_each l' body
  end.

(** [print(line)] *)
Definition print (line : string) : M unit :=
  modify (fun s => set_stdout (stdout s ++ [line]) s).

(** ** SQL statements *)

(** Each statement is a function on the database that either fails with
    the exception SQLite reports or returns its result.  The checks are the
    constraints of the [CREATE TABLE] statements in [create_tables].
    [FOREIGN KEY] clauses are recorded by SQLite but not enforced (the
    program never turns [PRAGMA foreign_keys] on), so no statement checks
    them. *)

Definition set_Students (t : option (table Student.row)) (d : database) : database :=
  mk_database t (Departments d) (Courses d) (Enrollments d).
Definition set_Departments (t : option (table Department.row)) (d : database) : database :=
  mk_database (Students d) t (Courses d) (Enrollments d).
Definition set_Courses (t : option (table Course.t)) (d : database) : database :=
  mk_database (Students d) (Departments d) t (Enrollments d).
Definition set_Enrollments (t : option (table Enrollment.row)) (d : database) : database :=
  mk_database (Students d) (Departments d) (Courses d) t.

(** [DROP TABLE IF EXISTS name] over a file of the program's own tables;
    the table's [sqlite_sequence] entry goes with it.  (SQLite refuses the
    statement when a view bears the name; [database] has no such files.) *)
Definition drop_table_if_exists (name : string) (d : database) : exn + database :=
  inr (if String.eqb name "Enrollments" then set_Enrollments None d
       else if String.eqb name "Courses" then set_Courses None d
       else if String.eqb name "Departments" then set_Departments None d
       else if String.eqb name "Students" then set_Students None d
       else d).

Definition already_exists (name : string) : exn :=
  OperationalError ("table " +:+ name +:+ " already exists").
Definition no_such_table (name : string) : exn :=
  OperationalError ("no such table: " +:+ name).

(** [CREATE TABLE Students (...)] and its three siblings. *)
Definition create_table_Students (d : database) : exn + database :=
  match Students d with
  | Some _ => inl (already_exists "Students")
  | None => inr (set_Students (Some empty_table) d)
  end.
Definition create_table_Departments (d : database) : exn + database :=
  match Departments d with
  | Some _ => inl (already_exists "Departments")
  | None => inr (set_Departments (Some empty_table) d)
  end.
Definition create_table_Courses (d : database) : exn + database :=
  match Courses d with
  | Some _ => inl (already_exists "Courses")
  | None => inr (set_Courses (Some empty_table) d)
  end.
Definition create_table_Enrollments (d : database) : exn + database :=
  match Enrollments d with
  | Some _ => inl (already_exists "Enrollments")
  | None => inr (set_Enrollments (Some empty_table) d)
  end.

(** The row id an [INTEGER PRIMARY KEY AUTOINCREMENT] column receives: one
    more than the largest id the table holds or has ever handed out. *)
Definition next_rowid {R : Type} (id : R -> Z) (t : table R) : Z :=
  1 + foldr Z.max (last_rowid t) (id <$> rows t).

(** [CHECK(x BETWEEN 0.0 AND 4.0)] *)
Definition between_0_4 (x : Q) : bool :=
  (Qle_bool 0 x && Qle_bool x 4)%bool.

(** [INSERT INTO Students (first_name, ..., gpa) VALUES (?, ..., ?)] *)
Definition insert_student (r : Student.t) (d : database) : exn + database :=
  match Students d with
  | None => inl (no_such_table "Students")
  | Some t =>
      if negb (bool_decide (Student.gender r ∈ ["Male"; "Female"; "Other"])) then
        inl (IntegrityError "CHECK constraint failed: gender IN ('Male', 'Female', 'Other')")
      else if negb (bool_decide (Student.enrollment_status r ∈
                      ["Active"; "Inactive"; "Graduated"; "Suspended"])) then
        inl (IntegrityError "CHECK constraint failed: enrollment_status IN ('Active', 'Inactive', 'Graduated', 'Suspended')")
      else if negb (between_0_4 (Student.gpa r)) then
        inl (IntegrityError "CHECK constraint failed: gpa BETWEEN 0.0 AND 4.0")
      else if bool_decide (Student.email r ∈
                 (fun x => Student.email (Student.data x)) <$> rows t) then
        inl (IntegrityError "UNIQUE constraint failed: Students.email")
      else
        let id := next_rowid Student.student_id t in
        inr (set_Students (Some (mk_table (rows t ++ [Student.mk_row id r]) id)) d)
  end.

(** [INSERT INTO Departments (department_name, established_year) VALUES (?, ?)] *)
Definition insert_department (r : string * Z) (d : database) : exn + database :=
  match Departments d with
  | None => inl (no_such_table "Departments")
  | Some t =>
      if bool_decide (r.1 ∈ Department.department_name <$> rows t) then
        inl (IntegrityError "UNIQUE constraint failed: Departments.department_name")
      else
        let id := next_rowid Department.department_id t in
        inr (set_Departments
               (Some (mk_table (rows t ++ [Department.mk_row id r.1 r.2]) id)) d)
  end.

(** [INSERT INTO Courses (course_id, ..., course_level) VALUES (?, ..., ?)] *)
Definition insert_course (r : Course.t) (d : database) : exn + database :=
  match Courses d with
  | None => inl (no_such_table "Courses")
  | Some t =>
      if negb (bool_decide (Course.course_level r ∈
                 ["Introductory"; "Intermediate"; "Advanced"])) then
        inl (IntegrityError "CHECK constraint failed: course_level IN ('Introductory', 'Intermediate', 'Advanced')")
      else if bool_decide (Course.course_id r ∈ Course.course_id <$> rows t) then
        inl (IntegrityError "UNIQUE constraint failed: Courses.course_id")
      else inr (set_Courses (Some (mk_table (rows t ++ [r]) (last_rowid t))) d)
  end.

(** [INSERT INTO Enrollments (student_id, ..., grade) VALUES (?, ..., ?)] *)
Definition insert_enrollment (r : Enrollment.t) (d : database) : exn + database :=
  match Enrollments d with
  | None => inl (no_such_table "Enrollments")
  | Some t =>
      if negb (bool_decide (Enrollment.semester r ∈ ["Fall"; "Spring"; "Summer"])) then
        inl (IntegrityError "CHECK constraint failed: semester IN ('Fall', 'Spring', 'Summer')")
      else if negb (between_0_4 (Enrollment.grade r)) then
        inl (IntegrityError "CHECK constraint failed: grade BETWEEN 0.0 AND 4.0")
      else if bool_decide (Enrollment.key r ∈
                 (fun x => Enrollment.key (Enrollment.data x)) <$> rows t) then
        inl (IntegrityError "UNIQUE constraint failed: Enrollments.student_id, Enrollments.course_id, Enrollments.semester, Enrollments.academic_year")
      else
        let id := next_rowid Enrollment.enrollment_id t in
        inr (set_Enrollments (Some (mk_table (rows t ++ [Enrollment.mk_row id r]) id)) d)
  end.

(** The queries.  SQL leaves the order of the rows open; SQLite answers
    each of the program's three [SELECT]s from the automatic index of a
    [UNIQUE] or [PRIMARY KEY] text column, which covers the columns asked
    for ([sqlite_autoindex_Departments_1] on [department_name],
    [sqlite_autoindex_Students_1] on [email], [sqlite_autoindex_Courses_1]
    on [course_id]).  The rows therefore come back sorted by that column,
    compared byte by byte (the [BINARY] collation), and rows with equal
    keys in the order of their row ids, which is the order of insertion. *)
Fixpoint index_insert {R : Type} (key : R -> string) (x : R) (l : list R) : list R :=
  match l with
  | [] => [x]
  | y :: l' =>
      if String.leb (key x) (key y) then x :: l else y :: index_insert key x l'
  end.

Definition index_order {R : Type} (key : R -> string) (l : list R) : list R :=
  foldr (index_insert key) [] l.

Definition select_from {R A : Type} (name : string) (t : option (table R))
    (key : R -> string) (col : R -> A) : exn + list A :=
  match t with
  | None => inl (no_such_table name)
  | Some t => inr (col <$> index_order key (rows t))
  end.

(** [SELECT department_id, department_name FROM Departments] *)
Definition select_departments (d : database) : exn + list (Z * string) :=
  select_from "Departments" (Departments d) Department.department_name
    (fun r => (Department.department_id r, Department.department_name r)).
(** [SELECT student_id FROM Students] *)
Definition select_student_ids (d : database) : exn + list Z :=
  select_from "Students" (Students d)
    (fun r => Student.email (Student.data r)) Student.student_id.
(** [SELECT course_id FROM Courses] *)
Definition select_course_ids (d : database) : exn + list string :=
  select_from "Courses" (Courses d) Course.course_id Course.course_id.

(** [SELECT COUNT( * ) FROM name] *)
Definition count_rows {R : Type} (name : string) (t : option (table R)) : exn + Z :=
  match t with
  | None => inl (no_such_table name)
  | Some t => inr (Z.of_nat (length (rows t)))
  end.

(** ** Cursor and connection methods *)

(** Anything done through [self.cursor] or [self.conn] needs them to be
    set and open. *)
Definition with_connection {A : Type} (attr : string)
    (k : connection -> M A) : M A :=
  fun s =>
    match conn s with
    | None =>
        (Raise (AttributeError
                  ("'NoneType' object has no attribute '" +:+ attr +:+ "'")), s)
    | Some c =>
        if closed c
        then (Raise (ProgrammingError "Cannot operate on a closed database."), s)
        else k c s
    end.

(** [self.cursor.execute] of a [SELECT]. *)
Definition execute_query {A : Type} (q : database -> exn + A) : M A :=
  with_connection "execute" (fun c =>
    match q (view c) with
    | inl e => raise e
    | inr a => mret a
    end).

(** [self.cursor.execute] of an [INSERT]: the module opens a transaction
    first if none is open. *)
Definition execute_dml (stmt : database -> exn + database) : M unit :=
  with_connection "execute" (fun c =>
    match stmt (view c) with
    | inl e =>
        modify (set_conn (Some (mk_connection false (view c) true)));; raise e
    | inr d => modify (set_conn (Some (mk_connection false d true)))
    end).

(** [self.cursor.execute] of a [DROP TABLE] or [CREATE TABLE]: it runs
    inside the open transaction if there is one and is written through to
    the file otherwise. *)
Definition execute_ddl (stmt : database -> exn + database) : M unit :=
  with_connection "execute" (fun c =>
    match stmt (view c) with
    | inl e => raise e
    | inr d =>
        modify (set_conn (Some (mk_connection false d (in_transaction c))));;
        if in_transaction c then mret tt else modify (set_disk d)
    end).

(** [self.cursor.executemany(sql, seq_of_rows)] *)
Definition executemany {T : Type} (stmt : T -> database -> exn + database)
    (seq_of_rows : list T) : M unit :=
  with_connection "executemany" (fun _ =>
    for_each seq_of_rows (fun r => execute_dml (stmt r))).

(** [self.conn.commit()] *)
Definition commit : M unit :=
  with_connection "commit" (fun c =>
    modify (set_disk (view c));;
    modify (set_conn (Some (mk_connection false (view c) false)))).

(** [if self.conn: self.conn.close()]: a connection object is always
    truthy; closing discards what was not committed. *)
Definition close_if_connected : M unit :=
  fun s =>
    match conn s with
    | None => (Ok tt, s)
    | Some _ => (Ok tt, set_conn (Some (mk_connection true (disk s) false)) s)
    end.

(** ** Control flow *)

(** A loop that rebinds a local variable: [for x in l: acc = body x acc]. *)
Fixpoint for_acc {A S : Type} (l : list A) (acc : S) (body : A -> S -> M S) : M S :=
  match l with
  | [] => mret acc
  | x :: l' => acc' ← body x acc; for_acc l' acc' body
  end.

(** [try: body except C as e: handler e], where [handles] decides
    [isinstance(e, C)]. *)
Definition try_except {A : Type} (body : M A) (handles : exn -> bool)
    (handler : exn -> M A) : M A :=
  fun s =>
    match body s with
    | (Raise e, s') => if handles e then handler e s' else (Raise e, s')
    | r => r
    end.

(** [try: body finally: final]. *)
Definition try_finally {A : Type} (body : M A) (final : M unit) : M A :=
  fun s =>
    match body s with
    | (Diverge, s') => (Diverge, s')
    | (r, s') =>
        match final s' with
        | (Ok _, s'') => (r, s'')
        | (Raise e, s'') => (Raise e, s'')
        | (Diverge, s'') => (Diverge, s'')
        end
    end.

(** ** Numbers *)

(** Round a rational to the nearest integer, ties to the even neighbour. *)
Definition round_half_even (q : Q) : Z :=
  let n := Qnum q in
  let d := Z.pos (Qden q) in
  let fl := n / d in
  match 2 * (n mod d) ?= d with
  | Lt => fl
  | Gt => fl + 1
  | Eq => if Z.even fl then fl else fl + 1
  end.

(** [round(x, ndigits)] on a float [x]: the exact value of [x] is rounded
    half-even to [ndigits] decimals.  Floats are carried as the rationals
    they denote; the float that [round] returns is the one nearest to the
    decimal computed here, so bounds that are floats themselves (0.0, 2.0,
    4.0) hold of the one when they hold of the other. *)
Definition py_round (x : Q) (ndigits : nat) : Q :=
  let p := 10 ^ Z.of_nat ndigits in
  Qmake (round_half_even (x * inject_Z p)) (Z.to_pos p).

(** ** The oracles *)

(** What the run takes from outside: the successive words produced by the
    generator behind [random], the successive answers of the [Faker]
    instance, and whether [sqlite3.connect] can open the file. *)
Record oracle : Type := mk_oracle {
  raw : nat -> N;
  first_name_tape : nat -> string;
  last_name_tape : nat -> string;
  date_of_birth_tape : nat -> Z;
  connectable : bool
}.

Section Generator.

Context (env : oracle).

(** *** The [random] module *)

Definition next_raw : M N :=
  fun s => (Ok (raw env (rand_pos s)), set_rand_pos (S (rand_pos s)) s).

(** [random._randbelow(n)] for [n > 0]: any of [0 .. n-1]. *)
Definition randbelow (n : N) : M N :=
  r ← next_raw; mret (r mod n)%N.

(** [random.randint(a, b)] *)
Definition randint (a b : Z) : M Z :=
  if decide (b < a) then raise (ValueError "empty range for randrange()")
  else r ← randbelow (Z.to_N (b - a + 1)); mret (a + Z.of_N r).

(** [random.choice(seq)] *)
Definition choice {A : Type} (seq : list A) : M A :=
  match seq with
  | [] => raise (IndexError "Cannot choose from an empty sequence")
  | _ :: _ =>
      i ← randbelow (N.of_nat (length seq));
      match seq !! N.to_nat i with
      | Some x => mret x
      | None => raise (IndexError "list index out of range")
      end
  end.

(** [random.random()]: a multiple of 2^-53 in [0, 1). *)
Definition random : M Q :=
  r ← next_raw; mret (Qmake (Z.of_N (r mod 9007199254740992)%N) 9007199254740992).

(** [random.uniform(a, b)], that is [a + (b - a) * random()].  The sum and
    the product are taken exactly.  In the one call the program makes,
    [uniform(2.0, 4.0)], binary64 arithmetic differs only in rounding the
    sum to a float of the same range, 4.0 included. *)
Definition uniform (a b : Q) : M Q :=
  r ← random; mret (a + (b - a) * r)%Q.

(** The selection loop of [random.sample] over its private copy [pool] of
    the population: [m] positions are still unselected; the chosen slot is
    refilled with the last unselected item. *)
Fixpoint sample_loop {A : Type} (k : nat) (m : nat) (pool : list A) : M (list A) :=
  match k with
  | O => mret []
  | S k' =>
      j ← randbelow (N.of_nat m);
      match pool !! N.to_nat j, pool !! (m - 1)%nat with
      | Some x, Some y =>
          rest ← sample_loop k' (m - 1)%nat (<[N.to_nat j := y]> pool);
          mret (x :: rest)
      | _, _ => raise (IndexError "list index out of range")
      end
  end.

(** [random.sample(population, k)] *)
Definition sample {A : Type} (population : list A) (k : Z) : M (list A) :=
  if decide (0 <= k <= Z.of_nat (length population))
  then sample_loop (Z.to_nat k) (length population) population
  else raise (ValueError "Sample larger than population or is negative").

(** *** The [Faker] instance *)

Definition fake_draw {A : Type} (tape : nat -> A) : M A :=
  fun s => (Ok (tape (fake_pos s)), set_fake_pos (S (fake_pos s)) s).

(** [self.fake.first_name()] and [self.fake.last_name()]: any string. *)
Definition fake_first_name : M string := fake_draw (first_name_tape env).
Definition fake_last_name : M string := fake_draw (last_name_tape env).
(** [self.fake.date_of_birth(minimum_age=18, maximum_age=30)]: a date,
    kept as its day number; nothing below looks into it. *)
Definition fake_date_of_birth : M Z := fake_draw (date_of_birth_tape env).

(** *** [create_connection] *)

(** [sqlite3.connect(self.db_name)] followed by [self.conn.cursor()]: the
    file is opened, or made if there is none, unless the environment
    refuses; the connection then sees what the file holds.  ([connect]
    does not read the file: a file that is not a database would be found
    out by the first statement; [database] has no such files.) *)
Definition create_connection : M unit :=
  if connectable env
  then modify (fun s => set_conn (Some (mk_connection false (disk s) false)) s)
  else raise (OperationalError "unable to open database file").

(** *** [generate_unique_email] *)

Definition email_of (base suffix : string) : string :=
  base +:+ suffix +:+ "@university.edu".

(** The [while email in self.used_emails] loop, entered with the current
    [email] and [counter]; [fuel] bounds the number of iterations. *)
Fixpoint email_loop (fuel : nat) (used : gset string) (base : string)
    (counter : N) (email : string) : option string :=
  if decide (email ∈ used) then
    match fuel with
    | O => None
    | S fuel' =>
        email_loop fuel' used base (counter + 1)%N (email_of base (pretty counter))
    end
  else Some email.

Definition base_email (first_name last_name : string) : string :=
  lower first_name +:+ "." +:+ lower last_name.

Definition generate_unique_email (first_name last_name : string) : M string :=
  s ← get;
  match email_loop (S (size (used_emails s))) (used_emails s)
          (base_email first_name last_name) 1%N
          (email_of (base_email first_name last_name) "") with
  | Some email =>
      modify (fun s => set_used_emails ({[email]} ∪ used_emails s) s);;
      mret email
  | None => diverge
  end.

(** *** [create_tables] *)

Definition create_tables : M unit :=
  let tables := ["Enrollments"; "Courses"; "Departments"; "Students"] in
  for_each tables (fun table => execute_ddl (drop_table_if_exists table));;
  execute_ddl create_table_Students;;
  execute_ddl create_table_Departments;;
  execute_ddl create_table_Courses;;
  execute_ddl create_table_Enrollments.

(** *** [generate_departments] *)

Definition departments : list (string * Z) :=
  [("Computer Science", 1985); ("Mathematics", 1970); ("Physics", 1960);
   ("Biology", 1975); ("Chemistry", 1965); ("Engineering", 1980);
   ("Economics", 1990)].

Definition generate_departments : M unit :=
  executemany insert_department departments.

(** *** [generate_courses] *)

Definition course_levels : list string :=
  ["Introductory"; "Intermediate"; "Advanced"].

(** The two nested loops that fill the local list [courses]. *)
Definition build_courses (departments : list (Z * string)) : M (list Course.t) :=
  for_acc departments [] (fun dept courses =>
    let '(dept_id, dept_name) := dept in
    for_acc course_levels courses (fun level courses =>
      let course_name := dept_name +:+ " " +:+ level +:+ " Course" in
      n ← randint 100 999;
      let course_id := upper (slice_to 3 dept_name) +:+ pretty n in
      credit_hours ← choice [3; 4];
      mret (courses ++ [Course.mk course_id course_name dept_id credit_hours level]))).

Definition generate_courses : M unit :=
  departments ← execute_query select_departments;
  courses ← build_courses departments;
  executemany insert_course courses.

(** *** [generate_students] *)

Definition gender_options : list string := ["Male"; "Female"; "Other"].
Definition status_options : list string :=
  ["Active"; "Inactive"; "Graduated"; "Suspended"].

(** The loop that fills the local list [students]. *)
Definition build_students (num_students : nat) : M (list Student.t) :=
  for_acc (seq 0 num_students) [] (fun _ students =>
    first_name ← fake_first_name;
    last_name ← fake_last_name;
    gender ← choice gender_options;
    dob ← fake_date_of_birth;
    email ← generate_unique_email first_name last_name;
    status ← choice status_options;
    total_credits ← randint 0 120;
    x ← uniform 2 4;
    let gpa := py_round x 2 in
    mret (students ++
            [Student.mk first_name last_name gender dob email status total_credits gpa])).

Definition generate_students (num_students : nat) : M unit :=
  students ← build_students num_students;
  executemany insert_student students.

(** *** [generate_enrollments] *)

Definition semesters : list string := ["Fall"; "Spring"; "Summer"].
(** [list(range(2018, 2024))] *)
Definition academic_years : list Z := seqZ 2018 (2024 - 2018).

(** The two nested loops that fill the local list [enrollments]. *)
Definition build_enrollments (students : list Z) (courses : list string)
    : M (list Enrollment.t) :=
  for_acc students [] (fun student_id enrollments =>
    num_courses ← randint 3 5;
    enrolled_courses ← sample courses num_courses;
    for_acc enrolled_courses enrollments (fun course_id enrollments =>
      semester ← choice semesters;
      academic_year ← choice academic_years;
      x ← uniform 2 4;
      let grade := py_round x 2 in
      mret (enrollments ++
              [Enrollment.mk student_id course_id semester academic_year grade]))).

Definition generate_enrollments : M unit :=
  students ← execute_query select_student_ids;
  courses ← execute_query select_course_ids;
  enrollments ← build_enrollments students courses;
  executemany insert_enrollment enrollments.

(** *** [run_database_generation] *)

(** The stages that run before the enrollments are generated, each followed
    by its commit; [generate_students] is called with [num_students]. *)
Definition seed_stages (num_students : nat) : M unit :=
  create_connection;;
  create_tables;;
  generate_departments;;
  commit;;
  generate_courses;;
  commit;;
  generate_students num_students;;
  commit.

Definition count_query (name : string) (d : database) : exn + Z :=
  if String.eqb name "Students" then count_rows name (Students d)
  else if String.eqb name "Courses" then count_rows name (Courses d)
  else count_rows name (Enrollments d).

(** The statements after the seeding stages: the last stage, the success
    message and the three verification queries. *)
Definition report : M unit :=
  generate_enrollments;;
  commit;;
  print "University Database generated successfully!";;
  student_count ← execute_query (count_query "Students");
  print ("Total Students: " +:+ pretty student_count);;
  course_count ← execute_query (count_query "Courses");
  print ("Total Courses: " +:+ pretty course_count);;
  enrollment_count ← execute_query (count_query "Enrollments");
  print ("Total Enrollments: " +:+ pretty enrollment_count).

(** The default of [generate_students]'s parameter. *)
Definition default_num_students : nat := 1200.

(** The block under [try:]. *)
Definition generation_body : M unit :=
  seed_stages default_num_students;; report.

(** [try: body except sqlite3.Error as e: print(...) finally: ...] *)
Definition guarded (body : M unit) : M unit :=
  try_finally
    (try_except body is_sqlite3_Error
       (fun e => print ("Database error: " +:+ exn_str e)))
    close_if_connected.

Definition run_database_generation : M unit := guarded generation_body.

(** *** [main] *)



End Generator.

(** * Vocabulary of the statements *)

(** [returns m s Q]: from [s] the computation [m] returns normally, with a
    result and a final state that satisfy [Q]. *)
Definition returns {A : Type} (m : M A) (s : state) (Q : A -> state -> Prop) : Prop :=
  exists a s', m s = (Ok a, s') /\ Q a s'.

(** [ensures m s Q]: if [m] returns normally from [s], then [Q] holds. *)
Definition ensures {A : Type} (m : M A) (s : state) (Q : A -> state -> Prop) : Prop :=
  forall a s', m s = (Ok a, s') -> Q a s'.

(** A step that only reads the tapes: everything but the two tape
    positions is as before. *)
Definition drew (s s' : state) : Prop :=
  conn s' = conn s /\ used_emails s' = used_emails s /\
  disk s' = disk s /\ stdout s' = stdout s.

(** [first_free used base email]: [email] is the address the loop of
    [generate_unique_email] settles on, the first free one in the series
    [base@..., base1@..., base2@..., ...]. *)
Definition first_free (used : gset string) (base email : string) : Prop :=
  ((email_of base "" ∉ used) /\ email = email_of base "") \/
  (email_of base "" ∈ used /\
   exists j, (1 <= j)%N /\ email = email_of base (pretty j) /\
     forall i, (1 <= i < j)%N -> email_of base (pretty i) ∈ used).

(** What is claimed of every generated student record. *)
Definition student_ok (r : Student.t) : Prop :=
  Student.gender r ∈ gender_options /\
  Student.enrollment_status r ∈ status_options /\
  0 <= Student.total_credits r <= 120 /\
  exists h, Student.gpa r = Qmake h 100 /\ 200 <= h <= 400.

(** What is claimed of every generated enrollment record. *)
Definition enrollment_ok (e : Enrollment.t) : Prop :=
  Enrollment.semester e ∈ ["Fall"; "Spring"; "Summer"] /\
  2018 <= Enrollment.academic_year e <= 2023 /\
  exists h, Enrollment.grade e = Qmake h 100 /\ 200 <= h <= 400.

(** The records appended for one student: all carry the student's id, their
    courses are distinct members of [courses], and there are 3 to 5. *)
Definition block_ok (courses : list string) (student_id : Z)
    (b : list Enrollment.t) : Prop :=
  Forall (fun e => Enrollment.student_id e = student_id /\ enrollment_ok e) b /\
  NoDup (Enrollment.course_id <$> b) /\
  (forall c, c ∈ Enrollment.course_id <$> b -> c ∈ courses) /\
  (3 <= length b <= 5)%nat.

(** The enrollment records of one student. *)
Definition rows_of (student_id : Z) (l : list Enrollment.t) : list Enrollment.t :=
  filter (fun e => Enrollment.student_id e = student_id) l.

(** The database as the open connection sees it. *)
Definition open_view (s : state) : option database :=
  match conn s with
  | Some c => if closed c then None else Some (view c)
  | None => None
  end.

(** The statements of an [executemany] applied one after the other. *)
Fixpoint run_statements {T : Type} (stmt : T -> database -> exn + database)
    (l : list T) (d : database) : exn + database :=
  match l with
  | [] => inr d
  | r :: l' =>
      match stmt r d with
      | inl e => inl e
      | inr d' => run_statements stmt l' d'
      end
  end.

(** The schema right after [create_tables]: four empty tables. *)
Definition fresh_schema : database :=
  mk_database (Some empty_table) (Some empty_table) (Some empty_table)
    (Some empty_table).

(** The database right after [generate_departments]. *)
Definition seeded_departments : database :=
  set_Departments
    (Some (mk_table
       [Department.mk_row 1 "Computer Science" 1985;
        Department.mk_row 2 "Mathematics" 1970;
        Department.mk_row 3 "Physics" 1960;
        Department.mk_row 4 "Biology" 1975;
        Department.mk_row 5 "Chemistry" 1965;
        Department.mk_row 6 "Engineering" 1980;
        Department.mk_row 7 "Economics" 1990] 7))
    fresh_schema.

(** The (department, level) pairs for which [generate_courses] makes a
    course, in the order it makes them. *)
Definition course_slots (departments : list (Z * string)) : list (Z * string) :=
  concat ((fun d => (fun level => (d.1, level)) <$> course_levels) <$> departments).

Definition slot_of (c : Course.t) : Z * string :=
  (Course.department_id c, Course.course_level c).

(** The departments as [generate_courses] reads them back: in the order
    of their names. *)
Definition seeded_department_list : list (Z * string) :=
  [(4, "Biology"); (5, "Chemistry"); (1, "Computer Science");
   (7, "Economics"); (6, "Engineering"); (2, "Mathematics"); (3, "Physics")].

(** The store when the stages before [generate_enrollments] have all
    returned: 21 courses with distinct ids, one per department and level,
    [num_students] students with distinct ids, and no enrollment yet. *)
Definition seeded (num_students : nat) (s : state) : Prop :=
  exists v tc ts,
    open_view s = Some v /\
    Courses v = Some tc /\
    slot_of <$> rows tc = course_slots seeded_department_list /\
    NoDup (Course.course_id <$> rows tc) /\
    Students v = Some ts /\
    length (rows ts) = num_students /\
    NoDup (Student.student_id <$> rows ts) /\
    Enrollments v = Some empty_table.

(** The student ids and the course ids as the two queries of
    [generate_enrollments] return them over the open connection, and the
    enrollment tuples that the connection sees. *)
Definition student_ids (s : state) : list Z :=
  match open_view s with
  | Some v =>
      match select_student_ids v with
      | inr l => l
      | inl _ => []
      end
  | None => []
  end.

Definition course_ids (s : state) : list string :=
  match open_view s with
  | Some v =>
      match select_course_ids v with
      | inr l => l
      | inl _ => []
      end
  | None => []
  end.

Definition enrollment_rows (s : state) : list Enrollment.t :=
  match open_view s with
  | Some v =>
      match Enrollments v with
      | Some t => Enrollment.data <$> rows t
      | None => []
      end
  | None => []
  end.

(** A world in which nothing has happened yet: no database file content,
    nothing printed, both tapes at their start. *)
Definition initial_state : state :=
  mk_state "university_database.db" None ∅ empty_database [] 0 0.

(** An oracle whose names repeat, so that email suffixes are needed. *)
Definition sample_env : oracle :=
  mk_oracle (fun i => (N.of_nat i * 1234567890123457 + 13)%N)
    (fun i => if Nat.even i then "Ann" else "Bob")
    (fun _ => "Lee")
    (fun i => Z.of_nat i)
    true.

(** The state of a run over [sample_env] with three students, at the
    point where [generate_enrollments] is called. *)
Definition sample_seeded_state : state :=
  (seed_stages sample_env 3 initial_state).2.

(** An open connection in the middle of a transaction, over a database
    that already holds the departments, and a state that has it. *)
Definition sample_connection : connection :=
  mk_connection false seeded_departments true.

Definition sample_open_state : state :=
  set_conn (Some sample_connection) initial_state.

(** An oracle under which the first two course numbers drawn for the first
    department coincide: the draws at tape positions 0 and 2 are the
    [randint(100, 999)] calls for the Introductory and the Intermediate
    course of the department that is read first. *)
Definition colliding_env : oracle :=
  mk_oracle (fun i => if decide (i = 0 \/ i = 2)%nat then 5%N
                      else (N.of_nat i * 37 + 11)%N)
    (fun _ => "Ann") (fun _ => "Lee") (fun _ => 0) true.

(** The state [create_tables] leaves behind: the connection sees the four
    empty tables, and so does the file unless a transaction is open. *)
Definition after_create_tables (s : state) (c : connection) : state :=
  let s1 := set_conn (Some (mk_connection false fresh_schema (in_transaction c))) s in
  if in_transaction c then s1 else set_disk fresh_schema s1.

(** [terminates m]: from no state does [m] run forever. *)
Definition terminates {A : Type} (m : M A) : Prop :=
  forall s, (m s).1 <> Diverge.

(** The state after the [finally] clause. *)
Definition release (s : state) : state := (close_if_connected s).2.

(** The state after the [except] clause has printed [e]. *)
Definition log_database_error (e : exn) (s : state) : state :=
  set_stdout (stdout s ++ ["Database error: " +:+ exn_str e]) s.

(** The run up to the point where [generate_courses] is called. *)
Definition stages_before_courses (env : oracle) : M unit :=
  create_connection env;; create_tables;; generate_departments;; commit.

(** ** Vocabulary of the further properties *)

(** [excepts m s Q E]: from [s] the computation [m] returns with [Q] or
    raises an exception with [E]. *)
Definition excepts {A : Type} (m : M A) (s : state)
    (Q : A -> state -> Prop) (E : exn -> state -> Prop) : Prop :=
  match m s with
  | (Ok a, s') => Q a s'
  | (Raise e, s') => E e s'
  | (Diverge, _) => False
  end.

(** The (department, level) pairs in the order [generate_courses] visits
    them, each with the whole department row it read. *)
Definition department_levels (departments : list (Z * string))
    : list ((Z * string) * string) :=
  concat ((fun d => (fun level => (d, level)) <$> course_levels) <$> departments).

(** What the loop body of [generate_courses] makes for one department and
    one level. *)
Definition course_for (slot : (Z * string) * string) (c : Course.t) : Prop :=
  (exists n, 100 <= n <= 999 /\
     Course.course_id c = upper (slice_to 3 slot.1.2) +:+ pretty n) /\
  Course.course_name c = slot.1.2 +:+ " " +:+ slot.2 +:+ " Course" /\
  Course.department_id c = slot.1.1 /\
  Course.credit_hours c ∈ [3; 4] /\
  Course.course_level c = slot.2.

(** The state in which [generate_courses] is called in a run over
    [sample_env]. *)
Definition sample_state_before_courses : state :=
  (stages_before_courses sample_env initial_state).2.

(** [keeps f m]: whatever [m] does, the component [f] of the state is
    afterwards what it was before. *)
Definition keeps {A B : Type} (f : state -> B) (m : M A) : Prop :=
  forall s, f (m s).2 = f s.

(** The course ids stored in a table, and the department rows of a table
    in the order in which the query of [generate_courses] returns them. *)
Definition table_course_ids (t : table Course.t) : list string :=
  Course.course_id <$> rows t.

Definition table_departments (t : table Department.row) : list (Z * string) :=
  (fun r => (Department.department_id r, Department.department_name r)) <$>
    index_order Department.department_name (rows t).

(** The emails and ids stored in a Students table. *)
Definition table_emails (t : table Student.row) : list string :=
  (fun r => Student.email (Student.data r)) <$> rows t.

Definition table_student_ids (t : table Student.row) : list Z :=
  Student.student_id <$> rows t.

(** The rows that [INSERT] makes of a list of student tuples when the
    first of them receives the id [first_id]. *)
Definition student_rows_from (first_id : Z) (l : list Student.t) : list Student.row :=
  zip_with Student.mk_row (seqZ first_id (Z.of_nat (length l))) l.

(** An open connection over [seeded_departments] whose manager has just
    been made. *)
Definition sample_state_before_students : state :=
  (stages_before_courses sample_env initial_state).2.

(** The state once the connection is made, the schema created and the
    departments committed: the manager and the tapes are as in [s]. *)
Definition departments_committed (s : state) : state :=
  mk_state (db_name s) (Some (mk_connection false seeded_departments false))
    (used_emails s) seeded_departments (stdout s) (rand_pos s) (fake_pos s).

(** The database of a run that has stored the courses [courses] and the
    students [students], and the enrollments [enrollments] if a list is
    given; [last] and [last'] stand for the [sqlite_sequence] entries. *)
Definition run_database (courses : list Course.t) (students : list Student.t)
    (last : Z) (enrollments : option (table Enrollment.row)) : database :=
  mk_database (Some (mk_table (student_rows_from 1 students) last))
    (Departments seeded_departments)
    (Some (mk_table courses 0))
    enrollments.

(** The messages the run can end on. *)
Definition connect_error : exn := OperationalError "unable to open database file".
Definition course_id_error : exn :=
  IntegrityError "UNIQUE constraint failed: Courses.course_id".

(** What a method of the cursor or of the connection raises when the
    manager has no open connection: [self.cursor] and [self.conn] are
    still [None], or the connection has been closed. *)
Definition not_connected (attr : string) (s : state) : exn :=
  match conn s with
  | None => AttributeError ("'NoneType' object has no attribute '" +:+ attr +:+ "'")
  | Some _ => ProgrammingError "Cannot operate on a closed database."
  end.

(** A database with one student and no course, and a manager connected to
    it. *)
Definition lone_student_database : database :=
  mk_database
    (Some (mk_table
       [Student.mk_row 1
          (Student.mk "Ann" "Lee" "Female" 0 "ann.lee@university.edu"
             "Active" 30 (Qmake 350 100))] 1))
    (Some empty_table) (Some empty_table) (Some empty_table).

Definition lone_student_state : state :=
  set_conn (Some (mk_connection false lone_student_database false)) initial_state.

(** The addresses issued before the [k]-th student of [students] is
    built, in a call of [build_students] made in state [s]. *)
Definition issued_before (s : state) (students : list Student.t) (k : nat)
    : gset string :=
  list_to_set (Student.email <$> take k students) ∪ used_emails s.

(** The [k]-th address of the series [base@], [base1@], [base2@], ... *)
Definition numbered_email (base : string) (k : nat) : string :=
  email_of base (match k with O => "" | S _ => pretty (N.of_nat k) end).

(** The names stored in a Departments table. *)
Definition table_department_names (t : table Department.row) : list string :=
  Department.department_name <$> rows t.

(** The rows that [INSERT] makes of a list of (name, year) pairs when the
    first of them receives the id [first_id]. *)
Definition department_rows_from (first_id : Z) (l : list (string * Z))
    : list Department.row :=
  zip_with (fun id r => Department.mk_row id r.1 r.2)
    (seqZ first_id (Z.of_nat (length l))) l.

(** A manager connected to a file that holds the four empty tables. *)
Definition sample_fresh_state : state :=
  mk_state "university_database.db" (Some (mk_connection false fresh_schema false))
    ∅ fresh_schema [] 0 0.

(** * Properties *)

(** ** Reasoning about computations *)

Lemma returns_ret {A} (a : A) s (Q : A -> state -> Prop) :
  Q a s -> returns (mret a) s Q.
Proof. intros HQ. exists a, s. split; [reflexivity | exact HQ]. Qed.

Lemma returns_bind {A B} (m : M A) (f : A -> M B) s (Q : B -> state -> Prop) :
  returns m s (fun a s1 => returns (f a) s1 Q) -> returns (m ≫= f) s Q.
Proof.
  intros (a & s1 & Hm & b & s2 & Hf & HQ). exists b, s2. split; [|exact HQ].
  unfold mbind, M_bind, bind. rewrite Hm. exact Hf.
Qed.

Lemma returns_mono {A} (m : M A) s (P Q : A -> state -> Prop) :
  returns m s P -> (forall a s', P a s' -> Q a s') -> returns m s Q.
Proof. intros (a & s' & Hm & HP) HPQ. exists a, s'. auto. Qed.

Lemma returns_ensures {A} (m : M A) s (Q : A -> state -> Prop) :
  returns m s Q -> ensures m s Q.
Proof.
  intros (a & s' & Hm & HQ) a' s'' Hm'. rewrite Hm in Hm'.
  injection Hm' as <- <-. exact HQ.
Qed.

Lemma ensures_bind {A B} (m : M A) (f : A -> M B) s (Q : B -> state -> Prop) :
  ensures m s (fun a s1 => ensures (f a) s1 Q) -> ensures (m ≫= f) s Q.
Proof.
  intros Hm b s2. unfold mbind, M_bind, bind.
  destruct (m s) as [[a| |] s1] eqn:E; try discriminate.
  intros Hf. exact (Hm a s1 E b s2 Hf).
Qed.

Lemma ensures_mono {A} (m : M A) s (P Q : A -> state -> Prop) :
  ensures m s P -> (forall a s', P a s' -> Q a s') -> ensures m s Q.
Proof. intros HP HPQ a s' Hm. apply HPQ, HP, Hm. Qed.

Lemma bind_Ok_inv {A B} (m : M A) (f : A -> M B) s b s2 :
  (m ≫= f) s = (Ok b, s2) ->
  exists a s1, m s = (Ok a, s1) /\ f a s1 = (Ok b, s2).
Proof.
  unfold mbind, M_bind, bind.
  destruct (m s) as [[a| |] s1]; try discriminate. eauto.
Qed.

Lemma bind_Ok {A B} (m : M A) (f : A -> M B) s a s1 :
  m s = (Ok a, s1) -> (m ≫= f) s = f a s1.
Proof. intros Hm. unfold mbind, M_bind, bind. rewrite Hm. reflexivity. Qed.

(** The loop rule: an invariant over the items already processed. *)
Lemma for_acc_returns {A S} (body : A -> S -> M S)
    (Inv : list A -> S -> state -> Prop) (l : list A) :
  forall done acc s,
    Inv done acc s ->
    (forall done' x acc s, Inv done' acc s -> x ∈ l ->
       returns (body x acc) s (Inv (done' ++ [x]))) ->
    returns (for_acc l acc body) s (Inv (done ++ l)).
Proof.
  induction l as [|x l IH]; intros done acc s HI Hbody; simpl.
  - rewrite app_nil_r. apply returns_ret, HI.
  - apply returns_bind.
    eapply returns_mono; [apply (Hbody done x acc s HI); left|].
    intros acc' s' HI'. simpl.
    replace (done ++ x :: l) with ((done ++ [x]) ++ l)
      by (rewrite <- app_assoc; reflexivity).
    apply IH; [exact HI'|].
    intros d y a' t Ht Hy. apply Hbody; [exact Ht | right; exact Hy].
Qed.

Lemma for_acc_ensures {A S} (body : A -> S -> M S)
    (Inv : list A -> S -> state -> Prop) (l : list A) :
  forall done acc s,
    Inv done acc s ->
    (forall done' x acc s, Inv done' acc s -> x ∈ l ->
       ensures (body x acc) s (Inv (done' ++ [x]))) ->
    ensures (for_acc l acc body) s (Inv (done ++ l)).
Proof.
  induction l as [|x l IH]; intros done acc s HI Hbody; simpl.
  - rewrite app_nil_r. intros a s' [= <- <-]. exact HI.
  - apply ensures_bind. intros acc' s' Hb.
    replace (done ++ x :: l) with ((done ++ [x]) ++ l)
      by (rewrite <- app_assoc; reflexivity).
    apply IH; [exact (Hbody done x acc s HI ltac:(left) acc' s' Hb)|].
    intros d y a' t Ht Hy. apply Hbody; [exact Ht | right; exact Hy].
Qed.

(** ** The library calls *)

Lemma drew_refl s : drew s s.
Proof. repeat split. Qed.

Lemma drew_trans s1 s2 s3 : drew s1 s2 -> drew s2 s3 -> drew s1 s3.
Proof.
  intros (H1 & H2 & H3 & H4) (K1 & K2 & K3 & K4).
  repeat split; congruence.
Qed.

Lemma round_half_even_bounds (q : Q) (a b : Z) :
  (inject_Z a <= q)%Q -> (q <= inject_Z b)%Q ->
  a <= round_half_even q <= b.
Proof.
  destruct q as [n d]. unfold Qle, round_half_even, inject_Z. simpl.
  intros Ha Hb.
  pose proof (Z.div_mod n (Z.pos d) ltac:(lia)) as Hdm.
  pose proof (Z.mod_pos_bound n (Z.pos d) ltac:(lia)) as Hm.
  assert (Hlo : a <= n / Z.pos d) by (apply Z.div_le_lower_bound; lia).
  assert (Hhi : n / Z.pos d <= b) by (apply Z.div_le_upper_bound; lia).
  destruct (Z.compare_spec (2 * (n mod Z.pos d)) (Z.pos d)) as [E|E|E].
  - destruct (Z.even (n / Z.pos d)); [lia|]. nia.
  - lia.
  - nia.
Qed.

Lemma py_round_2_bounds (x : Q) (lo hi : Z) :
  (inject_Z lo <= x)%Q -> (x <= inject_Z hi)%Q ->
  exists h, py_round x 2 = Qmake h 100 /\ 100 * lo <= h <= 100 * hi.
Proof.
  intros Hlo Hhi. exists (round_half_even (x * inject_Z 100)).
  split; [reflexivity|].
  apply round_half_even_bounds.
  - destruct x as [n d]. revert Hlo. unfold Qle, Qmult, inject_Z. simpl.
    rewrite Pos.mul_1_r. lia.
  - destruct x as [n d]. revert Hhi. unfold Qle, Qmult, inject_Z. simpl.
    rewrite Pos.mul_1_r. lia.
Qed.

Section Library.

Context (env : oracle).

Lemma next_raw_returns s :
  returns (next_raw env) s (fun _ s' => drew s s').
Proof. eexists _, _. split; [reflexivity|]. repeat split. Qed.

Lemma randbelow_returns n s :
  (0 < n)%N ->
  returns (randbelow env n) s (fun r s' => (r < n)%N /\ drew s s').
Proof.
  intros Hn. eexists _, _. split; [reflexivity|].
  split; [apply N.mod_lt; lia | repeat split].
Qed.

Lemma randint_returns a b s :
  a <= b ->
  returns (randint env a b) s (fun z s' => a <= z <= b /\ drew s s').
Proof.
  intros Hab. unfold randint. destruct (decide (b < a)) as [?|_]; [lia|].
  apply returns_bind.
  eapply returns_mono; [apply randbelow_returns; lia|].
  intros r s' [Hr Hs]. apply returns_ret. split; [lia | exact Hs].
Qed.

Lemma choice_returns {A} (l : list A) s :
  l <> [] ->
  returns (choice env l) s (fun x s' => x ∈ l /\ drew s s').
Proof.
  intros Hl. unfold choice. destruct l as [|x0 l0]; [done|].
  set (l := x0 :: l0).
  apply returns_bind.
  eapply returns_mono; [apply randbelow_returns; simpl; lia|].
  intros r s' [Hr Hs]. cbv beta.
  destruct (lookup_lt_is_Some_2 l (N.to_nat r)) as [x Hx]; [lia|].
  rewrite Hx. apply returns_ret. split; [|exact Hs].
  eapply list_elem_of_lookup_2, Hx.
Qed.

Lemma random_returns s :
  returns (random env) s (fun r s' => (0 <= r)%Q /\ (r <= 1)%Q /\ drew s s').
Proof.
  eexists _, _. split; [reflexivity|].
  set (k := (raw env (rand_pos s) mod 9007199254740992)%N).
  assert (Hk : (k < 9007199254740992)%N) by (apply N.mod_lt; lia).
  repeat split; unfold Qle; simpl; lia.
Qed.

Lemma uniform_returns (a b : Q) s :
  (a <= b)%Q ->
  returns (uniform env a b) s (fun x s' => (a <= x)%Q /\ (x <= b)%Q /\ drew s s').
Proof.
  intros Hab. unfold uniform. apply returns_bind.
  eapply returns_mono; [apply random_returns|].
  intros r s' (H0 & H1 & Hs). apply returns_ret.
  assert (Hd : (0 <= b - a)%Q) by (apply -> Qle_minus_iff; exact Hab).
  assert (Ht0 : (0 <= (b - a) * r)%Q) by (apply Qmult_le_0_compat; assumption).
  assert (Ht1 : ((b - a) * r <= (b - a) * 1)%Q).
  { rewrite !(Qmult_comm (b - a)). apply Qmult_le_compat_r; assumption. }
  split; [|split; [|exact Hs]].
  - rewrite <- (Qplus_0_r a) at 1. apply Qplus_le_compat; [apply Qle_refl|exact Ht0].
  - apply Qle_trans with (a + (b - a) * 1)%Q.
    + apply Qplus_le_compat; [apply Qle_refl|exact Ht1].
    + rewrite Qmult_1_r. unfold Qminus. rewrite (Qplus_comm b), Qplus_assoc.
      rewrite Qplus_opp_r, Qplus_0_l. apply Qle_refl.
Qed.

Lemma fake_draw_returns {A} (tape : nat -> A) s :
  returns (fake_draw tape) s (fun _ s' => drew s s').
Proof. eexists _, _. split; [reflexivity|]. repeat split. Qed.

(** One step of the selection loop of [random.sample]: the unselected
    prefix is split into the chosen item and the new unselected prefix. *)
Lemma pool_step {A} (pool : list A) (m j : nat) (x y : A) :
  (j < m)%nat -> pool !! j = Some x -> pool !! (m - 1)%nat = Some y ->
  take m pool ≡ₚ x :: take (m - 1) (<[j := y]> pool).
Proof.
  intros Hj Hx Hy. destruct m as [|m']; [lia|].
  replace (S m' - 1)%nat with m' in * by lia.
  rewrite (take_S_r _ _ _ Hy).
  destruct (decide (j = m')) as [->|Hne].
  - rewrite take_insert_ge by lia. assert (x = y) by congruence. subst.
    symmetry. apply Permutation_cons_append.
  - rewrite take_insert_lt by lia.
    assert (Ht : take m' pool !! j = Some x)
      by (rewrite lookup_take_lt by lia; done).
    rewrite insert_take_drop by (eapply lookup_lt_Some, Ht).
    rewrite <- (take_drop_middle _ _ _ Ht) at 1.
    rewrite <- app_assoc. simpl.
    rewrite <- !Permutation_middle. rewrite app_nil_r. reflexivity.
Qed.

Lemma sample_loop_returns {A} (k : nat) :
  forall (m : nat) (pool : list A) s,
    (k <= m <= length pool)%nat ->
    NoDup (take m pool) ->
    returns (sample_loop env k m pool) s (fun l s' =>
      length l = k /\ NoDup l /\ (forall x, x ∈ l -> x ∈ take m pool) /\ drew s s').
Proof.
  induction k as [|k IH]; intros m pool s Hm Hnd; simpl.
  - apply returns_ret. repeat split; [constructor | intros x Hx; inversion Hx].
  - apply returns_bind.
    eapply returns_mono; [apply randbelow_returns; lia|].
    intros r s1 [Hr Hs1]. cbv beta.
    destruct (lookup_lt_is_Some_2 pool (N.to_nat r)) as [x Hx]; [lia|].
    destruct (lookup_lt_is_Some_2 pool (m - 1)) as [y Hy]; [lia|].
    rewrite Hx, Hy.
    pose proof (pool_step pool m (N.to_nat r) x y ltac:(lia) Hx Hy) as Hperm.
    assert (Hnd' : NoDup (x :: take (m - 1) (<[N.to_nat r := y]> pool)))
      by (rewrite <- Hperm; exact Hnd).
    apply NoDup_cons in Hnd' as [Hxnot Hnd'].
    apply returns_bind.
    eapply returns_mono.
    { apply (IH (m - 1)%nat); [rewrite length_insert; lia | exact Hnd']. }
    intros rest s2 (Hlen & Hndr & Hsub & Hs2). apply returns_ret.
    split; [simpl; lia|]. split; [|split].
    + apply NoDup_cons. split; [|exact Hndr].
      intros Hin. apply Hxnot, Hsub, Hin.
    + intros z Hz. rewrite Hperm. apply elem_of_cons in Hz as [->|Hz].
      * left.
      * right. apply Hsub, Hz.
    + eapply drew_trans; eassumption.
Qed.

Lemma sample_returns {A} (population : list A) (k : Z) s :
  0 <= k <= Z.of_nat (length population) ->
  NoDup population ->
  returns (sample env population k) s (fun l s' =>
    Z.of_nat (length l) = k /\ NoDup l /\ (forall x, x ∈ l -> x ∈ population) /\
    drew s s').
Proof.
  intros Hk Hnd. unfold sample. rewrite decide_True by exact Hk.
  eapply returns_mono.
  { apply sample_loop_returns; [lia|]. rewrite firstn_all. exact Hnd. }
  intros l s' (Hlen & Hndl & Hsub & Hs). rewrite firstn_all in Hsub.
  repeat split; try assumption; try apply Hs. lia.
Qed.

End Library.

(** ** The order of query results *)

(** A query returns the rows of the table, each once, whatever the order. *)
Lemma index_insert_Permutation {R} (key : R -> string) (x : R) (l : list R) :
  index_insert key x l ≡ₚ x :: l.
Proof.
  induction l as [|y l IH]; simpl; [reflexivity|].
  destruct (String.leb (key x) (key y)); [reflexivity|].
  rewrite IH. apply Permutation_swap.
Qed.

Lemma index_order_Permutation {R} (key : R -> string) (l : list R) :
  index_order key l ≡ₚ l.
Proof.
  induction l as [|x l IH]; simpl; [reflexivity|].
  rewrite index_insert_Permutation, IH. reflexivity.
Qed.

Lemma index_order_fmap_Permutation {R A} (key : R -> string) (f : R -> A)
    (l : list R) :
  f <$> index_order key l ≡ₚ f <$> l.
Proof. rewrite index_order_Permutation. reflexivity. Qed.

Lemma index_order_length {R} (key : R -> string) (l : list R) :
  length (index_order key l) = length l.
Proof. apply Permutation_length, index_order_Permutation. Qed.

(** Over the seeded table the departments come back in the order of their
    names, not of their ids. *)
Lemma select_departments_seeded :
  select_departments seeded_departments = inr seeded_department_list.
Proof. reflexivity. Qed.

(** The rows come back in ascending order of the key. *)
Lemma index_insert_Sorted {R} (key : R -> string) (x : R) (l : list R) :
  Sorted (fun a b => String.leb (key a) (key b) = true) l ->
  Sorted (fun a b => String.leb (key a) (key b) = true) (index_insert key x l).
Proof.
  induction 1 as [|y l Hl IH Hy]; simpl.
  - repeat constructor.
  - destruct (String.leb (key x) (key y)) eqn:E.
    + constructor; [constructor; assumption|]. constructor. exact E.
    + constructor; [exact IH|].
      assert (Hyx : String.leb (key y) (key x) = true)
        by (destruct (String.leb_total (key x) (key y)); congruence).
      destruct Hy as [|z l' Hyz]; simpl; [constructor; exact Hyx|].
      destruct (String.leb (key x) (key z)); constructor; assumption.
Qed.

Lemma index_order_Sorted {R} (key : R -> string) (l : list R) :
  Sorted (fun a b => String.leb (key a) (key b) = true) (index_order key l).
Proof.
  induction l as [|x l IH]; simpl; [constructor|].
  apply index_insert_Sorted, IH.
Qed.

(** ** Unique emails *)

Lemma string_length_app (x y : string) :
  String.length (x +:+ y) = (String.length x + String.length y)%nat.
Proof. induction x as [|c x IH]; simpl; [reflexivity | rewrite IH; reflexivity]. Qed.

Lemma string_app_inv_tail (x y t : string) : x +:+ t = y +:+ t -> x = y.
Proof.
  revert y. induction x as [|c x IH]; intros [|c' y] H; simpl in H.
  - reflexivity.
  - apply (f_equal String.length) in H.
    rewrite ?string_length_app in H. simpl in H.
    rewrite ?string_length_app in H. lia.
  - apply (f_equal String.length) in H.
    rewrite ?string_length_app in H. simpl in H.
    rewrite ?string_length_app in H. lia.
  - injection H as -> H. f_equal. apply IH, H.
Qed.

Lemma email_of_inj (base x y : string) :
  email_of base x = email_of base y -> x = y.
Proof.
  unfold email_of. intros H.
  apply (inj (String.append base)) in H.
  eapply string_app_inv_tail, H.
Qed.

Lemma email_loop_fresh fuel used base :
  forall counter email r,
    email_loop fuel used base counter email = Some r -> r ∉ used.
Proof.
  induction fuel as [|fuel IH]; intros counter email r; simpl;
    destruct (decide (email ∈ used)) as [Hin|Hnot]; try discriminate.
  - intros [= <-]. exact Hnot.
  - apply IH.
  - intros [= <-]. exact Hnot.
Qed.

(** The loop returns its entry value if that is free, and otherwise the
    first free address among those numbered from [counter] on. *)
Lemma email_loop_first fuel used base :
  forall counter email r,
    email_loop fuel used base counter email = Some r ->
    ((email ∉ used) /\ r = email) \/
    (email ∈ used /\
     exists j, (counter <= j)%N /\ r = email_of base (pretty j) /\
       forall i, (counter <= i < j)%N -> email_of base (pretty i) ∈ used).
Proof.
  induction fuel as [|fuel IH]; intros counter email r; simpl;
    destruct (decide (email ∈ used)) as [Hin|Hnot]; try discriminate;
    try (intros [= <-]; left; split; [assumption|reflexivity]).
  intros H. right. split; [exact Hin|].
  destruct (IH _ _ _ H) as [[Hfree ->]|(Htaken & j & Hj & -> & Hall)].
  - exists counter. split; [lia|]. split; [reflexivity|]. intros i Hi. lia.
  - exists j. split; [lia|]. split; [reflexivity|].
    intros i Hi. destruct (decide (i = counter)) as [->|Hne]; [exact Htaken|].
    apply Hall. lia.
Qed.

Lemma email_loop_None_entry fuel used base counter email :
  email_loop fuel used base counter email = None -> email ∈ used.
Proof.
  destruct fuel; simpl; destruct (decide (email ∈ used)); done.
Qed.

Lemma email_loop_None fuel used base :
  forall counter email,
    email_loop fuel used base counter email = None ->
    forall i : nat, (i < fuel)%nat ->
      email_of base (pretty (counter + N.of_nat i)%N) ∈ used.
Proof.
  induction fuel as [|fuel IH]; intros counter email; simpl;
    destruct (decide (email ∈ used)) as [Hin|Hnot]; try discriminate.
  - intros _ i Hi. lia.
  - intros H [|i] Hi.
    + rewrite N.add_0_r. eapply email_loop_None_entry, H.
    + replace (counter + N.of_nat (S i))%N with (counter + 1 + N.of_nat i)%N by lia.
      eapply IH; [exact H | lia].
Qed.

(** The loop ends: among more candidates than there are issued addresses,
    one is free. *)
Lemma email_loop_total used base counter email :
  is_Some (email_loop (S (size used)) used base counter email).
Proof.
  destruct (email_loop (S (size used)) used base counter email) as [r|] eqn:E;
    [eauto|exfalso].
  pose proof (email_loop_None _ _ _ _ _ E) as Hall.
  set (cand := fun i : nat => email_of base (pretty (counter + N.of_nat i)%N)).
  set (cands := cand <$> seq 0 (S (size used))).
  assert (Hnd : NoDup cands).
  { apply NoDup_fmap_2_strong; [|apply NoDup_seq].
    intros i j _ _ Hij. apply email_of_inj in Hij.
    apply (inj pretty) in Hij. lia. }
  assert (Hsub : list_to_set cands ⊆ used).
  { intros e He. apply elem_of_list_to_set in He.
    apply list_elem_of_fmap in He as (i & -> & Hi).
    apply elem_of_seq in Hi. apply Hall. lia. }
  apply subseteq_size in Hsub.
  rewrite size_list_to_set in Hsub by exact Hnd.
  unfold cands in Hsub. rewrite length_fmap, length_seq in Hsub. lia.
Qed.

Section Emails.

Context (env : oracle).

(** What [generate_unique_email] does: it returns, it hands out an address
    that was not in the set, and it adds that address to the set. *)
Lemma generate_unique_email_returns first_name last_name s :
  returns (generate_unique_email first_name last_name) s (fun email s' =>
    (email ∉ used_emails s) /\
    first_free (used_emails s) (base_email first_name last_name) email /\
    used_emails s' = {[email]} ∪ used_emails s /\
    conn s' = conn s /\ disk s' = disk s /\ stdout s' = stdout s).
Proof.
  unfold generate_unique_email. apply returns_bind.
  exists s, s. split; [reflexivity|].
  destruct (email_loop_total (used_emails s) (base_email first_name last_name) 1
              (email_of (base_email first_name last_name) "")) as [email E].
  rewrite E. apply returns_bind.
  eexists tt, _. split; [reflexivity|]. apply returns_ret.
  split; [eapply email_loop_fresh, E|].
  split; [exact (email_loop_first _ _ _ _ _ _ E) | repeat split].
Qed.

(** The loop of [generate_students]: it returns [num_students] records
    whose emails are new and pairwise distinct, and every record is within
    the ranges drawn from. *)
Lemma build_students_returns (num_students : nat) s :
  returns (build_students env num_students) s (fun students s' =>
    length students = num_students /\
    NoDup (Student.email <$> students) /\
    (forall e, e ∈ Student.email <$> students -> e ∉ used_emails s) /\
    used_emails s' = list_to_set (Student.email <$> students) ∪ used_emails s /\
    Forall student_ok students /\
    conn s' = conn s /\ disk s' = disk s /\ stdout s' = stdout s).
Proof.
  unfold build_students.
  pose (Inv := fun (done : list nat) (students : list Student.t) (s' : state) =>
    length students = length done /\
    NoDup (Student.email <$> students) /\
    (forall e, e ∈ Student.email <$> students -> e ∉ used_emails s) /\
    used_emails s' = list_to_set (Student.email <$> students) ∪ used_emails s /\
    Forall student_ok students /\
    conn s' = conn s /\ disk s' = disk s /\ stdout s' = stdout s).
  eapply returns_mono.
  { apply (for_acc_returns _ Inv _ [] [] s).
    - unfold Inv. simpl. repeat split; try constructor.
      + intros e He. inversion He.
      + rewrite union_empty_l_L. reflexivity.
    - intros done i students s0 (Hlen & Hnd & Hnew & Hused & Hok & Hc & Hd & Ho) _.
      apply returns_bind. eapply returns_mono; [apply fake_draw_returns|].
      intros first_name s1 (C1 & U1 & D1 & O1).
      apply returns_bind. eapply returns_mono; [apply fake_draw_returns|].
      intros last_name s2 (C2 & U2 & D2 & O2).
      apply returns_bind. eapply returns_mono; [apply choice_returns; done|].
      intros gender s3 (Hg & C3 & U3 & D3 & O3).
      apply returns_bind. eapply returns_mono; [apply fake_draw_returns|].
      intros dob s4 (C4 & U4 & D4 & O4).
      apply returns_bind.
      eapply returns_mono; [apply generate_unique_email_returns|].
      intros email s5 (Hfresh & _ & U5 & C5 & D5 & O5).
      apply returns_bind. eapply returns_mono; [apply choice_returns; done|].
      intros status s6 (Hst & C6 & U6 & D6 & O6).
      apply returns_bind. eapply returns_mono; [apply randint_returns; lia|].
      intros total_credits s7 (Hcr & C7 & U7 & D7 & O7).
      apply returns_bind.
      eapply returns_mono; [apply (uniform_returns env 2 4); done|].
      intros x s8 (Hx2 & Hx4 & C8 & U8 & D8 & O8).
      apply returns_ret.
      assert (Hu4 : used_emails s4 = used_emails s0) by congruence.
      rewrite Hu4, Hused in Hfresh.
      unfold Inv. rewrite fmap_app, !length_app. simpl.
      split; [lia|]. split; [|split; [|split; [|split]]].
      + apply NoDup_app. split; [exact Hnd|]. split; [|apply NoDup_singleton].
        intros e He Hin. apply list_elem_of_singleton in Hin. subst e.
        apply Hfresh, elem_of_union_l, elem_of_list_to_set, He.
      + intros e [He|He]%elem_of_app.
        * apply Hnew, He.
        * apply list_elem_of_singleton in He. subst e.
          intros Hin. apply Hfresh, elem_of_union_r, Hin.
      + rewrite list_to_set_app_L. simpl.
        rewrite U8, U7, U6, U5, Hu4, Hused. apply set_eq. intros z.
        rewrite !elem_of_union, elem_of_singleton, elem_of_empty. tauto.
      + apply Forall_app. split; [exact Hok|]. apply Forall_singleton.
        repeat split; simpl; try assumption; try lia.
        destruct (py_round_2_bounds x 2 4 Hx2 Hx4) as (h & Hh & Hb).
        exists h. split; [exact Hh | lia].
      + repeat split; congruence. }
  intros students s' (Hlen & H). split; [|exact H].
  rewrite Hlen. simpl. apply length_seq.
Qed.

End Emails.

(** ** Enrollments *)

Section Enrollments.

Context (env : oracle).

Lemma build_enrollments_returns (students : list Z) (courses : list string) s :
  NoDup courses -> (5 <= length courses)%nat ->
  returns (build_enrollments env students courses) s (fun enrollments s' =>
    (exists blocks, enrollments = concat blocks /\
       Forall2 (block_ok courses) students blocks) /\
    drew s s').
Proof.
  intros Hnd Hlen. unfold build_enrollments.
  pose (Inv := fun (done : list Z) (acc : list Enrollment.t) (s' : state) =>
    (exists blocks, acc = concat blocks /\ Forall2 (block_ok courses) done blocks) /\
    drew s s').
  apply (for_acc_returns _ Inv students [] [] s).
  { split; [|apply drew_refl]. exists []. split; [reflexivity|constructor]. }
  intros done student_id acc s0 [(blocks & -> & Hblocks) Hs0] _.
  apply returns_bind. eapply returns_mono; [apply randint_returns; lia|].
  intros num_courses s1 (Hnum & Hs1).
  apply returns_bind.
  eapply returns_mono; [apply sample_returns; [lia|exact Hnd]|].
  intros enrolled s2 (Hk & Hnde & Hsub & Hs2).
  pose (Inner := fun (seen : list string) (acc : list Enrollment.t) (s' : state) =>
    (exists b, acc = concat blocks ++ b /\ Enrollment.course_id <$> b = seen /\
       Forall (fun e => Enrollment.student_id e = student_id /\ enrollment_ok e) b) /\
    drew s2 s').
  eapply returns_mono.
  { apply (for_acc_returns _ Inner enrolled [] (concat blocks) s2).
    { split; [|apply drew_refl]. exists []. rewrite app_nil_r. repeat constructor. }
    intros seen course_id acc s3 [(b & -> & Hseen & Hb) Hs3] _.
    apply returns_bind. eapply returns_mono; [apply choice_returns; done|].
    intros semester s4 (Hsem & Hs4).
    apply returns_bind. eapply returns_mono; [apply choice_returns; done|].
    intros academic_year s5 (Hyear & Hs5).
    apply returns_bind.
    eapply returns_mono; [apply (uniform_returns env 2 4); done|].
    intros x s6 (Hx2 & Hx4 & Hs6). apply returns_ret.
    split; [|eauto using drew_trans].
    eexists (b ++ [_]). split; [rewrite app_assoc; reflexivity|].
    split; [rewrite fmap_app, Hseen; reflexivity|].
    apply Forall_app. split; [exact Hb|]. apply Forall_singleton.
    split; [reflexivity|]. split; [exact Hsem|]. simpl. split.
    - apply elem_of_seqZ in Hyear. lia.
    - destruct (py_round_2_bounds x 2 4 Hx2 Hx4) as (h & Hh & Hhb).
      exists h. split; [exact Hh | lia]. }
  simpl. intros acc s3 [(b & -> & Hseen & Hb) Hs3].
  split; [|eauto using drew_trans].
  exists (blocks ++ [b]). split.
  - rewrite concat_app. simpl. rewrite app_nil_r. reflexivity.
  - apply Forall2_app; [exact Hblocks|]. constructor; [|constructor].
    split; [exact Hb|]. rewrite Hseen. split; [exact Hnde|].
    split; [exact Hsub|].
    rewrite <- (length_fmap Enrollment.course_id), Hseen. lia.
Qed.

End Enrollments.

(** Consequences of the block structure. *)

Lemma blocks_student_ids courses students blocks :
  Forall2 (block_ok courses) students blocks ->
  forall e, e ∈ concat blocks -> Enrollment.student_id e ∈ students.
Proof.
  induction 1 as [|sid b students blocks Hb _ IH]; simpl; intros e He.
  - inversion He.
  - apply elem_of_app in He as [He|He].
    + destruct Hb as (Hall & _). rewrite Forall_forall in Hall.
      destruct (Hall e He) as [-> _]. left.
    + right. apply IH, He.
Qed.

Lemma blocks_all_ok courses students blocks :
  Forall2 (block_ok courses) students blocks ->
  Forall enrollment_ok (concat blocks).
Proof.
  induction 1 as [|sid b students blocks Hb _ IH]; simpl; [constructor|].
  apply Forall_app. split; [|exact IH].
  destruct Hb as (Hall & _). eapply Forall_impl; [exact Hall|].
  intros e [_ He]. exact He.
Qed.

Lemma blocks_length courses students blocks :
  Forall2 (block_ok courses) students blocks ->
  (3 * length students <= length (concat blocks) <= 5 * length students)%nat.
Proof.
  induction 1 as [|sid b students blocks Hb _ IH]; simpl; [lia|].
  rewrite length_app. destruct Hb as (_ & _ & _ & Hlen). lia.
Qed.

Lemma blocks_courses_Permutation courses courses' students blocks :
  courses ≡ₚ courses' ->
  Forall2 (block_ok courses) students blocks ->
  Forall2 (block_ok courses') students blocks.
Proof.
  intros Hp H. eapply Forall2_impl; [exact H|].
  intros sid b (Hall & Hnd & Hsub & Hlen). repeat split; try assumption; try lia.
  intros c Hc. rewrite <- Hp. apply Hsub, Hc.
Qed.

Lemma blocks_keys_NoDup courses students blocks :
  NoDup students ->
  Forall2 (block_ok courses) students blocks ->
  NoDup ((fun e => (Enrollment.student_id e, Enrollment.course_id e)) <$>
           concat blocks).
Proof.
  intros Hnd H. revert Hnd.
  induction H as [|sid b students blocks Hb Hrest IH]; simpl; intros Hnd;
    [constructor|].
  apply NoDup_cons in Hnd as [Hsid Hnd].
  rewrite fmap_app. apply NoDup_app. split; [|split; [|apply IH, Hnd]].
  - destruct Hb as (_ & Hc & _). eapply (NoDup_fmap_1 snd).
    rewrite <- list_fmap_compose. exact Hc.
  - intros [i c] Hin1 Hin2.
    apply list_elem_of_fmap in Hin1 as (e1 & [= -> ->] & He1).
    apply list_elem_of_fmap in Hin2 as (e2 & [= E _] & He2).
    destruct Hb as (Hall & _). rewrite Forall_forall in Hall.
    destruct (Hall e1 He1) as [E1 _].
    apply Hsid. rewrite <- E1, E.
    eapply blocks_student_ids; eassumption.
Qed.

Lemma filter_all {A} (P : A -> Prop) `{forall x, Decision (P x)} (l : list A) :
  Forall P l -> filter P l = l.
Proof.
  induction 1 as [|x l Hx _ IH]; [reflexivity|].
  rewrite filter_cons_True by exact Hx. f_equal. exact IH.
Qed.

Lemma filter_none {A} (P : A -> Prop) `{forall x, Decision (P x)} (l : list A) :
  Forall (fun x => ~ P x) l -> filter P l = [].
Proof.
  induction 1 as [|x l Hx _ IH]; [reflexivity|].
  rewrite filter_cons_False by exact Hx. exact IH.
Qed.

(** With distinct student ids, the records of a student are exactly the
    block appended for that student. *)
Lemma blocks_rows_of courses students blocks :
  NoDup students ->
  Forall2 (block_ok courses) students blocks ->
  forall sid, sid ∈ students ->
    block_ok courses sid (rows_of sid (concat blocks)).
Proof.
  intros Hnd H. revert Hnd.
  induction H as [|sid0 b students blocks Hb Hrest IH]; simpl; intros Hnd sid Hin.
  - inversion Hin.
  - apply NoDup_cons in Hnd as [Hsid0 Hnd].
    unfold rows_of. rewrite filter_app.
    destruct (decide (sid = sid0)) as [->|Hne].
    + rewrite filter_all.
      2:{ destruct Hb as (Hall & _). eapply Forall_impl; [exact Hall|].
          intros e [E _]. exact E. }
      rewrite filter_none; [rewrite app_nil_r; exact Hb|].
      apply Forall_forall. intros e He E. apply Hsid0. rewrite <- E.
      eapply blocks_student_ids; eassumption.
    + rewrite filter_none.
      2:{ destruct Hb as (Hall & _). eapply Forall_impl; [exact Hall|].
          intros e [E _] E'. congruence. }
      simpl. apply IH; [exact Hnd|].
      apply elem_of_cons in Hin as [?|?]; [contradiction|assumption].
Qed.

(** ** The store through the stages *)

Lemma execute_query_open {A} (q : database -> exn + A) s v a :
  open_view s = Some v -> q v = inr a -> execute_query q s = (Ok a, s).
Proof.
  unfold open_view, execute_query, with_connection.
  destruct (conn s) as [c|]; [|discriminate].
  destruct (closed c); [discriminate|]. intros [= ->] Hq. rewrite Hq. reflexivity.
Qed.

Lemma execute_query_ensures {A} (q : database -> exn + A) s v :
  open_view s = Some v ->
  ensures (execute_query q) s (fun a s' => q v = inr a /\ s' = s).
Proof.
  unfold open_view, execute_query, with_connection. intros Hv a s'.
  destruct (conn s) as [c|]; [|discriminate].
  destruct (closed c); [discriminate|]. injection Hv as ->.
  destruct (q v); [discriminate|]. intros [= -> ->]. split; reflexivity.
Qed.

Lemma execute_dml_open stmt s v :
  open_view s = Some v ->
  match stmt v with
  | inr v' => exists s', execute_dml stmt s = (Ok tt, s') /\ open_view s' = Some v'
  | inl e => exists s', execute_dml stmt s = (Raise e, s')
  end.
Proof.
  unfold open_view, execute_dml, with_connection.
  destruct (conn s) as [c|]; [|discriminate].
  destruct (closed c); [discriminate|]. intros [= <-].
  destruct (stmt (view c)); eexists; [reflexivity|].
  split; reflexivity.
Qed.

Lemma execute_ddl_open stmt s v v' :
  open_view s = Some v -> stmt v = inr v' ->
  exists s', execute_ddl stmt s = (Ok tt, s') /\ open_view s' = Some v'.
Proof.
  unfold open_view, execute_ddl, with_connection.
  destruct (conn s) as [c|] eqn:Ec; [|discriminate].
  destruct (closed c) eqn:Ecl; [discriminate|]. intros [= ->] ->.
  destruct (in_transaction c); eexists; split; reflexivity.
Qed.

Lemma for_each_dml {T} (stmt : T -> database -> exn + database) (l : list T) :
  forall s v,
    open_view s = Some v ->
    match run_statements stmt l v with
    | inr v' =>
        exists s', for_each l (fun r => execute_dml (stmt r)) s = (Ok tt, s') /\
          open_view s' = Some v'
    | inl e => exists s', for_each l (fun r => execute_dml (stmt r)) s = (Raise e, s')
    end.
Proof.
  induction l as [|r l IH]; intros s v Hv; simpl.
  - exists s. split; [reflexivity | exact Hv].
  - pose proof (execute_dml_open (stmt r) s v Hv) as H.
    destruct (stmt r v) as [e|v1].
    + destruct H as (s' & H). exists s'.
      unfold mbind, M_bind, bind. rewrite H. reflexivity.
    + destruct H as (s1 & H & Hv1). specialize (IH s1 v1 Hv1).
      unfold mbind, M_bind, bind. rewrite H. exact IH.
Qed.

Lemma executemany_open {T} (stmt : T -> database -> exn + database) l s v :
  open_view s = Some v ->
  match run_statements stmt l v with
  | inr v' => exists s', executemany stmt l s = (Ok tt, s') /\ open_view s' = Some v'
  | inl e => exists s', executemany stmt l s = (Raise e, s')
  end.
Proof.
  intros Hv. pose proof (for_each_dml stmt l s v Hv) as H.
  unfold executemany, with_connection. unfold open_view in Hv.
  destruct (conn s) as [c|]; [|discriminate].
  destruct (closed c); [discriminate|]. exact H.
Qed.

Lemma executemany_ensures {T} (stmt : T -> database -> exn + database) l s v :
  open_view s = Some v ->
  ensures (executemany stmt l) s (fun _ s' =>
    exists v', run_statements stmt l v = inr v' /\ open_view s' = Some v').
Proof.
  intros Hv u s' Hrun. pose proof (executemany_open stmt l s v Hv) as H.
  destruct (run_statements stmt l v) as [e|v'].
  - destruct H as (s1 & H). congruence.
  - destruct H as (s1 & H & Hv'). exists v'. split; [reflexivity|]. congruence.
Qed.

Lemma commit_returns s v :
  open_view s = Some v ->
  returns commit s (fun _ s' => open_view s' = Some v /\ disk s' = v).
Proof.
  unfold open_view, commit, with_connection, returns.
  destruct (conn s) as [c|]; [|discriminate].
  destruct (closed c); [discriminate|]. intros [= ->].
  eexists tt, _. split; [reflexivity|]. split; reflexivity.
Qed.

Lemma create_connection_ensures env s :
  ensures (create_connection env) s (fun _ s' => open_view s' = Some (disk s)).
Proof.
  unfold create_connection. intros u s'.
  destruct (connectable env); [|discriminate]. intros [= E]. subst s'. reflexivity.
Qed.

Ltac ddl_step :=
  match goal with
  | H : open_view ?s0 = Some ?v0 |- returns (execute_ddl ?stmt) ?s0 _ =>
      let s' := fresh "s" in
      let E := fresh "E" in
      let Hv' := fresh "Hv" in
      destruct (execute_ddl_open stmt s0 v0 _ H eq_refl) as (s' & E & Hv');
      exists tt, s'; split; [exact E|]; clear H E; cbv beta
  end.

Lemma create_tables_returns s v :
  open_view s = Some v ->
  returns create_tables s (fun _ s' => open_view s' = Some fresh_schema).
Proof.
  intros Hv. unfold create_tables. simpl for_each.
  repeat first [apply returns_bind | ddl_step | apply returns_ret].
  exact Hv.
Qed.

Lemma foldr_max_ge (a : Z) (l : list Z) :
  forall x, x ∈ l -> x <= foldr Z.max a l.
Proof.
  induction l as [|y l IH]; intros x Hx; [inversion Hx|].
  simpl. apply elem_of_cons in Hx as [->|Hx]; [lia|].
  specialize (IH x Hx). lia.
Qed.

Lemma next_rowid_fresh {R} (id : R -> Z) (t : table R) :
  next_rowid id t ∉ id <$> rows t.
Proof.
  intros Hin. apply (foldr_max_ge (last_rowid t)) in Hin.
  unfold next_rowid in Hin. lia.
Qed.

(** Rows that went into [Courses] one by one have distinct course ids. *)
Lemma run_insert_course (l : list Course.t) :
  forall v v' t,
    Courses v = Some t ->
    run_statements insert_course l v = inr v' ->
    exists t', v' = set_Courses (Some t') v /\ rows t' = rows t ++ l /\
      (NoDup (Course.course_id <$> rows t) -> NoDup (Course.course_id <$> rows t')).
Proof.
  induction l as [|r l IH]; intros v v' t Ht; simpl.
  - intros [= <-]. exists t. rewrite app_nil_r. repeat split; [|tauto].
    destruct v; unfold set_Courses; simpl in *; congruence.
  - unfold insert_course at 1. rewrite Ht.
    destruct (negb _); [discriminate|].
    destruct (bool_decide _) eqn:Hdup; [discriminate|].
    apply bool_decide_eq_false in Hdup. intros Hrun.
    eapply IH in Hrun; [|reflexivity].
    destruct Hrun as (t' & -> & Hrows & Hnd).
    exists t'. split; [reflexivity|]. simpl in Hrows.
    split; [rewrite Hrows, <- app_assoc; reflexivity|].
    intros Hnd0. apply Hnd. simpl. rewrite fmap_app. apply NoDup_app.
    split; [exact Hnd0|]. split; [|apply NoDup_singleton].
    intros x Hx Hx'. apply list_elem_of_singleton in Hx'. subst x. exact (Hdup Hx).
Qed.

(** Rows that went into [Students] one by one have distinct ids. *)
Lemma run_insert_student (l : list Student.t) :
  forall v v' t,
    Students v = Some t ->
    run_statements insert_student l v = inr v' ->
    exists t', v' = set_Students (Some t') v /\
      Student.data <$> rows t' = (Student.data <$> rows t) ++ l /\
      (NoDup (Student.student_id <$> rows t) ->
       NoDup (Student.student_id <$> rows t')).
Proof.
  induction l as [|r l IH]; intros v v' t Ht; simpl.
  - intros [= <-]. exists t. rewrite app_nil_r. repeat split; [|tauto].
    destruct v; unfold set_Students; simpl in *; congruence.
  - unfold insert_student at 1. rewrite Ht.
    repeat (destruct (negb _); [discriminate|]).
    destruct (bool_decide _); [discriminate|]. intros Hrun.
    eapply IH in Hrun; [|reflexivity].
    destruct Hrun as (t' & -> & Hrows & Hnd).
    exists t'. split; [reflexivity|]. simpl in Hrows.
    split; [rewrite Hrows, fmap_app, <- app_assoc; reflexivity|].
    intros Hnd0. apply Hnd. simpl. rewrite fmap_app. apply NoDup_app.
    split; [exact Hnd0|]. split; [|apply NoDup_singleton].
    intros x Hx Hx'. apply list_elem_of_singleton in Hx'. subst x.
    exact (next_rowid_fresh Student.student_id t Hx).
Qed.

Section Stages.

Context (env : oracle).

(** The loops of [generate_courses] return one tuple for each department
    and each level. *)
Lemma build_courses_returns (departments : list (Z * string)) s :
  returns (build_courses env departments) s (fun courses s' =>
    slot_of <$> courses = course_slots departments /\ drew s s').
Proof.
  unfold build_courses.
  pose (Inv := fun (done : list (Z * string)) (acc : list Course.t) (s' : state) =>
    slot_of <$> acc = course_slots done /\ drew s s').
  apply (for_acc_returns _ Inv departments [] [] s).
  { split; [reflexivity | apply drew_refl]. }
  intros done [dept_id dept_name] acc s0 [Hacc Hs0] _.
  pose (Inner := fun (seen : list string) (acc' : list Course.t) (s' : state) =>
    slot_of <$> acc' =
      course_slots done ++ ((fun level => (dept_id, level)) <$> seen) /\
    drew s s').
  eapply returns_mono.
  { apply (for_acc_returns _ Inner course_levels [] acc s0).
    { split; [simpl; rewrite app_nil_r; exact Hacc | exact Hs0]. }
    intros seen level acc' s1 [Hacc' Hs1] _.
    apply returns_bind. eapply returns_mono; [apply randint_returns; lia|].
    intros n s2 (Hn & Hs2).
    apply returns_bind. eapply returns_mono; [apply choice_returns; done|].
    intros credit_hours s3 (Hch & Hs3). apply returns_ret.
    split; [|eauto using drew_trans].
    rewrite !fmap_app, Hacc', <- app_assoc. reflexivity. }
  simpl. intros acc' s1 [Hacc' Hs1]. split; [|exact Hs1].
  rewrite Hacc'. unfold course_slots. rewrite fmap_app, concat_app. simpl.
  reflexivity.
Qed.

Lemma generate_departments_returns s :
  open_view s = Some fresh_schema ->
  returns generate_departments s (fun _ s' => open_view s' = Some seeded_departments).
Proof.
  intros Hv.
  destruct (executemany_open insert_department departments s _ Hv)
    as (s' & E & Hv').
  exists tt, s'. split; [exact E | exact Hv'].
Qed.

Lemma generate_courses_ensures s :
  open_view s = Some seeded_departments ->
  ensures (generate_courses env) s (fun _ s' =>
    exists tc,
      open_view s' = Some (set_Courses (Some tc) seeded_departments) /\
      slot_of <$> rows tc =
        course_slots seeded_department_list /\
      NoDup (Course.course_id <$> rows tc)).
Proof.
  intros Hv. unfold generate_courses. apply ensures_bind.
  eapply ensures_mono; [apply (execute_query_ensures _ _ _ Hv)|].
  intros departments s0 [Hq ->]. injection Hq as <-.
  apply ensures_bind. eapply ensures_mono.
  { apply returns_ensures, build_courses_returns. }
  intros courses s1 [Hslots (Hc & _)].
  assert (Hv1 : open_view s1 = Some seeded_departments)
    by (unfold open_view in *; rewrite Hc; exact Hv).
  eapply ensures_mono; [apply (executemany_ensures _ _ _ _ Hv1)|].
  intros _ s2 (v' & Hrun & Hv2).
  eapply run_insert_course in Hrun; [|reflexivity].
  destruct Hrun as (tc & -> & Hrows & Hnd).
  exists tc. split; [exact Hv2|]. simpl in Hrows.
  split; [rewrite Hrows; exact Hslots|]. apply Hnd. constructor.
Qed.

Lemma generate_students_ensures (num_students : nat) s v :
  open_view s = Some v -> Students v = Some empty_table ->
  ensures (generate_students env num_students) s (fun _ s' =>
    exists ts,
      open_view s' = Some (set_Students (Some ts) v) /\
      length (rows ts) = num_students /\
      NoDup (Student.student_id <$> rows ts)).
Proof.
  intros Hv Hst. unfold generate_students. apply ensures_bind.
  eapply ensures_mono; [apply returns_ensures, build_students_returns|].
  intros students s1 (Hlen & _ & _ & _ & _ & Hc & _).
  assert (Hv1 : open_view s1 = Some v)
    by (unfold open_view in *; rewrite Hc; exact Hv).
  eapply ensures_mono; [apply (executemany_ensures _ _ _ _ Hv1)|].
  intros _ s2 (v' & Hrun & Hv2).
  destruct (run_insert_student _ _ _ _ Hst Hrun) as (ts & -> & Hrows & Hnd).
  exists ts. split; [exact Hv2|]. split; [|apply Hnd; constructor].
  simpl in Hrows. rewrite <- (length_fmap Student.data), Hrows. exact Hlen.
Qed.

Lemma seed_stages_ensures (num_students : nat) s0 :
  ensures (seed_stages env num_students) s0 (fun _ s => seeded num_students s).
Proof.
  unfold seed_stages.
  apply ensures_bind. eapply ensures_mono; [apply create_connection_ensures|].
  intros ? s1 H1.
  apply ensures_bind.
  eapply ensures_mono; [apply returns_ensures, (create_tables_returns _ _ H1)|].
  intros ? s2 H2. cbv beta in H2.
  apply ensures_bind.
  eapply ensures_mono; [apply returns_ensures, (generate_departments_returns _ H2)|].
  intros ? s3 H3. cbv beta in H3.
  apply ensures_bind.
  eapply ensures_mono; [apply returns_ensures, (commit_returns _ _ H3)|].
  intros ? s4 [H4 _].
  apply ensures_bind.
  eapply ensures_mono; [apply (generate_courses_ensures _ H4)|].
  intros ? s5 (tc & H5 & Hslots & Hnd).
  apply ensures_bind.
  eapply ensures_mono; [apply returns_ensures, (commit_returns _ _ H5)|].
  intros ? s6 [H6 _].
  apply ensures_bind.
  eapply ensures_mono; [apply (generate_students_ensures _ _ _ H6 eq_refl)|].
  intros ? s7 (ts & H7 & Hlen & Hids).
  eapply ensures_mono; [apply returns_ensures, (commit_returns _ _ H7)|].
  intros ? s8 [H8 _].
  exists (set_Students (Some ts) (set_Courses (Some tc) seeded_departments)), tc, ts.
  repeat split; assumption.
Qed.

End Stages.

Lemma between_0_4_hundredths (h : Z) :
  200 <= h <= 400 -> between_0_4 (Qmake h 100) = true.
Proof.
  intros Hh. unfold between_0_4. apply andb_true_iff.
  split; apply Qle_bool_iff; unfold Qle; simpl; lia.
Qed.

(** Valid records with fresh, pairwise distinct keys all go in. *)
Lemma run_insert_enrollment (l : list Enrollment.t) :
  forall v t,
    Enrollments v = Some t ->
    Forall enrollment_ok l ->
    NoDup (((fun x => Enrollment.key (Enrollment.data x)) <$> rows t) ++
           (Enrollment.key <$> l)) ->
    exists t',
      run_statements insert_enrollment l v = inr (set_Enrollments (Some t') v) /\
      Enrollment.data <$> rows t' = (Enrollment.data <$> rows t) ++ l.
Proof.
  induction l as [|r l IH]; intros v t Ht Hok Hnd; simpl.
  - exists t. rewrite app_nil_r. split; [|reflexivity]. f_equal.
    destruct v; unfold set_Enrollments; simpl in *; congruence.
  - apply Forall_cons in Hok as [(Hsem & _ & h & Hg & Hh) Hok].
    unfold insert_enrollment at 1. rewrite Ht.
    rewrite (bool_decide_eq_true_2 _ Hsem). simpl negb.
    rewrite Hg, (between_0_4_hundredths h Hh). simpl negb.
    rewrite bool_decide_eq_false_2.
    2:{ apply NoDup_app in Hnd as (_ & Hdisj & _).
        intros Hin. apply (Hdisj _ Hin). left. }
    cbv zeta.
    edestruct (IH (set_Enrollments
                 (Some (mk_table (rows t ++ [Enrollment.mk_row
                    (next_rowid Enrollment.enrollment_id t) r])
                    (next_rowid Enrollment.enrollment_id t))) v))
      as (t' & Hrun & Hrows); [reflexivity | exact Hok | |].
    + simpl. rewrite fmap_app. simpl. rewrite <- app_assoc. exact Hnd.
    + exists t'. split; [rewrite Hrun; reflexivity|].
      rewrite Hrows. simpl. rewrite fmap_app, <- app_assoc. reflexivity.
Qed.

Section EnrollmentStage.

Context (env : oracle).

(** What the two queries of [generate_enrollments] return. *)
Lemma student_ids_open s v ts :
  open_view s = Some v -> Students v = Some ts ->
  student_ids s =
    Student.student_id <$>
      index_order (fun r => Student.email (Student.data r)) (rows ts).
Proof.
  intros Hv Hs. unfold student_ids, select_student_ids, select_from.
  rewrite Hv, Hs. reflexivity.
Qed.

Lemma course_ids_open s v tc :
  open_view s = Some v -> Courses v = Some tc ->
  course_ids s = Course.course_id <$> index_order Course.course_id (rows tc).
Proof.
  intros Hv Hc. unfold course_ids, select_course_ids, select_from.
  rewrite Hv, Hc. reflexivity.
Qed.

Lemma student_ids_Permutation s v ts :
  open_view s = Some v -> Students v = Some ts ->
  student_ids s ≡ₚ Student.student_id <$> rows ts.
Proof.
  intros Hv Hs. rewrite (student_ids_open s v ts Hv Hs).
  apply index_order_fmap_Permutation.
Qed.

Lemma course_ids_Permutation s v tc :
  open_view s = Some v -> Courses v = Some tc ->
  course_ids s ≡ₚ Course.course_id <$> rows tc.
Proof.
  intros Hv Hc. rewrite (course_ids_open s v tc Hv Hc).
  apply index_order_fmap_Permutation.
Qed.

(** From a seeded store [generate_enrollments] returns, and the rows it
    leaves in [Enrollments] are one block per student, in the order in
    which the students were read. *)
Lemma generate_enrollments_returns (num_students : nat) s :
  seeded num_students s ->
  returns (generate_enrollments env) s (fun _ s' =>
    (exists blocks,
       enrollment_rows s' = concat blocks /\
       Forall2 (block_ok (course_ids s)) (student_ids s) blocks) /\
    student_ids s' = student_ids s /\ course_ids s' = course_ids s).
Proof.
  intros (v & tc & ts & Hv & Hc & Hslots & Hndc & Hs & Hlen & Hnds & He).
  pose proof (student_ids_open s v ts Hv Hs) as Hsids.
  pose proof (course_ids_open s v tc Hv Hc) as Hcids.
  assert (Hnds' : NoDup (student_ids s))
    by (rewrite (student_ids_Permutation s v ts Hv Hs); exact Hnds).
  assert (Hndc' : NoDup (course_ids s))
    by (rewrite (course_ids_Permutation s v tc Hv Hc); exact Hndc).
  unfold generate_enrollments.
  apply returns_bind. exists (student_ids s), s.
  split; [apply (execute_query_open _ _ _ _ Hv);
          unfold select_student_ids, select_from; rewrite Hs, Hsids; reflexivity|].
  apply returns_bind. exists (course_ids s), s.
  split; [apply (execute_query_open _ _ _ _ Hv);
          unfold select_course_ids, select_from; rewrite Hc, Hcids; reflexivity|].
  apply returns_bind. eapply returns_mono.
  { apply build_enrollments_returns; [exact Hndc'|].
    rewrite (Permutation_length (course_ids_Permutation s v tc Hv Hc)).
    rewrite length_fmap, <- (length_fmap slot_of), Hslots. simpl. lia. }
  intros enrollments s1 [(blocks & -> & Hblocks) (Hconn & _)].
  assert (Hv1 : open_view s1 = Some v)
    by (unfold open_view in *; rewrite Hconn; exact Hv).
  destruct (run_insert_enrollment (concat blocks) v empty_table He) as (te & Hrun & Hrows).
  { eapply blocks_all_ok, Hblocks. }
  { simpl. eapply (NoDup_fmap_1 (fun k => (k.1.1.1, k.1.1.2))).
    rewrite <- list_fmap_compose.
    apply (blocks_keys_NoDup _ _ _ Hnds' Hblocks). }
  pose proof (executemany_open insert_enrollment (concat blocks) s1 v Hv1) as Hex.
  rewrite Hrun in Hex. destruct Hex as (s2 & Hex & Hv2).
  exists tt, s2. split; [exact Hex|].
  split; [exists blocks; split; [|exact Hblocks]|split].
  - unfold enrollment_rows. rewrite Hv2. simpl. exact Hrows.
  - unfold student_ids. rewrite Hv2, Hv. reflexivity.
  - unfold course_ids. rewrite Hv2, Hv. reflexivity.
Qed.

End EnrollmentStage.

(** ** Termination *)

Lemma terminates_ret {A} (a : A) : terminates (ret a).
Proof. intros s. discriminate. Qed.

Lemma terminates_raise {A} (e : exn) : terminates (@raise A e).
Proof. intros s. discriminate. Qed.

Lemma terminates_modify (f : state -> state) : terminates (modify f).
Proof. intros s. discriminate. Qed.

Lemma terminates_get : terminates get.
Proof. intros s. discriminate. Qed.

Lemma terminates_bind {A B} (m : M A) (f : A -> M B) :
  terminates m -> (forall a, terminates (f a)) -> terminates (m ≫= f).
Proof.
  intros Hm Hf s. unfold mbind, M_bind, bind. specialize (Hm s).
  destruct (m s) as [[a|e|] s1]; simpl in *; [apply Hf | discriminate | congruence].
Qed.

Lemma terminates_for_each {A} (l : list A) (body : A -> M unit) :
  (forall x, terminates (body x)) -> terminates (for_each l body).
Proof.
  intros Hb. induction l as [|x l IH]; simpl; [apply terminates_ret|].
  apply terminates_bind; [apply Hb | intros _; exact IH].
Qed.

Lemma terminates_for_acc {A S} (l : list A) (body : A -> S -> M S) :
  (forall x acc, terminates (body x acc)) -> forall acc, terminates (for_acc l acc body).
Proof.
  intros Hb. induction l as [|x l IH]; intros acc; simpl; [apply terminates_ret|].
  apply terminates_bind; [apply Hb | intros acc'; apply IH].
Qed.

Lemma terminates_with_connection {A} (attr : string) (k : connection -> M A) :
  (forall c, terminates (k c)) -> terminates (with_connection attr k).
Proof.
  intros Hk s. unfold with_connection.
  destruct (conn s) as [c|]; [|discriminate].
  destruct (closed c); [discriminate | apply Hk].
Qed.

Lemma terminates_fake_draw {A} (tape : nat -> A) : terminates (fake_draw tape).
Proof. intros s. discriminate. Qed.

Lemma terminates_next_raw env : terminates (next_raw env).
Proof. intros s. discriminate. Qed.

Lemma terminates_close_if_connected : terminates close_if_connected.
Proof. intros s. unfold close_if_connected. destruct (conn s); discriminate. Qed.

Lemma terminates_generate_unique_email first_name last_name :
  terminates (generate_unique_email first_name last_name).
Proof.
  intros s.
  destruct (generate_unique_email_returns first_name last_name s)
    as (email & s' & E & _).
  rewrite E. discriminate.
Qed.

Create HintDb terminates.
#[local] Hint Resolve terminates_ret terminates_raise terminates_modify
  terminates_get terminates_fake_draw terminates_next_raw
  terminates_close_if_connected terminates_generate_unique_email : terminates.

(** Goals of the form [terminates m] for a computation [m] put together
    from pieces that are known to terminate. *)
Ltac terminates_tac :=
  repeat (intros;
    lazymatch goal with
    | |- terminates (mbind _ _) => apply terminates_bind
    | |- terminates (mret _) => apply terminates_ret
    | |- terminates (for_each _ _) => apply terminates_for_each
    | |- terminates (for_acc _ _ _) => apply terminates_for_acc
    | |- terminates (with_connection _ _) => apply terminates_with_connection
    | |- terminates (match ?x with _ => _ end) => destruct x
    | |- terminates _ => solve [auto with terminates]
    end).

Section Termination.

Context (env : oracle).

Lemma terminates_randbelow n : terminates (randbelow env n).
Proof. unfold randbelow. terminates_tac. Qed.
#[local] Hint Resolve terminates_randbelow : terminates.

Lemma terminates_randint a b : terminates (randint env a b).
Proof. unfold randint. terminates_tac. Qed.

Lemma terminates_choice {A} (l : list A) : terminates (choice env l).
Proof. unfold choice. terminates_tac. Qed.

Lemma terminates_uniform a b : terminates (uniform env a b).
Proof. unfold uniform, random. terminates_tac. Qed.

Lemma terminates_sample_loop {A} (k : nat) :
  forall (m : nat) (pool : list A), terminates (sample_loop env k m pool).
Proof.
  induction k as [|k IH]; intros m pool; simpl.
  - apply terminates_ret.
  - terminates_tac.
Qed.

Lemma terminates_sample {A} (population : list A) k :
  terminates (sample env population k).
Proof.
  unfold sample. destruct (decide _); [|apply terminates_raise].
  apply terminates_sample_loop.
Qed.

Lemma terminates_execute_query {A} (q : database -> exn + A) :
  terminates (execute_query q).
Proof. unfold execute_query. terminates_tac. Qed.

Lemma terminates_execute_dml stmt : terminates (execute_dml stmt).
Proof. unfold execute_dml. terminates_tac. Qed.

Lemma terminates_execute_ddl stmt : terminates (execute_ddl stmt).
Proof. unfold execute_ddl. terminates_tac. Qed.
#[local] Hint Resolve terminates_execute_dml terminates_execute_ddl : terminates.

Lemma terminates_executemany {T} (stmt : T -> database -> exn + database) l :
  terminates (executemany stmt l).
Proof. unfold executemany. terminates_tac. Qed.

Lemma terminates_commit : terminates commit.
Proof. unfold commit. terminates_tac. Qed.

Lemma terminates_print line : terminates (print line).
Proof. unfold print. terminates_tac. Qed.

#[local] Hint Resolve terminates_randint terminates_choice terminates_uniform
  terminates_sample terminates_execute_query terminates_executemany
  terminates_commit terminates_print : terminates.

Lemma terminates_create_connection : terminates (create_connection env).
Proof. unfold create_connection. terminates_tac. Qed.

Lemma terminates_create_tables : terminates create_tables.
Proof. unfold create_tables. terminates_tac. Qed.

Lemma terminates_generate_departments : terminates generate_departments.
Proof. unfold generate_departments. terminates_tac. Qed.

Lemma terminates_generate_courses : terminates (generate_courses env).
Proof. unfold generate_courses, build_courses. terminates_tac. Qed.

Lemma terminates_generate_students num_students :
  terminates (generate_students env num_students).
Proof.
  unfold generate_students, build_students,
    fake_first_name, fake_last_name, fake_date_of_birth.
  terminates_tac.
Qed.

Lemma terminates_generate_enrollments : terminates (generate_enrollments env).
Proof. unfold generate_enrollments, build_enrollments. terminates_tac. Qed.

#[local] Hint Resolve terminates_create_connection terminates_create_tables
  terminates_generate_departments terminates_generate_courses
  terminates_generate_students terminates_generate_enrollments : terminates.

Lemma terminates_seed_stages num_students :
  terminates (seed_stages env num_students).
Proof. unfold seed_stages. terminates_tac. Qed.

Lemma terminates_report : terminates (report env).
Proof. unfold report. terminates_tac. Qed.

Lemma terminates_generation_body : terminates (generation_body env).
Proof.
  unfold generation_body. apply terminates_bind.
  - apply terminates_seed_stages.
  - intros _. apply terminates_report.
Qed.

End Termination.

Lemma release_closed s :
  open_view (release s) = None /\
  (conn (release s) = None <-> conn s = None) /\
  disk (release s) = disk s /\ stdout (release s) = stdout s.
Proof.
  unfold release, close_if_connected, open_view.
  destruct (conn s) eqn:E; simpl; rewrite ?E; repeat split; congruence.
Qed.

(** * The claims *)

(** ** C1: emails are unique within a run *)

(** C1. [generate_unique_email], for any first and last name and from any
    set of issued emails, returns an address that was not issued before,
    namely the first free one of base@..., base1@..., base2@..., and
    records it; and the emails of the [num_students] students built by
    [generate_students] are pairwise distinct (and new). *)
Theorem unique_emails (env : oracle) (s : state) :
  (forall first_name last_name,
     exists email s',
       generate_unique_email first_name last_name s = (Ok email, s') /\
       (email ∉ used_emails s) /\
       first_free (used_emails s) (base_email first_name last_name) email /\
       used_emails s' = {[email]} ∪ used_emails s) /\
  (forall num_students,
     exists students s',
       build_students env num_students s = (Ok students, s') /\
       length students = num_students /\
       NoDup (Student.email <$> students) /\
       (forall e, e ∈ Student.email <$> students -> e ∉ used_emails s) /\
       used_emails s' = list_to_set (Student.email <$> students) ∪ used_emails s).
Proof.
  split.
  - intros first_name last_name.
    destruct (generate_unique_email_returns first_name last_name s)
      as (email & s' & E & Hfresh & Hfirst & Hused & _).
    exists email, s'. auto.
  - intros num_students.
    destruct (build_students_returns env num_students s)
      as (students & s' & E & Hlen & Hnd & Hnew & Hused & _).
    exists students, s'. auto.
Qed.

(** ** C2: the course-seeding stage *)

(** C2, on the code: when [random.randint(100, 999)] gives 105 both for
    the Introductory and for the Intermediate course of the department
    that is read first, "Biology", both tuples get the id "BIO105" and
    the second [INSERT] violates the primary key of [Courses]:
    [generate_courses] raises [sqlite3.IntegrityError] with one row in the
    open transaction, the run prints the error and ends, and the Courses
    table of the file holds no row at all, not 21. *)
Theorem course_code_collision :
  let before := (stages_before_courses colliding_env initial_state).2 in
  let run := run_database_generation colliding_env initial_state in
  (generate_courses colliding_env before).1 =
    Raise (IntegrityError "UNIQUE constraint failed: Courses.course_id") /\
  course_ids (generate_courses colliding_env before).2 = ["BIO105"] /\
  run.1 = Ok tt /\
  stdout run.2 = ["Database error: UNIQUE constraint failed: Courses.course_id"] /\
  Courses (disk run.2) = Some empty_table.
Proof. vm_compute. repeat split; reflexivity. Qed.

(** ** C3: enrollment keys *)

(** C3. In a run whose earlier stages have returned, [generate_enrollments]
    returns, and no two of the rows it has put into [Enrollments] agree on
    (student_id, course_id, semester, academic_year). *)
Theorem enrollment_keys_unique (env : oracle) (num_students : nat) (s0 s : state) :
  seed_stages env num_students s0 = (Ok tt, s) ->
  exists s',
    generate_enrollments env s = (Ok tt, s') /\
    NoDup (Enrollment.key <$> enrollment_rows s').
Proof.
  intros Hseed. apply seed_stages_ensures in Hseed.
  pose proof Hseed as (v & tc & ts & Hv & Hc & _ & _ & Hs & _ & Hnds & _).
  destruct (generate_enrollments_returns env num_students s Hseed)
    as ([] & s' & E & (blocks & Hrows & Hblocks) & _).
  assert (Hids : NoDup (student_ids s))
    by (rewrite (student_ids_Permutation s v ts Hv Hs); exact Hnds).
  exists s'. split; [exact E|]. rewrite Hrows.
  eapply (NoDup_fmap_1 (fun k => (k.1.1.1, k.1.1.2))).
  rewrite <- list_fmap_compose.
  apply (blocks_keys_NoDup _ _ _ Hids Hblocks).
Qed.

Lemma enrollment_keys_unique_witness :
  seed_stages sample_env 3 initial_state = (Ok tt, sample_seeded_state) /\
  exists s',
    generate_enrollments sample_env sample_seeded_state = (Ok tt, s') /\
    NoDup (Enrollment.key <$> enrollment_rows s').
Proof.
  assert (H : seed_stages sample_env 3 initial_state = (Ok tt, sample_seeded_state))
    by (vm_compute; reflexivity).
  split; [exact H|].
  exact (enrollment_keys_unique sample_env 3 initial_state sample_seeded_state H).
Defined.

(** ** C4: enrollments per student *)

(** C4. In such a run every student gets between 3 and 5 enrollment rows,
    their course ids are pairwise distinct members of the course set, and
    for N students the number of enrollment rows lies between 3N and 5N. *)
Theorem enrollments_per_student (env : oracle) (num_students : nat) (s0 s : state) :
  seed_stages env num_students s0 = (Ok tt, s) ->
  exists s',
    generate_enrollments env s = (Ok tt, s') /\
    length (student_ids s) = num_students /\
    (forall sid, sid ∈ student_ids s ->
       (3 <= length (rows_of sid (enrollment_rows s')) <= 5)%nat /\
       NoDup (Enrollment.course_id <$> rows_of sid (enrollment_rows s')) /\
       (forall c, c ∈ Enrollment.course_id <$> rows_of sid (enrollment_rows s') ->
          c ∈ course_ids s)) /\
    (3 * num_students <= length (enrollment_rows s') <= 5 * num_students)%nat.
Proof.
  intros Hseed. apply seed_stages_ensures in Hseed.
  pose proof Hseed as (v & tc & ts & Hv & Hc & _ & _ & Hs & Hlen & Hnds & _).
  pose proof (student_ids_Permutation s v ts Hv Hs) as Hids.
  destruct (generate_enrollments_returns env num_students s Hseed)
    as ([] & s' & E & (blocks & Hrows & Hblocks) & _).
  exists s'. split; [exact E|]. rewrite Hrows.
  split; [rewrite (Permutation_length Hids), length_fmap; exact Hlen|]. split.
  - intros sid Hsid.
    assert (Hnd' : NoDup (student_ids s)) by (rewrite Hids; exact Hnds).
    destruct (blocks_rows_of _ _ _ Hnd' Hblocks sid Hsid) as (_ & Hnd & Hsub & Hb).
    auto.
  - pose proof (blocks_length _ _ _ Hblocks) as Hb.
    rewrite (Permutation_length Hids), length_fmap, Hlen in Hb. exact Hb.
Qed.

Lemma enrollments_per_student_witness :
  seed_stages sample_env 3 initial_state = (Ok tt, sample_seeded_state) /\
  exists s',
    generate_enrollments sample_env sample_seeded_state = (Ok tt, s') /\
    length (student_ids sample_seeded_state) = 3%nat /\
    (forall sid, sid ∈ student_ids sample_seeded_state ->
       (3 <= length (rows_of sid (enrollment_rows s')) <= 5)%nat /\
       NoDup (Enrollment.course_id <$> rows_of sid (enrollment_rows s')) /\
       (forall c, c ∈ Enrollment.course_id <$> rows_of sid (enrollment_rows s') ->
          c ∈ course_ids sample_seeded_state)) /\
    (3 * 3 <= length (enrollment_rows s') <= 5 * 3)%nat.
Proof.
  assert (H : seed_stages sample_env 3 initial_state = (Ok tt, sample_seeded_state))
    by (vm_compute; reflexivity).
  split; [exact H|].
  exact (enrollments_per_student sample_env 3 initial_state sample_seeded_state H).
Defined.

(** ** C5: student ranges *)

(** C5. Every student built by [generate_students] has a GPA between 2.0
    and 4.0 that is a whole number of hundredths, and a total of credits
    between 0 and 120. *)
Theorem student_ranges (env : oracle) (num_students : nat) (s : state) :
  exists students s',
    build_students env num_students s = (Ok students, s') /\
    Forall (fun r =>
      (2 <= Student.gpa r)%Q /\ (Student.gpa r <= 4)%Q /\
      (exists h, Student.gpa r = Qmake h 100) /\
      0 <= Student.total_credits r <= 120) students.
Proof.
  destruct (build_students_returns env num_students s)
    as (students & s' & E & _ & _ & _ & _ & Hok & _).
  exists students, s'. split; [exact E|].
  eapply Forall_impl; [exact Hok|].
  intros r (_ & _ & Hcr & h & Hg & Hh). rewrite Hg.
  repeat split; try lia; try (unfold Qle; simpl; lia). exists h. reflexivity.
Qed.

(** ** C6: enrollment ranges *)

(** C6. In such a run every enrollment row has a semester among Fall,
    Spring and Summer, an academic year from 2018 to 2023, and a grade
    between 2.0 and 4.0 that is a whole number of hundredths. *)
Theorem enrollment_ranges (env : oracle) (num_students : nat) (s0 s : state) :
  seed_stages env num_students s0 = (Ok tt, s) ->
  exists s',
    generate_enrollments env s = (Ok tt, s') /\
    Forall (fun e =>
      Enrollment.semester e ∈ ["Fall"; "Spring"; "Summer"] /\
      2018 <= Enrollment.academic_year e <= 2023 /\
      (2 <= Enrollment.grade e)%Q /\ (Enrollment.grade e <= 4)%Q /\
      exists h, Enrollment.grade e = Qmake h 100) (enrollment_rows s').
Proof.
  intros Hseed. apply seed_stages_ensures in Hseed.
  destruct (generate_enrollments_returns env num_students s Hseed)
    as ([] & s' & E & (blocks & Hrows & Hblocks) & _).
  exists s'. split; [exact E|]. rewrite Hrows.
  eapply Forall_impl; [eapply blocks_all_ok, Hblocks|].
  intros e (Hsem & Hyear & h & Hg & Hh). rewrite Hg.
  repeat split; try assumption; try lia; try (unfold Qle; simpl; lia).
  exists h. reflexivity.
Qed.

Lemma enrollment_ranges_witness :
  seed_stages sample_env 3 initial_state = (Ok tt, sample_seeded_state) /\
  exists s',
    generate_enrollments sample_env sample_seeded_state = (Ok tt, s') /\
    Forall (fun e =>
      Enrollment.semester e ∈ ["Fall"; "Spring"; "Summer"] /\
      2018 <= Enrollment.academic_year e <= 2023 /\
      (2 <= Enrollment.grade e)%Q /\ (Enrollment.grade e <= 4)%Q /\
      exists h, Enrollment.grade e = Qmake h 100) (enrollment_rows s').
Proof.
  assert (H : seed_stages sample_env 3 initial_state = (Ok tt, sample_seeded_state))
    by (vm_compute; reflexivity).
  split; [exact H|].
  exact (enrollment_ranges sample_env 3 initial_state sample_seeded_state H).
Defined.

(** ** C7: the orchestrator's error handling *)

(** C7. [run_database_generation] is its [try] block under the handler
    [guarded].  Whatever the block does, it is run once: if it returns, so
    does the method; if it raises a [sqlite3.Error], the message is printed
    and the method returns without running anything else of the block; if
    it raises anything else, that exception leaves the method.  In all
    three cases the connection, if one was made, is closed afterwards, and
    the run as it stands always ends in one of these three ways. *)
Theorem guarded_error_handling (env : oracle) (body : M unit) (s : state) :
  run_database_generation env = guarded (generation_body env) /\
  match body s with
  | (Ok u, s1) => guarded body s = (Ok u, release s1)
  | (Raise e, s1) =>
      guarded body s =
        if is_sqlite3_Error e
        then (Ok tt, release (log_database_error e s1))
        else (Raise e, release s1)
  | (Diverge, s1) => guarded body s = (Diverge, s1)
  end /\
  (forall s1,
     open_view (release s1) = None /\
     (conn (release s1) = None <-> conn s1 = None)) /\
  (run_database_generation env s).1 <> Diverge /\
  open_view (run_database_generation env s).2 = None.
Proof.
  assert (Hcases : forall (b : M unit) t,
    match b t with
    | (Ok u, s1) => guarded b t = (Ok u, release s1)
    | (Raise e, s1) =>
        guarded b t =
          if is_sqlite3_Error e
          then (Ok tt, release (log_database_error e s1))
          else (Raise e, release s1)
    | (Diverge, s1) => guarded b t = (Diverge, s1)
    end).
  { intros b t. unfold guarded, try_finally, try_except, release.
    destruct (b t) as [[u|e|] s1]; simpl.
    - destruct (close_if_connected s1) as [[[]|e|] s2] eqn:E;
        unfold close_if_connected in E; destruct (conn s1); try discriminate;
        injection E as <-; reflexivity.
    - destruct (is_sqlite3_Error e); simpl.
      + unfold close_if_connected, log_database_error. simpl.
        destruct (conn s1); reflexivity.
      + unfold close_if_connected. destruct (conn s1); reflexivity.
    - reflexivity. }
  split; [reflexivity|]. split; [apply Hcases|].
  split; [intros s1; destruct (release_closed s1) as (H1 & H2 & _); auto|].
  unfold run_database_generation.
  pose proof (Hcases (generation_body env) s) as H.
  pose proof (terminates_generation_body env s) as Hterm.
  destruct (generation_body env s) as [[u|e|] s1]; simpl in Hterm.
  - rewrite H. split; [discriminate | apply release_closed].
  - rewrite H. destruct (is_sqlite3_Error e);
      (split; [discriminate | apply release_closed]).
  - congruence.
Qed.

(** ** C8: schema setup *)

(** C8. Over an open connection and whatever the database holds,
    [create_tables] returns and leaves the four tables empty with their
    declared schema; invoked again it returns again and changes nothing. *)
Theorem create_tables_idempotent (s : state) (c : connection) :
  conn s = Some c -> closed c = false ->
  create_tables s = (Ok tt, after_create_tables s c) /\
  open_view (after_create_tables s c) = Some fresh_schema /\
  create_tables (after_create_tables s c) = (Ok tt, after_create_tables s c) /\
  (create_tables;; create_tables) s = create_tables s.
Proof.
  intros Hc Hcl.
  assert (H1 : create_tables s = (Ok tt, after_create_tables s c)).
  { destruct s as [n co u d o rp fp]. destruct c as [cl v tx]. simpl in *. subst.
    destruct tx; reflexivity. }
  assert (H2 : create_tables (after_create_tables s c) =
               (Ok tt, after_create_tables s c)).
  { destruct s as [n co u d o rp fp]. destruct c as [cl v tx]. simpl in *. subst.
    destruct tx; reflexivity. }
  split; [exact H1|]. split; [|split; [exact H2|]].
  - unfold after_create_tables. destruct (in_transaction c); reflexivity.
  - rewrite (bind_Ok _ _ _ _ _ H1), H1. exact H2.
Qed.

Lemma create_tables_idempotent_witness :
  (conn sample_open_state = Some sample_connection /\
   closed sample_connection = false) /\
  create_tables sample_open_state =
    (Ok tt, after_create_tables sample_open_state sample_connection) /\
  open_view (after_create_tables sample_open_state sample_connection) =
    Some fresh_schema /\
  create_tables (after_create_tables sample_open_state sample_connection) =
    (Ok tt, after_create_tables sample_open_state sample_connection) /\
  (create_tables;; create_tables) sample_open_state = create_tables sample_open_state.
Proof.
  split; [split; reflexivity|].
  exact (create_tables_idempotent sample_open_state sample_connection eq_refl eq_refl).
Defined.

(** ** C9: the issued-email set of a run *)


(** ** C10: sampling is always defined *)

(** C10. When the earlier stages have returned there are 21 courses to
    sample from, so the sampling step of [generate_enrollments], which asks
    for 3 to 5 of them, returns from any state of the random tape; the
    branch of [random.sample] that raises is never taken and the stage as
    a whole returns. *)
Theorem sampling_always_defined (env : oracle) (num_students : nat) (s0 s : state) :
  seed_stages env num_students s0 = (Ok tt, s) ->
  length (course_ids s) = 21%nat /\
  (forall s1,
     exists num_courses s2 enrolled_courses s3,
       randint env 3 5 s1 = (Ok num_courses, s2) /\
       0 <= num_courses <= Z.of_nat (length (course_ids s)) /\
       sample env (course_ids s) num_courses s2 = (Ok enrolled_courses, s3) /\
       Z.of_nat (length enrolled_courses) = num_courses) /\
  exists s', generate_enrollments env s = (Ok tt, s').
Proof.
  intros Hseed. apply seed_stages_ensures in Hseed.
  pose proof Hseed as (v & tc & ts & Hv & Hc & Hslots & Hndc & _).
  pose proof (course_ids_Permutation s v tc Hv Hc) as Hids.
  assert (Hlen : length (course_ids s) = 21%nat).
  { rewrite (Permutation_length Hids), length_fmap, <- (length_fmap slot_of), Hslots.
    reflexivity. }
  split; [exact Hlen|]. split.
  - intros s1.
    destruct (randint_returns env 3 5 s1 ltac:(lia)) as (k & s2 & Ek & Hk & _).
    destruct (sample_returns env (course_ids s) k s2) as (l & s3 & El & Hl & _).
    { rewrite Hlen. lia. }
    { rewrite Hids. exact Hndc. }
    exists k, s2, l, s3. rewrite Hlen. repeat split; try assumption; lia.
  - destruct (generate_enrollments_returns env num_students s Hseed)
      as ([] & s' & E & _).
    exists s'. exact E.
Qed.

Lemma sampling_always_defined_witness :
  seed_stages sample_env 3 initial_state = (Ok tt, sample_seeded_state) /\
  length (course_ids sample_seeded_state) = 21%nat /\
  (forall s1,
     exists num_courses s2 enrolled_courses s3,
       randint sample_env 3 5 s1 = (Ok num_courses, s2) /\
       0 <= num_courses <= Z.of_nat (length (course_ids sample_seeded_state)) /\
       sample sample_env (course_ids sample_seeded_state) num_courses s2 =
         (Ok enrolled_courses, s3) /\
       Z.of_nat (length enrolled_courses) = num_courses) /\
  exists s', generate_enrollments sample_env sample_seeded_state = (Ok tt, s').
Proof.
  assert (H : seed_stages sample_env 3 initial_state = (Ok tt, sample_seeded_state))
    by (vm_compute; reflexivity).
  split; [exact H|].
  exact (sampling_always_defined sample_env 3 initial_state sample_seeded_state H).
Defined.

(** * Further properties *)

(** ** Computations that may raise *)

Lemma excepts_bind {A B} (m : M A) (f : A -> M B) s
    (Q : B -> state -> Prop) (E : exn -> state -> Prop) :
  excepts m s (fun a s1 => excepts (f a) s1 Q E) E -> excepts (m ≫= f) s Q E.
Proof.
  unfold excepts, mbind, M_bind, bind.
  destruct (m s) as [[a|e|] s1]; auto.
Qed.

Lemma returns_excepts {A} (m : M A) s (Q : A -> state -> Prop)
    (E : exn -> state -> Prop) :
  returns m s Q -> excepts m s Q E.
Proof. intros (a & s' & Hm & HQ). unfold excepts. rewrite Hm. exact HQ. Qed.

Lemma excepts_mono {A} (m : M A) s (Q Q' : A -> state -> Prop)
    (E E' : exn -> state -> Prop) :
  excepts m s Q E ->
  (forall a s', Q a s' -> Q' a s') -> (forall e s', E e s' -> E' e s') ->
  excepts m s Q' E'.
Proof.
  unfold excepts. destruct (m s) as [[a|e|] s1]; auto.
Qed.

(** ** Courses *)

Section Courses.

Context (env : oracle).

Lemma build_courses_spec (departments : list (Z * string)) (s : state) :
  exists courses s',
    build_courses env departments s = (Ok courses, s') /\
    Forall2 course_for (department_levels departments) courses /\
    drew s s'.
Proof.
  unfold build_courses.
  pose (Inv := fun (done : list (Z * string)) (acc : list Course.t) (s' : state) =>
    Forall2 course_for (department_levels done) acc /\ drew s s').
  apply (for_acc_returns _ Inv departments [] [] s).
  { split; [constructor | apply drew_refl]. }
  intros done [dept_id dept_name] acc s0 (Hacc & Hs0) _.
  pose (Inner := fun (seen : list string) (acc' : list Course.t) (s' : state) =>
    Forall2 course_for
      (department_levels done ++
         ((fun level => ((dept_id, dept_name), level)) <$> seen)) acc' /\
    drew s s').
  eapply returns_mono.
  { apply (for_acc_returns _ Inner course_levels [] acc s0).
    { split; [simpl; rewrite app_nil_r; exact Hacc | exact Hs0]. }
    intros seen level acc' s1 (Hacc' & Hs1) _.
    apply returns_bind.
    eapply returns_mono; [apply randint_returns; lia|].
    intros n s2 (Hn & Hs2).
    apply returns_bind.
    eapply returns_mono; [apply choice_returns; done|].
    intros credit_hours s3 (Hc & Hs3).
    apply returns_ret. split; [|eauto using drew_trans].
    rewrite fmap_app, app_assoc. apply Forall2_app; [exact Hacc'|].
    constructor; [|constructor].
    split; [exists n; split; [exact Hn | reflexivity]|].
    repeat split; assumption. }
  simpl. intros acc' s1 (Hacc' & Hs1). split; [|exact Hs1].
  unfold department_levels. rewrite fmap_app, concat_app. simpl.
  exact Hacc'.
Qed.


End Courses.

(** ** What a computation leaves alone *)

Lemma keeps_ret {A B} (f : state -> B) (a : A) : keeps f (ret a).
Proof. intros s. reflexivity. Qed.

Lemma keeps_raise {A B} (f : state -> B) (e : exn) : keeps f (@raise A e).
Proof. intros s. reflexivity. Qed.

Lemma keeps_bind {A A' B} (f : state -> B) (m : M A) (k : A -> M A') :
  keeps f m -> (forall a, keeps f (k a)) -> keeps f (m ≫= k).
Proof.
  intros Hm Hk s. unfold mbind, M_bind, bind. specialize (Hm s).
  destruct (m s) as [[a|e|] s1]; simpl in *; try exact Hm.
  rewrite Hk. exact Hm.
Qed.

Lemma keeps_for_each {A B} (f : state -> B) (l : list A) (body : A -> M unit) :
  (forall x, keeps f (body x)) -> keeps f (for_each l body).
Proof.
  intros Hb. induction l as [|x l IH]; simpl; [apply keeps_ret|].
  apply keeps_bind; [apply Hb | intros _; exact IH].
Qed.

Lemma keeps_for_acc {A S B} (f : state -> B) (l : list A) (body : A -> S -> M S) :
  (forall x acc, keeps f (body x acc)) -> forall acc, keeps f (for_acc l acc body).
Proof.
  intros Hb. induction l as [|x l IH]; intros acc; simpl; [apply keeps_ret|].
  apply keeps_bind; [apply Hb | intros acc'; apply IH].
Qed.

Lemma keeps_with_connection {A B} (f : state -> B) (attr : string)
    (k : connection -> M A) :
  (forall c, keeps f (k c)) -> keeps f (with_connection attr k).
Proof.
  intros Hk s. unfold with_connection.
  destruct (conn s) as [c|]; [|reflexivity].
  destruct (closed c); [reflexivity | apply Hk].
Qed.

(** Goals [keeps f m] for an [m] put together from pieces that keep [f]. *)
Ltac keeps_tac :=
  repeat (intros;
    lazymatch goal with
    | |- keeps _ (mbind _ _) => apply keeps_bind
    | |- keeps _ (mret _) => apply keeps_ret
    | |- keeps _ (for_each _ _) => apply keeps_for_each
    | |- keeps _ (for_acc _ _ _) => apply keeps_for_acc
    | |- keeps _ (with_connection _ _) => apply keeps_with_connection
    | |- keeps _ (match ?x with _ => _ end) => destruct x
    | |- keeps _ _ => solve [auto | intros ?; simpl; auto]
    end).

(** The methods touch a component [f] of the state only through the
    fields they write: the lemmas of this section ask of [f] that it does
    not look at those. *)
Section Keeps.

Context (env : oracle) {B : Type} (f : state -> B).
Hypothesis f_conn : forall c s, f (set_conn c s) = f s.
Hypothesis f_used : forall u s, f (set_used_emails u s) = f s.
Hypothesis f_rand : forall n s, f (set_rand_pos n s) = f s.
Hypothesis f_fake : forall n s, f (set_fake_pos n s) = f s.

Lemma keeps_randbelow n : keeps f (randbelow env n).
Proof. unfold randbelow. keeps_tac. Qed.
#[local] Hint Resolve keeps_randbelow : core.

Lemma keeps_randint a b : keeps f (randint env a b).
Proof. unfold randint. keeps_tac. Qed.

Lemma keeps_choice {A} (l : list A) : keeps f (choice env l).
Proof. unfold choice. keeps_tac. Qed.

Lemma keeps_uniform a b : keeps f (uniform env a b).
Proof. unfold uniform, random. keeps_tac. Qed.

Lemma keeps_sample_loop {A} (k : nat) :
  forall (m : nat) (pool : list A), keeps f (sample_loop env k m pool).
Proof.
  induction k as [|k IH]; intros m pool; simpl; [apply keeps_ret|].
  keeps_tac.
Qed.

Lemma keeps_sample {A} (population : list A) k :
  keeps f (sample env population k).
Proof.
  unfold sample. destruct (decide _); [|apply keeps_raise].
  apply keeps_sample_loop.
Qed.

Lemma keeps_fake_draw {A} (tape : nat -> A) : keeps f (fake_draw tape).
Proof. intros s. apply f_fake. Qed.

Lemma keeps_generate_unique_email first_name last_name :
  keeps f (generate_unique_email first_name last_name).
Proof. unfold generate_unique_email. keeps_tac. Qed.

Lemma keeps_execute_query {A} (q : database -> exn + A) :
  keeps f (execute_query q).
Proof. unfold execute_query. keeps_tac. Qed.

Lemma keeps_execute_dml stmt : keeps f (execute_dml stmt).
Proof. unfold execute_dml. keeps_tac. Qed.
#[local] Hint Resolve keeps_execute_dml : core.

Lemma keeps_executemany {T} (stmt : T -> database -> exn + database) l :
  keeps f (executemany stmt l).
Proof. unfold executemany. keeps_tac. Qed.

#[local] Hint Resolve keeps_randint keeps_choice keeps_uniform keeps_sample
  keeps_fake_draw keeps_generate_unique_email keeps_execute_query
  keeps_executemany : core.

Lemma keeps_generate_departments : keeps f generate_departments.
Proof. unfold generate_departments. keeps_tac. Qed.

Lemma keeps_build_courses departments : keeps f (build_courses env departments).
Proof. unfold build_courses. keeps_tac. Qed.

Lemma keeps_generate_courses : keeps f (generate_courses env).
Proof. unfold generate_courses, build_courses. keeps_tac. Qed.

Lemma keeps_build_students num_students :
  keeps f (build_students env num_students).
Proof.
  unfold build_students, fake_first_name, fake_last_name, fake_date_of_birth.
  keeps_tac.
Qed.
#[local] Hint Resolve keeps_build_students : core.

Lemma keeps_generate_students num_students :
  keeps f (generate_students env num_students).
Proof. unfold generate_students. keeps_tac. Qed.

Lemma keeps_generate_enrollments : keeps f (generate_enrollments env).
Proof. unfold generate_enrollments, build_enrollments. keeps_tac. Qed.

End Keeps.

Lemma keeps_disk_generate_courses env : keeps disk (generate_courses env).
Proof. apply keeps_generate_courses; reflexivity. Qed.

Lemma keeps_disk_generate_students env num_students :
  keeps disk (generate_students env num_students).
Proof. apply keeps_generate_students; reflexivity. Qed.
(** ** When the course stage goes through *)

Lemma run_insert_course_exact (l : list Course.t) :
  forall v t,
    Courses v = Some t ->
    Forall (fun c => Course.course_level c ∈ course_levels) l ->
    (NoDup (table_course_ids t ++ (Course.course_id <$> l)) ->
     run_statements insert_course l v =
       inr (set_Courses (Some (mk_table (rows t ++ l) (last_rowid t))) v)) /\
    (NoDup (table_course_ids t) ->
     ~ NoDup (table_course_ids t ++ (Course.course_id <$> l)) ->
     run_statements insert_course l v =
       inl (IntegrityError "UNIQUE constraint failed: Courses.course_id")).
Proof.
  unfold table_course_ids.
  induction l as [|r l IH]; intros v t Ht Hlev; simpl.
  - rewrite !app_nil_r. split; [|tauto]. intros _. f_equal.
    destruct v, t; unfold set_Courses; simpl in *; congruence.
  - apply Forall_cons in Hlev as [Hr Hlev].
    unfold insert_course at 1 3. rewrite Ht.
    rewrite (bool_decide_eq_true_2 _ Hr). simpl negb. cbv iota.
    destruct (IH (set_Courses (Some (mk_table (rows t ++ [r]) (last_rowid t))) v)
                (mk_table (rows t ++ [r]) (last_rowid t)) eq_refl Hlev)
      as [IH1 IH2].
    simpl in IH1, IH2. rewrite fmap_app, <- !app_assoc in IH1, IH2.
    simpl in IH1, IH2.
    destruct (decide (Course.course_id r ∈ Course.course_id <$> rows t))
      as [Hin|Hnin].
    + rewrite (bool_decide_eq_true_2 _ Hin). split; [|reflexivity].
      intros Hnd. apply NoDup_app in Hnd as (_ & Hdisj & _).
      exfalso. apply (Hdisj _ Hin). left.
    + rewrite (bool_decide_eq_false_2 _ Hnin). split.
      * intros Hnd. rewrite (IH1 Hnd), <- app_assoc. reflexivity.
      * intros Hnd Hdup. apply IH2; [|exact Hdup].
        apply NoDup_app. split; [exact Hnd|]. split; [|apply NoDup_singleton].
        intros x Hx Hx'. apply list_elem_of_singleton in Hx'. subst x.
        exact (Hnin Hx).
Qed.

Lemma department_levels_level departments slot :
  slot ∈ department_levels departments -> slot.2 ∈ course_levels.
Proof.
  unfold department_levels.
  induction departments as [|d departments IH]; simpl; intros Hin.
  - inversion Hin.
  - repeat (apply elem_of_cons in Hin as [->|Hin];
              [unfold course_levels; simpl; set_unfold; tauto|]).
    exact (IH Hin).
Qed.

Lemma course_for_levels slots courses :
  Forall2 course_for slots courses ->
  Forall (fun slot => slot.2 ∈ course_levels) slots ->
  Forall (fun c => Course.course_level c ∈ course_levels) courses.
Proof.
  induction 1 as [|slot c slots courses Hc _ IH]; intros Hs; [constructor|].
  apply Forall_cons in Hs as [Hslot Hs]. constructor; [|apply IH, Hs].
  destruct Hc as (_ & _ & _ & _ & ->). exact Hslot.
Qed.

Section CourseStage.

Context (env : oracle).

Lemma generate_courses_spec (s : state) (v : database)
    (td : table Department.row) (tc : table Course.t) :
  open_view s = Some v -> Departments v = Some td -> Courses v = Some tc ->
  NoDup (table_course_ids tc) ->
  exists courses s1,
    build_courses env (table_departments td) s = (Ok courses, s1) /\
    (NoDup (table_course_ids tc ++ (Course.course_id <$> courses)) ->
     exists s',
       generate_courses env s = (Ok tt, s') /\
       open_view s' =
         Some (set_Courses (Some (mk_table (rows tc ++ courses) (last_rowid tc))) v) /\
       disk s' = disk s) /\
    (~ NoDup (table_course_ids tc ++ (Course.course_id <$> courses)) ->
     exists s',
       generate_courses env s =
         (Raise (IntegrityError "UNIQUE constraint failed: Courses.course_id"), s') /\
       disk s' = disk s).
Proof.
  intros Hv Hd Hc Hnd.
  destruct (build_courses_spec env (table_departments td) s)
    as (courses & s1 & Eb & Hfields & (Hconn & _)).
  exists courses, s1. split; [exact Eb|].
  assert (Hv1 : open_view s1 = Some v)
    by (unfold open_view in *; rewrite Hconn; exact Hv).
  assert (Hlev : Forall (fun c => Course.course_level c ∈ course_levels) courses).
  { eapply course_for_levels; [exact Hfields|].
    apply Forall_forall. intros slot. apply department_levels_level. }
  destruct (run_insert_course_exact courses v tc Hc Hlev) as [Hok Hdup].
  assert (Hgen : generate_courses env s = executemany insert_course courses s1).
  { unfold generate_courses.
    rewrite (bind_Ok _ _ _ _ _ (execute_query_open select_departments s v
               (table_departments td) Hv
               ltac:(unfold select_departments, select_from; rewrite Hd; reflexivity))).
    rewrite (bind_Ok _ _ _ _ _ Eb). reflexivity. }
  pose proof (keeps_disk_generate_courses env s) as Hdisk.
  pose proof (executemany_open insert_course courses s1 v Hv1) as Hex.
  split.
  - intros Hnd'. rewrite (Hok Hnd') in Hex. destruct Hex as (s' & Hex & Hv').
    exists s'. rewrite Hgen, Hex in *. auto.
  - intros Hnd'. rewrite (Hdup Hnd Hnd') in Hex. destruct Hex as (s' & Hex).
    exists s'. rewrite Hgen, Hex in *. auto.
Qed.

(** X2. Over an open connection whose database has a Departments table
    and a Courses table with distinct ids, [generate_courses] builds its
    tuples over the departments as the query returns them, sorted by
    name, and succeeds exactly when the ids it draws are new and pairwise
    distinct: then the tuples are appended to Courses as they were built;
    otherwise it raises [sqlite3.IntegrityError] on the primary key.
    Either way the file is left as it was: the rows are in the open
    transaction only. *)
Theorem generate_courses_iff_distinct (s : state) (v : database)
    (td : table Department.row) (tc : table Course.t) :
  open_view s = Some v -> Departments v = Some td -> Courses v = Some tc ->
  NoDup (table_course_ids tc) ->
  exists courses s1,
    build_courses env (table_departments td) s = (Ok courses, s1) /\
    (NoDup (table_course_ids tc ++ (Course.course_id <$> courses)) ->
     exists s',
       generate_courses env s = (Ok tt, s') /\
       open_view s' =
         Some (set_Courses (Some (mk_table (rows tc ++ courses) (last_rowid tc))) v) /\
       disk s' = disk s) /\
    (~ NoDup (table_course_ids tc ++ (Course.course_id <$> courses)) ->
     exists s',
       generate_courses env s =
         (Raise (IntegrityError "UNIQUE constraint failed: Courses.course_id"), s') /\
       disk s' = disk s).
Proof. intros. eapply generate_courses_spec; eassumption. Qed.

End CourseStage.

Lemma generate_courses_iff_distinct_witness :
  (open_view sample_state_before_courses = Some seeded_departments /\
   Departments seeded_departments =
     Some (mk_table
       [Department.mk_row 1 "Computer Science" 1985;
        Department.mk_row 2 "Mathematics" 1970;
        Department.mk_row 3 "Physics" 1960;
        Department.mk_row 4 "Biology" 1975;
        Department.mk_row 5 "Chemistry" 1965;
        Department.mk_row 6 "Engineering" 1980;
        Department.mk_row 7 "Economics" 1990] 7) /\
   Courses seeded_departments = Some empty_table /\
   NoDup (table_course_ids (@empty_table Course.t))) /\
  exists courses s1,
    build_courses sample_env seeded_department_list sample_state_before_courses =
      (Ok courses, s1) /\
    (NoDup (Course.course_id <$> courses) ->
     exists s',
       generate_courses sample_env sample_state_before_courses = (Ok tt, s') /\
       open_view s' =
         Some (set_Courses (Some (mk_table courses 0)) seeded_departments) /\
       disk s' = disk sample_state_before_courses) /\
    (~ NoDup (Course.course_id <$> courses) ->
     exists s',
       generate_courses sample_env sample_state_before_courses =
         (Raise (IntegrityError "UNIQUE constraint failed: Courses.course_id"), s') /\
       disk s' = disk sample_state_before_courses).
Proof.
  assert (H1 : open_view sample_state_before_courses = Some seeded_departments)
    by (vm_compute; reflexivity).
  assert (H4 : NoDup (table_course_ids (@empty_table Course.t))) by constructor.
  split; [split; [exact H1 | split; [reflexivity | split; [reflexivity | exact H4]]]|].
  exact (generate_courses_iff_distinct sample_env sample_state_before_courses
           seeded_departments _ empty_table H1 eq_refl eq_refl H4).
Defined.

(** ** Students *)

Lemma foldr_max_le (a : Z) (l : list Z) :
  (forall x, x ∈ l -> x <= a) -> foldr Z.max a l = a.
Proof.
  induction l as [|y l IH]; intros H; simpl; [reflexivity|].
  rewrite IH by (intros x Hx; apply H; right; exact Hx).
  specialize (H y ltac:(left)). lia.
Qed.

(** After an insertion the next row id is one more than the one just
    handed out. *)
Lemma next_rowid_succ {R} (id : R -> Z) (mk : Z -> R) (t : table R) :
  id (mk (next_rowid id t)) = next_rowid id t ->
  next_rowid id (mk_table (rows t ++ [mk (next_rowid id t)]) (next_rowid id t)) =
  next_rowid id t + 1.
Proof.
  intros Hid. unfold next_rowid at 1. simpl.
  rewrite fmap_app, foldr_app. simpl. rewrite Hid, Z.max_id.
  rewrite foldr_max_le; [lia|].
  intros x Hx. apply (foldr_max_ge (last_rowid t)) in Hx.
  unfold next_rowid. lia.
Qed.

Lemma seqZ_of_nat_S (m : Z) (n : nat) :
  seqZ m (Z.of_nat (S n)) = m :: seqZ (m + 1) (Z.of_nat n).
Proof.
  rewrite Nat2Z.inj_succ, seqZ_cons by lia.
  rewrite Z.pred_succ, Z.add_1_r. reflexivity.
Qed.

Lemma student_ok_checks r :
  student_ok r ->
  bool_decide (Student.gender r ∈ ["Male"; "Female"; "Other"]) = true /\
  bool_decide (Student.enrollment_status r ∈
                 ["Active"; "Inactive"; "Graduated"; "Suspended"]) = true /\
  between_0_4 (Student.gpa r) = true.
Proof.
  intros (Hg & Hs & _ & h & Hgpa & Hh).
  split; [apply bool_decide_eq_true_2, Hg|].
  split; [apply bool_decide_eq_true_2, Hs|].
  rewrite Hgpa. apply between_0_4_hundredths, Hh.
Qed.

(** Valid tuples whose emails are new to the table and pairwise distinct
    all go in, with consecutive ids. *)
Lemma run_insert_student_exact (l : list Student.t) :
  forall v t,
    Students v = Some t ->
    Forall student_ok l ->
    NoDup (Student.email <$> l) ->
    (forall e, e ∈ Student.email <$> l -> e ∉ table_emails t) ->
    exists last,
      run_statements insert_student l v =
        inr (set_Students
               (Some (mk_table
                  (rows t ++ student_rows_from (next_rowid Student.student_id t) l)
                  last)) v) /\
      (l = [] -> last = last_rowid t).
Proof.
  unfold table_emails, student_rows_from.
  induction l as [|r l IH]; intros v t Ht Hok Hnd Hnew; simpl.
  - exists (last_rowid t). rewrite app_nil_r. split; [|reflexivity]. f_equal.
    destruct v, t; unfold set_Students; simpl in *; congruence.
  - apply Forall_cons in Hok as [Hr Hok].
    apply NoDup_cons in Hnd as [Hrl Hnd].
    destruct (student_ok_checks r Hr) as (Hg & Hs & Hgpa).
    unfold insert_student at 1. rewrite Ht, Hg, Hs, Hgpa. simpl negb. cbv iota.
    rewrite bool_decide_eq_false_2 by (apply Hnew; left).
    cbv zeta.
    pose proof (next_rowid_succ Student.student_id
                  (fun i => Student.mk_row i r) t eq_refl) as Hnext.
    cbv beta in Hnext.
    set (id := next_rowid Student.student_id t) in *.
    edestruct (IH (set_Students
                     (Some (mk_table (rows t ++ [Student.mk_row id r]) id)) v)
                  (mk_table (rows t ++ [Student.mk_row id r]) id))
      as (last & Hrun & _); [reflexivity | exact Hok | exact Hnd | |].
    + intros e He. simpl. rewrite fmap_app. simpl.
      intros [Hin|Hin]%elem_of_app.
      * apply (Hnew e); [right; exact He | exact Hin].
      * apply list_elem_of_singleton in Hin. subst e. exact (Hrl He).
    + exists last. split; [|discriminate]. rewrite Hrun. unfold set_Students. simpl.
      rewrite Hnext, <- app_assoc, seqZ_of_nat_S. reflexivity.
Qed.

Lemma student_rows_from_data (l : list Student.t) :
  forall i, Student.data <$> student_rows_from i l = l.
Proof.
  unfold student_rows_from.
  induction l as [|r l IH]; intros i; [reflexivity|].
  simpl length. rewrite seqZ_of_nat_S. simpl. f_equal. apply IH.
Qed.

Lemma student_rows_from_ids (l : list Student.t) :
  forall i, Student.student_id <$> student_rows_from i l =
            seqZ i (Z.of_nat (length l)).
Proof.
  unfold student_rows_from.
  induction l as [|r l IH]; intros i; [reflexivity|].
  simpl length. rewrite seqZ_of_nat_S. simpl. f_equal. apply IH.
Qed.

Lemma keeps_used_emails_executemany {T}
    (stmt : T -> database -> exn + database) l :
  keeps used_emails (executemany stmt l).
Proof. apply keeps_executemany; reflexivity. Qed.

Section StudentStage.

Context (env : oracle).

Lemma generate_students_spec (num_students : nat) (s : state)
    (v : database) (ts : table Student.row) :
  open_view s = Some v -> Students v = Some ts ->
  (forall e, e ∈ table_emails ts -> e ∈ used_emails s) ->
  exists students s1 s' ts',
    build_students env num_students s = (Ok students, s1) /\
    generate_students env num_students s = (Ok tt, s') /\
    open_view s' = Some (set_Students (Some ts') v) /\
    rows ts' =
      rows ts ++ student_rows_from (next_rowid Student.student_id ts) students /\
    length students = num_students /\
    (forall e, e ∈ table_emails ts' -> e ∈ used_emails s') /\
    disk s' = disk s.
Proof.
  intros Hv Hs Hrec.
  destruct (build_students_returns env num_students s)
    as (students & s1 & Eb & Hlen & Hnd & Hnew & Hused & Hok & Hconn & _).
  assert (Hv1 : open_view s1 = Some v)
    by (unfold open_view in *; rewrite Hconn; exact Hv).
  destruct (run_insert_student_exact students v ts Hs Hok Hnd) as (last & Hrun & _).
  { intros e He Hin. exact (Hnew e He (Hrec e Hin)). }
  pose proof (executemany_open insert_student students s1 v Hv1) as Hex.
  rewrite Hrun in Hex. destruct Hex as (s' & Hex & Hv').
  assert (Hgen : generate_students env num_students s = (Ok tt, s')).
  { unfold generate_students. rewrite (bind_Ok _ _ _ _ _ Eb). exact Hex. }
  exists students, s1, s', (mk_table
    (rows ts ++ student_rows_from (next_rowid Student.student_id ts) students) last).
  split; [exact Eb|]. split; [exact Hgen|]. split; [exact Hv'|].
  split; [reflexivity|]. split; [exact Hlen|]. split.
  - pose proof (keeps_used_emails_executemany insert_student students s1) as Hk.
    rewrite Hex in Hk. simpl in Hk. rewrite Hk, Hused.
    unfold table_emails. simpl. rewrite fmap_app. intros e [He|He]%elem_of_app.
    + apply elem_of_union_r, Hrec, He.
    + apply elem_of_union_l, elem_of_list_to_set.
      rewrite <- (student_rows_from_data students
                    (next_rowid Student.student_id ts)) at 1.
      rewrite <- list_fmap_compose. exact He.
  - pose proof (keeps_disk_generate_students env num_students s) as Hk.
    rewrite Hgen in Hk. exact Hk.
Qed.

(** X3. Over an open connection whose Students table holds only emails
    that the manager has on record, [generate_students] returns: the
    tuples it built are appended in order under consecutive ids, starting
    one above the largest id the table has held; nothing reaches the file
    before a commit; and the table again holds only emails on record, so
    the method can be called once more on the same manager. *)
Theorem generate_students_appends (num_students : nat) (s : state)
    (v : database) (ts : table Student.row) :
  open_view s = Some v -> Students v = Some ts ->
  (forall e, e ∈ table_emails ts -> e ∈ used_emails s) ->
  exists students s1 s' ts',
    build_students env num_students s = (Ok students, s1) /\
    generate_students env num_students s = (Ok tt, s') /\
    open_view s' = Some (set_Students (Some ts') v) /\
    rows ts' =
      rows ts ++ student_rows_from (next_rowid Student.student_id ts) students /\
    length students = num_students /\
    (forall e, e ∈ table_emails ts' -> e ∈ used_emails s') /\
    disk s' = disk s.
Proof. intros. eapply generate_students_spec; eassumption. Qed.

End StudentStage.

Lemma generate_students_appends_witness :
  (open_view sample_state_before_students = Some seeded_departments /\
   Students seeded_departments = Some empty_table /\
   (forall e, e ∈ table_emails empty_table ->
      e ∈ used_emails sample_state_before_students)) /\
  exists students s1 s' ts',
    build_students sample_env 3 sample_state_before_students = (Ok students, s1) /\
    generate_students sample_env 3 sample_state_before_students = (Ok tt, s') /\
    open_view s' = Some (set_Students (Some ts') seeded_departments) /\
    rows ts' = rows empty_table ++
      student_rows_from (next_rowid Student.student_id empty_table) students /\
    length students = 3%nat /\
    (forall e, e ∈ table_emails ts' -> e ∈ used_emails s') /\
    disk s' = disk sample_state_before_students.
Proof.
  assert (H1 : open_view sample_state_before_students = Some seeded_departments)
    by (vm_compute; reflexivity).
  assert (H3 : forall e, e ∈ table_emails (@empty_table Student.row) ->
                 e ∈ used_emails sample_state_before_students)
    by (intros e He; inversion He).
  split; [split; [exact H1 | split; [reflexivity | exact H3]]|].
  exact (generate_students_appends sample_env 3 sample_state_before_students
           seeded_departments empty_table H1 eq_refl H3).
Defined.


(** ** The stages of a run, one after the other *)

Lemma create_tables_exact (s : state) (c : connection) :
  conn s = Some c -> closed c = false ->
  create_tables s = (Ok tt, after_create_tables s c).
Proof.
  intros Hc Hcl. destruct s as [n co u d o rp fp]. destruct c as [cl v tx].
  simpl in *. subst. destruct tx; reflexivity.
Qed.

Section Run.

Context (env : oracle).

(** With a file that can be opened, the run reaches [generate_courses] in
    the state [departments_committed]. *)
Lemma seed_stages_prefix (num_students : nat) (s : state) :
  connectable env = true ->
  seed_stages env num_students s =
  (generate_courses env;; commit;; generate_students env num_students;; commit)
    (departments_committed s).
Proof.
  intros Hc. unfold seed_stages.
  assert (H1 : create_connection env s =
               (Ok tt, set_conn (Some (mk_connection false (disk s) false)) s))
    by (unfold create_connection; rewrite Hc; reflexivity).
  rewrite (bind_Ok _ _ _ _ _ H1).
  rewrite (bind_Ok _ _ _ _ _
             (create_tables_exact
                (set_conn (Some (mk_connection false (disk s) false)) s)
                (mk_connection false (disk s) false) eq_refl eq_refl)).
  assert (H3 : generate_departments
                 (after_create_tables
                    (set_conn (Some (mk_connection false (disk s) false)) s)
                    (mk_connection false (disk s) false)) =
               (Ok tt, set_conn (Some (mk_connection false seeded_departments true))
                         (set_disk fresh_schema s)))
    by (destruct s; reflexivity).
  rewrite (bind_Ok _ _ _ _ _ H3).
  assert (H4 : commit (set_conn (Some (mk_connection false seeded_departments true))
                         (set_disk fresh_schema s)) =
               (Ok tt, departments_committed s))
    by (destruct s; reflexivity).
  rewrite (bind_Ok _ _ _ _ _ H4). reflexivity.
Qed.

Lemma seed_stages_unconnectable (num_students : nat) (s : state) :
  connectable env = false ->
  seed_stages env num_students s = (Raise connect_error, s).
Proof.
  intros Hc. unfold seed_stages, mbind, M_bind, bind, create_connection.
  rewrite Hc. reflexivity.
Qed.

End Run.

Lemma keeps_stdout_commit : keeps stdout commit.
Proof. unfold commit. keeps_tac. Qed.

Lemma keeps_stdout_generate_courses env : keeps stdout (generate_courses env).
Proof. apply keeps_generate_courses; reflexivity. Qed.

Lemma keeps_stdout_generate_students env n :
  keeps stdout (generate_students env n).
Proof. apply keeps_generate_students; reflexivity. Qed.

Lemma keeps_stdout_generate_enrollments env :
  keeps stdout (generate_enrollments env).
Proof. apply keeps_generate_enrollments; reflexivity. Qed.

Section RunTail.

Context (env : oracle).

(** From [departments_committed] on: the courses are built; if their ids
    are pairwise distinct the two remaining seeding stages go through and
    are committed, otherwise the course stage raises and the file keeps
    the departments only. *)
Lemma seed_stages_tail (num_students : nat) (s : state) :
  exists courses s1,
    build_courses env seeded_department_list (departments_committed s) =
      (Ok courses, s1) /\
    Forall2 course_for (department_levels seeded_department_list) courses /\
    (NoDup (Course.course_id <$> courses) ->
     exists students last s',
       (generate_courses env;; commit;; generate_students env num_students;; commit)
         (departments_committed s) = (Ok tt, s') /\
       open_view s' = Some (run_database courses students last (Some empty_table)) /\
       disk s' = run_database courses students last (Some empty_table) /\
       length students = num_students /\
       Forall student_ok students /\
       NoDup (Student.email <$> students) /\
       stdout s' = stdout s) /\
    (~ NoDup (Course.course_id <$> courses) ->
     exists s',
       (generate_courses env;; commit;; generate_students env num_students;; commit)
         (departments_committed s) = (Raise course_id_error, s') /\
       disk s' = seeded_departments /\
       stdout s' = stdout s).
Proof.
  set (s4 := departments_committed s).
  assert (Hv4 : open_view s4 = Some seeded_departments) by reflexivity.
  destruct (generate_courses_spec env s4 seeded_departments _ empty_table
              Hv4 eq_refl eq_refl ltac:(constructor))
    as (courses & s1 & Eb & Hok & Hdup).
  exists courses, s1. split; [exact Eb|]. split.
  { destruct (build_courses_spec env seeded_department_list s4)
      as (courses' & s1' & Eb' & Hf & _).
    change (table_departments _) with seeded_department_list in Eb.
    rewrite Eb in Eb'. injection Eb' as <- <-. exact Hf. }
  pose proof (keeps_stdout_generate_courses env s4) as Hout.
  split.
  - intros Hnd. destruct (Hok Hnd) as (s5 & Egen & Hv5 & Hd5).
    rewrite Egen in Hout. simpl in Hout.
    rewrite (bind_Ok _ _ _ _ _ Egen).
    destruct (commit_returns s5 _ Hv5) as ([] & s6 & Ec & Hv6 & Hd6).
    pose proof (keeps_stdout_commit s5) as Hout6. rewrite Ec in Hout6.
    rewrite (bind_Ok _ _ _ _ _ Ec).
    destruct (generate_students_spec env num_students s6 _ empty_table Hv6 eq_refl)
      as (students & s6' & s7 & ts' & Ebs & Egs & Hv7 & Hrows & Hlen & _ & _).
    { intros e He. inversion He. }
    pose proof (keeps_stdout_generate_students env num_students s6) as Hout7.
    rewrite Egs in Hout7.
    rewrite (bind_Ok _ _ _ _ _ Egs).
    destruct (commit_returns s7 _ Hv7) as ([] & s8 & Ec8 & Hv8 & Hd8).
    pose proof (keeps_stdout_commit s7) as Hout8. rewrite Ec8 in Hout8.
    destruct (build_students_returns env num_students s6)
      as (students' & s6'' & Ebs' & _ & Hnde & _ & _ & Hsok & _).
    rewrite Ebs in Ebs'. injection Ebs' as <- <-.
    exists students, (last_rowid ts'), s8. split; [exact Ec8|].
    destruct ts' as [rows' last']. simpl in Hrows. subst rows'.
    split; [exact Hv8|]. split; [rewrite Hd8; reflexivity|].
    split; [exact Hlen|]. split; [exact Hsok|]. split; [exact Hnde|].
    simpl in *. congruence.
  - intros Hnd. destruct (Hdup Hnd) as (s5 & Egen & Hd5).
    rewrite Egen in Hout. simpl in Hout.
    exists s5. split; [|split; [exact Hd5 | exact Hout]].
    unfold mbind, M_bind, bind. rewrite Egen. reflexivity.
Qed.

End RunTail.

(** ** The enrollment stage and the report *)

Lemma student_rows_from_length (l : list Student.t) i :
  length (student_rows_from i l) = length l.
Proof.
  rewrite <- (length_fmap Student.data), student_rows_from_data. reflexivity.
Qed.

Lemma print_Ok (line : string) (s : state) :
  print line s = (Ok tt, set_stdout (stdout s ++ [line]) s).
Proof. reflexivity. Qed.

Section Report.

Context (env : oracle).

(** [generate_enrollments] over an open connection with students and at
    least five courses, both with distinct ids, and an empty Enrollments
    table: it returns, and the table then holds one block per student, in
    the order [students] in which the students were read. *)
Lemma generate_enrollments_spec (s : state) (v : database)
    (ts : table Student.row) (tc : table Course.t) :
  open_view s = Some v ->
  Students v = Some ts -> Courses v = Some tc ->
  Enrollments v = Some empty_table ->
  NoDup (table_student_ids ts) -> NoDup (table_course_ids tc) ->
  (5 <= length (rows tc))%nat ->
  exists students blocks te s',
    generate_enrollments env s = (Ok tt, s') /\
    open_view s' = Some (set_Enrollments (Some te) v) /\
    Enrollment.data <$> rows te = concat blocks /\
    students ≡ₚ table_student_ids ts /\
    Forall2 (block_ok (table_course_ids tc)) students blocks /\
    stdout s' = stdout s /\ disk s' = disk s.
Proof.
  intros Hv Hs Hc He Hnds Hndc Hlen.
  pose proof (student_ids_Permutation s v ts Hv Hs) as Hps.
  pose proof (course_ids_Permutation s v tc Hv Hc) as Hpc.
  assert (Hq1 : execute_query select_student_ids s = (Ok (student_ids s), s)).
  { apply (execute_query_open _ _ _ _ Hv).
    rewrite (student_ids_open s v ts Hv Hs).
    unfold select_student_ids, select_from. rewrite Hs. reflexivity. }
  assert (Hq2 : execute_query select_course_ids s = (Ok (course_ids s), s)).
  { apply (execute_query_open _ _ _ _ Hv).
    rewrite (course_ids_open s v tc Hv Hc).
    unfold select_course_ids, select_from. rewrite Hc. reflexivity. }
  assert (Hnds' : NoDup (student_ids s)) by (rewrite Hps; exact Hnds).
  destruct (build_enrollments_returns env (student_ids s) (course_ids s) s)
    as (enrollments & s1 & Eb & (blocks & -> & Hblocks) & (Hconn & _)).
  { rewrite Hpc. exact Hndc. }
  { rewrite (Permutation_length Hpc). unfold table_course_ids.
    rewrite length_fmap. exact Hlen. }
  assert (Hv1 : open_view s1 = Some v)
    by (unfold open_view in *; rewrite Hconn; exact Hv).
  destruct (run_insert_enrollment (concat blocks) v empty_table He)
    as (te & Hrun & Hrows).
  { eapply blocks_all_ok, Hblocks. }
  { simpl. eapply (NoDup_fmap_1 (fun k => (k.1.1.1, k.1.1.2))).
    rewrite <- list_fmap_compose.
    apply (blocks_keys_NoDup _ _ _ Hnds' Hblocks). }
  pose proof (executemany_open insert_enrollment (concat blocks) s1 v Hv1) as Hex.
  rewrite Hrun in Hex. destruct Hex as (s2 & Hex & Hv2).
  assert (Hgen : generate_enrollments env s = (Ok tt, s2)).
  { unfold generate_enrollments.
    rewrite (bind_Ok _ _ _ _ _ Hq1), (bind_Ok _ _ _ _ _ Hq2), (bind_Ok _ _ _ _ _ Eb).
    exact Hex. }
  exists (student_ids s), blocks, te, s2.
  split; [exact Hgen|]. split; [exact Hv2|].
  split; [exact Hrows|]. split; [exact Hps|].
  split; [exact (blocks_courses_Permutation _ _ _ _ Hpc Hblocks)|].
  pose proof (keeps_stdout_generate_enrollments env s) as Hout.
  pose proof (keeps_generate_enrollments env disk
                ltac:(reflexivity) ltac:(reflexivity) s) as Hdisk.
  rewrite Hgen in Hout, Hdisk. auto.
Qed.

(** The statements of [run_database_generation] after the seeding stages,
    from the state those leave behind. *)
Lemma report_spec (courses : list Course.t) (students : list Student.t)
    (last : Z) (s : state) :
  open_view s = Some (run_database courses students last (Some empty_table)) ->
  NoDup (Course.course_id <$> courses) -> (5 <= length courses)%nat ->
  exists student_ids blocks te s',
    report env s = (Ok tt, s') /\
    open_view s' = Some (run_database courses students last (Some te)) /\
    disk s' = run_database courses students last (Some te) /\
    Enrollment.data <$> rows te = concat blocks /\
    student_ids ≡ₚ seqZ 1 (Z.of_nat (length students)) /\
    Forall2 (block_ok (Course.course_id <$> courses)) student_ids blocks /\
    stdout s' = stdout s ++
      ["University Database generated successfully!";
       "Total Students: " +:+ pretty (Z.of_nat (length students));
       "Total Courses: " +:+ pretty (Z.of_nat (length courses));
       "Total Enrollments: " +:+ pretty (Z.of_nat (length (concat blocks)))].
Proof.
  intros Hv Hndc Hlen.
  destruct (generate_enrollments_spec s _
              (mk_table (student_rows_from 1 students) last)
              (mk_table courses 0) Hv eq_refl eq_refl eq_refl)
    as (sids & blocks & te & s1 & Egen & Hv1 & Hrows & Hsids & Hblocks & Hout1 & _).
  { unfold table_student_ids. simpl. rewrite student_rows_from_ids.
    apply NoDup_seqZ. }
  { exact Hndc. }
  { exact Hlen. }
  unfold table_student_ids, table_course_ids in Hsids, Hblocks.
  cbn [rows] in Hsids, Hblocks.
  rewrite student_rows_from_ids in Hsids.
  destruct (commit_returns s1 _ Hv1) as ([] & s2 & Ec & Hv2 & Hd2).
  pose proof (keeps_stdout_commit s1) as Hout2. rewrite Ec in Hout2. simpl in Hout2.
  exists sids, blocks, te, (set_stdout (stdout s ++
      ["University Database generated successfully!";
       "Total Students: " +:+ pretty (Z.of_nat (length students));
       "Total Courses: " +:+ pretty (Z.of_nat (length courses));
       "Total Enrollments: " +:+ pretty (Z.of_nat (length (concat blocks)))]) s2).
  split; [|split; [exact Hv2 | split; [exact Hd2 | auto 6]]].
  unfold report.
  rewrite (bind_Ok _ _ _ _ _ Egen), (bind_Ok _ _ _ _ _ Ec).
  rewrite (bind_Ok _ _ _ _ _ (print_Ok _ s2)).
  set (s3 := set_stdout _ s2).
  assert (Hv3 : open_view s3 = Some (run_database courses students last (Some te)))
    by exact Hv2.
  rewrite (bind_Ok _ _ _ _ _
             (execute_query_open (count_query "Students") s3 _ _ Hv3 eq_refl)).
  rewrite (bind_Ok _ _ _ _ _ (print_Ok _ s3)).
  set (s4 := set_stdout _ s3).
  assert (Hv4 : open_view s4 = Some (run_database courses students last (Some te)))
    by exact Hv2.
  rewrite (bind_Ok _ _ _ _ _
             (execute_query_open (count_query "Courses") s4 _ _ Hv4 eq_refl)).
  rewrite (bind_Ok _ _ _ _ _ (print_Ok _ s4)).
  set (s5 := set_stdout _ s4).
  assert (Hv5 : open_view s5 = Some (run_database courses students last (Some te)))
    by exact Hv2.
  rewrite (bind_Ok _ _ _ _ _
             (execute_query_open (count_query "Enrollments") s5 _ _ Hv5 eq_refl)).
  rewrite print_Ok. f_equal. subst s5 s4 s3. unfold set_stdout. simpl.
  rewrite student_rows_from_length, <- (length_fmap Enrollment.data), Hrows.
  rewrite Hout2, Hout1, <- !app_assoc. reflexivity.
Qed.

End Report.

(** ** The run as a whole *)


Lemma department_levels_seeded_length courses :
  Forall2 course_for (department_levels seeded_department_list) courses ->
  length courses = 21%nat.
Proof. intros H. apply Forall2_length in H. rewrite <- H. reflexivity. Qed.

Section Outcome.

Context (env : oracle).

(** The seeding stages from any state: what they return or raise. *)
Lemma seed_stages_spec (num_students : nat) (s : state) :
  if connectable env then
    exists courses s1,
      build_courses env seeded_department_list (departments_committed s) =
        (Ok courses, s1) /\
      Forall2 course_for (department_levels seeded_department_list) courses /\
      (NoDup (Course.course_id <$> courses) ->
       exists students last s',
         seed_stages env num_students s = (Ok tt, s') /\
         open_view s' = Some (run_database courses students last (Some empty_table)) /\
         disk s' = run_database courses students last (Some empty_table) /\
         length students = num_students /\
         Forall student_ok students /\
         NoDup (Student.email <$> students) /\
         stdout s' = stdout s) /\
      (~ NoDup (Course.course_id <$> courses) ->
       exists s',
         seed_stages env num_students s = (Raise course_id_error, s') /\
         disk s' = seeded_departments /\
         stdout s' = stdout s)
  else seed_stages env num_students s = (Raise connect_error, s).
Proof.
  destruct (connectable env) eqn:Hc.
  - rewrite (seed_stages_prefix env num_students s Hc).
    apply seed_stages_tail.
  - apply seed_stages_unconnectable, Hc.
Qed.

End Outcome.


(** ** After a successful run *)

Lemma course_for_department_ids (P : Z -> Prop) slots courses :
  Forall2 course_for slots courses ->
  Forall (fun slot => P slot.1.1) slots ->
  Forall (fun c => P (Course.department_id c)) courses.
Proof.
  induction 1 as [|slot c slots courses Hc _ IH]; intros Hs; [constructor|].
  apply Forall_cons in Hs as [Hslot Hs]. constructor; [|apply IH, Hs].
  destruct Hc as (_ & _ & -> & _). exact Hslot.
Qed.

Lemma blocks_course_ids courses students blocks :
  Forall2 (block_ok courses) students blocks ->
  forall e, e ∈ concat blocks -> Enrollment.course_id e ∈ courses.
Proof.
  induction 1 as [|sid b students blocks Hb _ IH]; simpl; intros e He.
  - inversion He.
  - apply elem_of_app in He as [He|He]; [|apply IH, He].
    destruct Hb as (_ & _ & Hsub & _). apply Hsub.
    apply list_elem_of_fmap. exists e. split; [reflexivity | exact He].
Qed.

Lemma pretty_21 : pretty (Z.of_nat 21) = "21".
Proof. vm_compute. reflexivity. Qed.

Section Success.

Context (env : oracle).

(** What is known of the state in which the seeding stages return. *)
Lemma seed_stages_Ok_inv (num_students : nat) (s0 s : state) :
  seed_stages env num_students s0 = (Ok tt, s) ->
  exists courses students last,
    open_view s = Some (run_database courses students last (Some empty_table)) /\
    Forall2 course_for (department_levels seeded_department_list) courses /\
    NoDup (Course.course_id <$> courses) /\
    length students = num_students /\
    Forall student_ok students /\
    NoDup (Student.email <$> students) /\
    stdout s = stdout s0.
Proof.
  intros Hseed. pose proof (seed_stages_spec env num_students s0) as H.
  destruct (connectable env); [|congruence].
  destruct H as (courses & s1 & _ & HF & Hok & Hbad).
  destruct (decide (NoDup (Course.course_id <$> courses))) as [Hnd|Hnd].
  - destruct (Hok Hnd) as (students & last & s' & E & Hv & _ & Hlen & Hall & Hem & Hout).
    rewrite Hseed in E. injection E as <-.
    exists courses, students, last. auto 10.
  - destruct (Hbad Hnd) as (s' & E & _). congruence.
Qed.

Lemma run_report_spec (num_students : nat) (s0 s : state) :
  seed_stages env num_students s0 = (Ok tt, s) ->
  exists enrollments s' td tc ts te,
    report env s = (Ok tt, s') /\
    stdout s' = stdout s0 ++
      ["University Database generated successfully!";
       "Total Students: " +:+ pretty (Z.of_nat num_students);
       "Total Courses: 21";
       "Total Enrollments: " +:+ pretty (Z.of_nat enrollments)] /\
    (3 * num_students <= enrollments <= 5 * num_students)%nat /\
    open_view s' = Some (disk s') /\
    Departments (disk s') = Some td /\ length (rows td) = 7%nat /\
    Courses (disk s') = Some tc /\ length (rows tc) = 21%nat /\
    Students (disk s') = Some ts /\ length (rows ts) = num_students /\
    Enrollments (disk s') = Some te /\ length (rows te) = enrollments.
Proof.
  intros Hseed.
  destruct (seed_stages_Ok_inv _ _ _ Hseed)
    as (courses & students & last & Hv & HF & Hnd & Hlen & _ & _ & Hout).
  pose proof (department_levels_seeded_length _ HF) as Hc.
  destruct (report_spec env courses students last s Hv Hnd ltac:(lia))
    as (sids & blocks & te & s' & E & Hv' & Hd' & Hrows & Hsids & Hblocks & Hout').
  pose proof (blocks_length _ _ _ Hblocks) as Hb.
  rewrite (Permutation_length Hsids), length_seqZ, Hlen in Hb.
  exists (length (concat blocks)), s'.
  eexists _, _, _, te.
  split; [exact E|]. rewrite Hout', Hout, Hlen, Hc, pretty_21.
  split; [reflexivity|]. split; [lia|].
  rewrite Hd'. split; [exact Hv'|].
  unfold run_database. cbn [Students Departments Courses Enrollments].
  split; [reflexivity|]. split; [reflexivity|].
  split; [reflexivity|]. split; [exact Hc|].
  split; [reflexivity|]. cbn [rows].
  split; [rewrite student_rows_from_length; exact Hlen|].
  split; [reflexivity|].
  rewrite <- Hrows. rewrite length_fmap. reflexivity.
Qed.

Lemma referential_integrity_spec (num_students : nat) (s0 s : state) :
  seed_stages env num_students s0 = (Ok tt, s) ->
  exists s' td tc ts te,
    report env s = (Ok tt, s') /\
    Departments (disk s') = Some td /\
    Courses (disk s') = Some tc /\
    Students (disk s') = Some ts /\
    Enrollments (disk s') = Some te /\
    Forall (fun c => Course.department_id c ∈
                       Department.department_id <$> rows td) (rows tc) /\
    Forall (fun e =>
              Enrollment.student_id (Enrollment.data e) ∈ table_student_ids ts /\
              Enrollment.course_id (Enrollment.data e) ∈ table_course_ids tc)
           (rows te).
Proof.
  intros Hseed.
  destruct (seed_stages_Ok_inv _ _ _ Hseed)
    as (courses & students & last & Hv & HF & Hnd & Hlen & _ & _ & Hout).
  pose proof (department_levels_seeded_length _ HF) as Hc.
  destruct (report_spec env courses students last s Hv Hnd ltac:(lia))
    as (sids & blocks & te & s' & E & Hv' & Hd' & Hrows & Hsids & Hblocks & Hout').
  exists s'. eexists _, _, _, te.
  split; [exact E|]. rewrite Hd'.
  unfold run_database. cbn [Students Departments Courses Enrollments].
  split; [reflexivity|]. split; [reflexivity|].
  split; [reflexivity|]. split; [reflexivity|]. cbn [rows]. split.
  - refine (course_for_department_ids (fun i => i ∈ _) _ _ HF _).
    apply Forall_forall. intros slot Hslot.
    vm_compute in Hslot.
    repeat (apply elem_of_cons in Hslot as [->|Hslot];
            [vm_compute; set_unfold; tauto|]).
    inversion Hslot.
  - apply Forall_forall. intros e He.
    assert (Hin : Enrollment.data e ∈ concat blocks).
    { rewrite <- Hrows. apply list_elem_of_fmap. exists e. auto. }
    split.
    + unfold table_student_ids. cbn [rows]. rewrite student_rows_from_ids.
      rewrite <- Hsids. exact (blocks_student_ids _ _ _ Hblocks _ Hin).
    + exact (blocks_course_ids _ _ _ Hblocks _ Hin).
Qed.

End Success.

(** X5. When the stages before the enrollments have returned, the rest of
    the try block returns too and prints exactly four lines: the success
    message, "Total Students: N" for the requested number N, "Total
    Courses: 21", and "Total Enrollments: E" with 3N <= E <= 5N.  At that
    point everything is committed, and the file holds 7 departments, 21
    courses, N students and E enrollments. *)
Theorem run_report (env : oracle) (num_students : nat) (s0 s : state) :
  seed_stages env num_students s0 = (Ok tt, s) ->
  exists enrollments s' td tc ts te,
    report env s = (Ok tt, s') /\
    stdout s' = stdout s0 ++
      ["University Database generated successfully!";
       "Total Students: " +:+ pretty (Z.of_nat num_students);
       "Total Courses: 21";
       "Total Enrollments: " +:+ pretty (Z.of_nat enrollments)] /\
    (3 * num_students <= enrollments <= 5 * num_students)%nat /\
    open_view s' = Some (disk s') /\
    Departments (disk s') = Some td /\ length (rows td) = 7%nat /\
    Courses (disk s') = Some tc /\ length (rows tc) = 21%nat /\
    Students (disk s') = Some ts /\ length (rows ts) = num_students /\
    Enrollments (disk s') = Some te /\ length (rows te) = enrollments.
Proof. intros H. eapply run_report_spec; eassumption. Qed.

Lemma run_report_witness :
  seed_stages sample_env 3 initial_state = (Ok tt, sample_seeded_state) /\
  exists enrollments s' td tc ts te,
    report sample_env sample_seeded_state = (Ok tt, s') /\
    stdout s' = stdout initial_state ++
      ["University Database generated successfully!";
       "Total Students: " +:+ pretty (Z.of_nat 3);
       "Total Courses: 21";
       "Total Enrollments: " +:+ pretty (Z.of_nat enrollments)] /\
    (3 * 3 <= enrollments <= 5 * 3)%nat /\
    open_view s' = Some (disk s') /\
    Departments (disk s') = Some td /\ length (rows td) = 7%nat /\
    Courses (disk s') = Some tc /\ length (rows tc) = 21%nat /\
    Students (disk s') = Some ts /\ length (rows ts) = 3%nat /\
    Enrollments (disk s') = Some te /\ length (rows te) = enrollments.
Proof.
  assert (H : seed_stages sample_env 3 initial_state = (Ok tt, sample_seeded_state))
    by (vm_compute; reflexivity).
  split; [exact H|].
  exact (run_report sample_env 3 initial_state sample_seeded_state H).
Defined.

(** X6. Referential integrity of a successful run: in the file, every
    course's [department_id] is the id of a stored department, and every
    enrollment's [student_id] and [course_id] are the ids of a stored
    student and of a stored course. *)
Theorem referential_integrity (env : oracle) (num_students : nat) (s0 s : state) :
  seed_stages env num_students s0 = (Ok tt, s) ->
  exists s' td tc ts te,
    report env s = (Ok tt, s') /\
    Departments (disk s') = Some td /\
    Courses (disk s') = Some tc /\
    Students (disk s') = Some ts /\
    Enrollments (disk s') = Some te /\
    Forall (fun c => Course.department_id c ∈
                       Department.department_id <$> rows td) (rows tc) /\
    Forall (fun e =>
              Enrollment.student_id (Enrollment.data e) ∈ table_student_ids ts /\
              Enrollment.course_id (Enrollment.data e) ∈ table_course_ids tc)
           (rows te).
Proof. intros H. eapply referential_integrity_spec; eassumption. Qed.

Lemma referential_integrity_witness :
  seed_stages sample_env 3 initial_state = (Ok tt, sample_seeded_state) /\
  exists s' td tc ts te,
    report sample_env sample_seeded_state = (Ok tt, s') /\
    Departments (disk s') = Some td /\
    Courses (disk s') = Some tc /\
    Students (disk s') = Some ts /\
    Enrollments (disk s') = Some te /\
    Forall (fun c => Course.department_id c ∈
                       Department.department_id <$> rows td) (rows tc) /\
    Forall (fun e =>
              Enrollment.student_id (Enrollment.data e) ∈ table_student_ids ts /\
              Enrollment.course_id (Enrollment.data e) ∈ table_course_ids tc)
           (rows te).
Proof.
  assert (H : seed_stages sample_env 3 initial_state = (Ok tt, sample_seeded_state))
    by (vm_compute; reflexivity).
  split; [exact H|].
  exact (referential_integrity sample_env 3 initial_state sample_seeded_state H).
Defined.

(** ** The whole run *)



Section WholeRun.

Context (env : oracle).





End WholeRun.





(** ** Methods called without an open connection *)

Lemma bind_Raise {A B} (m : M A) (f : A -> M B) s e s1 :
  m s = (Raise e, s1) -> (m ≫= f) s = (Raise e, s1).
Proof. intros Hm. unfold mbind, M_bind, bind. rewrite Hm. reflexivity. Qed.

Lemma with_connection_not_connected {A} (attr : string)
    (k : connection -> M A) (s : state) :
  open_view s = None ->
  with_connection attr k s = (Raise (not_connected attr s), s).
Proof.
  unfold open_view, with_connection, not_connected.
  destruct (conn s) as [c|]; [|reflexivity].
  destruct (closed c); [reflexivity | discriminate].
Qed.

Section NotConnected.

Context (env : oracle).

Lemma methods_not_connected_spec (num_students : nat) (s : state) :
  open_view s = None ->
  create_tables s = (Raise (not_connected "execute" s), s) /\
  generate_departments s = (Raise (not_connected "executemany" s), s) /\
  generate_courses env s = (Raise (not_connected "execute" s), s) /\
  generate_enrollments env s = (Raise (not_connected "execute" s), s) /\
  commit s = (Raise (not_connected "commit" s), s) /\
  exists students s',
    build_students env num_students s = (Ok students, s') /\
    generate_students env num_students s =
      (Raise (not_connected "executemany" s), s') /\
    length students = num_students /\
    used_emails s' = list_to_set (Student.email <$> students) ∪ used_emails s /\
    conn s' = conn s /\ disk s' = disk s.
Proof.
  intros Hv.
  split; [|split; [|split; [|split; [|split]]]].
  - unfold create_tables. cbn [for_each].
    apply bind_Raise, bind_Raise.
    apply with_connection_not_connected, Hv.
  - apply with_connection_not_connected, Hv.
  - unfold generate_courses. apply bind_Raise.
    apply with_connection_not_connected, Hv.
  - unfold generate_enrollments. apply bind_Raise.
    apply with_connection_not_connected, Hv.
  - apply with_connection_not_connected, Hv.
  - destruct (build_students_returns env num_students s)
      as (students & s' & E & Hlen & _ & _ & Hused & _ & Hc & Hd & _).
    exists students, s'. split; [exact E|].
    split; [|auto].
    unfold generate_students. rewrite (bind_Ok _ _ _ _ _ E).
    unfold executemany. rewrite with_connection_not_connected.
    + unfold not_connected. rewrite Hc. reflexivity.
    + unfold open_view. rewrite Hc. exact Hv.
Qed.

End NotConnected.

(** X9. On a manager without an open connection (none made yet, as after
    [__init__], or closed, as after a run) every stage raises at its first
    use of the cursor and stores nothing: [AttributeError] on [None] in
    the first case, [sqlite3.ProgrammingError] in the second.
    [create_tables], [generate_departments], [generate_courses],
    [generate_enrollments] and [commit] leave the manager as it was;
    [generate_students] raises only after it has built its
    [num_students] tuples, so their emails stay in [used_emails]. *)
Theorem methods_not_connected (env : oracle) (num_students : nat) (s : state) :
  open_view s = None ->
  create_tables s = (Raise (not_connected "execute" s), s) /\
  generate_departments s = (Raise (not_connected "executemany" s), s) /\
  generate_courses env s = (Raise (not_connected "execute" s), s) /\
  generate_enrollments env s = (Raise (not_connected "execute" s), s) /\
  commit s = (Raise (not_connected "commit" s), s) /\
  exists students s',
    build_students env num_students s = (Ok students, s') /\
    generate_students env num_students s =
      (Raise (not_connected "executemany" s), s') /\
    length students = num_students /\
    used_emails s' = list_to_set (Student.email <$> students) ∪ used_emails s /\
    conn s' = conn s /\ disk s' = disk s.
Proof. intros H. eapply methods_not_connected_spec; eassumption. Qed.

Lemma methods_not_connected_witness :
  open_view initial_state = None /\
  create_tables initial_state =
    (Raise (not_connected "execute" initial_state), initial_state) /\
  generate_departments initial_state =
    (Raise (not_connected "executemany" initial_state), initial_state) /\
  generate_courses sample_env initial_state =
    (Raise (not_connected "execute" initial_state), initial_state) /\
  generate_enrollments sample_env initial_state =
    (Raise (not_connected "execute" initial_state), initial_state) /\
  commit initial_state = (Raise (not_connected "commit" initial_state), initial_state) /\
  exists students s',
    build_students sample_env 3 initial_state = (Ok students, s') /\
    generate_students sample_env 3 initial_state =
      (Raise (not_connected "executemany" initial_state), s') /\
    length students = 3%nat /\
    used_emails s' =
      list_to_set (Student.email <$> students) ∪ used_emails initial_state /\
    conn s' = conn initial_state /\ disk s' = disk initial_state.
Proof.
  assert (H : open_view initial_state = None) by reflexivity.
  split; [exact H|].
  exact (methods_not_connected sample_env 3 initial_state H).
Defined.

(** ** [generate_enrollments] at the edges *)

Section EnrollmentEdges.

Context (env : oracle).

Lemma select_student_ids_open (s : state) (v : database) (ts : table Student.row) :
  open_view s = Some v -> Students v = Some ts ->
  execute_query select_student_ids s = (Ok (student_ids s), s).
Proof.
  intros Hv Hs. apply (execute_query_open _ _ _ _ Hv).
  rewrite (student_ids_open s v ts Hv Hs).
  unfold select_student_ids, select_from. rewrite Hs. reflexivity.
Qed.

Lemma select_course_ids_open (s : state) (v : database) (tc : table Course.t) :
  open_view s = Some v -> Courses v = Some tc ->
  execute_query select_course_ids s = (Ok (course_ids s), s).
Proof.
  intros Hv Hc. apply (execute_query_open _ _ _ _ Hv).
  rewrite (course_ids_open s v tc Hv Hc).
  unfold select_course_ids, select_from. rewrite Hc. reflexivity.
Qed.

Lemma randint_3_5 (s : state) :
  randint env 3 5 s =
  (Ok (3 + Z.of_N (raw env (rand_pos s) mod 3)), set_rand_pos (S (rand_pos s)) s).
Proof. reflexivity. Qed.

Lemma generate_enrollments_few_courses_spec (s : state) (v : database)
    (ts : table Student.row) (tc : table Course.t) :
  open_view s = Some v ->
  Students v = Some ts -> rows ts <> [] ->
  Courses v = Some tc -> (length (rows tc) < 3)%nat ->
  generate_enrollments env s =
    (Raise (ValueError "Sample larger than population or is negative"),
     set_rand_pos (S (rand_pos s)) s).
Proof.
  intros Hv Hs Hne Hc Hlen.
  unfold generate_enrollments.
  rewrite (bind_Ok _ _ _ _ _ (select_student_ids_open s v ts Hv Hs)).
  rewrite (bind_Ok _ _ _ _ _ (select_course_ids_open s v tc Hv Hc)).
  apply bind_Raise. unfold build_enrollments.
  pose proof (Permutation_length (student_ids_Permutation s v ts Hv Hs)) as Hls.
  pose proof (Permutation_length (course_ids_Permutation s v tc Hv Hc)) as Hlc.
  rewrite length_fmap in Hls. rewrite length_fmap in Hlc.
  destruct (student_ids s) as [|sid rest].
  { destruct (rows ts); [congruence | discriminate]. }
  cbn [for_acc]. apply bind_Raise.
  rewrite (bind_Ok _ _ _ _ _ (randint_3_5 s)).
  apply bind_Raise. unfold sample.
  rewrite decide_False; [reflexivity|].
  rewrite Hlc.
  pose proof (N2Z.is_nonneg (raw env (rand_pos s) mod 3)). lia.
Qed.

Lemma generate_enrollments_no_students_spec (s : state) (v : database)
    (ts : table Student.row) (tc : table Course.t) (te : table Enrollment.row) :
  open_view s = Some v ->
  Students v = Some ts -> rows ts = [] ->
  Courses v = Some tc -> Enrollments v = Some te ->
  exists s',
    generate_enrollments env s = (Ok tt, s') /\
    open_view s' = Some v /\ disk s' = disk s /\
    rand_pos s' = rand_pos s /\ stdout s' = stdout s.
Proof.
  intros Hv Hs Hnil Hc _.
  unfold generate_enrollments.
  rewrite (bind_Ok _ _ _ _ _ (select_student_ids_open s v ts Hv Hs)).
  rewrite (bind_Ok _ _ _ _ _ (select_course_ids_open s v tc Hv Hc)).
  rewrite (student_ids_open s v ts Hv Hs), Hnil. simpl fmap.
  unfold build_enrollments. cbn [for_acc].
  exists s. split; [|auto].
  unfold mbind at 1, M_bind at 1, bind at 1. simpl.
  unfold executemany, with_connection. unfold open_view in Hv.
  destruct (conn s) as [c|]; [|discriminate].
  destruct (closed c); [discriminate|]. reflexivity.
Qed.

End EnrollmentEdges.

(** X10. If the Students table has a row and the Courses table fewer than
    three, [generate_enrollments] raises [ValueError] ("Sample larger
    than population or is negative") from [random.sample] for the first
    student, whatever is drawn: [randint(3, 5)] asks for at least three
    courses.  One draw has been made and nothing has been inserted.
    [ValueError] is not an [sqlite3.Error]. *)
Theorem generate_enrollments_few_courses (env : oracle) (s : state) (v : database)
    (ts : table Student.row) (tc : table Course.t) :
  open_view s = Some v ->
  Students v = Some ts -> rows ts <> [] ->
  Courses v = Some tc -> (length (rows tc) < 3)%nat ->
  generate_enrollments env s =
    (Raise (ValueError "Sample larger than population or is negative"),
     set_rand_pos (S (rand_pos s)) s) /\
  is_sqlite3_Error (ValueError "Sample larger than population or is negative") = false.
Proof.
  intros. split; [|reflexivity].
  eapply generate_enrollments_few_courses_spec; eassumption.
Qed.

Lemma generate_enrollments_few_courses_witness :
  open_view lone_student_state = Some lone_student_database /\
  Students lone_student_database =
    Some (mk_table
       [Student.mk_row 1
          (Student.mk "Ann" "Lee" "Female" 0 "ann.lee@university.edu"
             "Active" 30 (Qmake 350 100))] 1) /\
  Courses lone_student_database = Some empty_table /\
  generate_enrollments sample_env lone_student_state =
    (Raise (ValueError "Sample larger than population or is negative"),
     set_rand_pos (S (rand_pos lone_student_state)) lone_student_state) /\
  is_sqlite3_Error (ValueError "Sample larger than population or is negative") = false.
Proof.
  assert (Hv : open_view lone_student_state = Some lone_student_database)
    by reflexivity.
  split; [exact Hv|]. split; [reflexivity|]. split; [reflexivity|].
  refine (generate_enrollments_few_courses sample_env lone_student_state
            lone_student_database _ empty_table Hv eq_refl _ eq_refl _).
  - simpl. discriminate.
  - simpl. lia.
Defined.

(** X11. If the Students table is empty (and the Courses and Enrollments
    tables exist), [generate_enrollments] returns without drawing a
    random number or printing: the connection sees the same database and
    the file is as before. *)
Theorem generate_enrollments_no_students (env : oracle) (s : state) (v : database)
    (ts : table Student.row) (tc : table Course.t) (te : table Enrollment.row) :
  open_view s = Some v ->
  Students v = Some ts -> rows ts = [] ->
  Courses v = Some tc -> Enrollments v = Some te ->
  exists s',
    generate_enrollments env s = (Ok tt, s') /\
    open_view s' = Some v /\ disk s' = disk s /\
    rand_pos s' = rand_pos s /\ stdout s' = stdout s.
Proof. intros. eapply generate_enrollments_no_students_spec; eassumption. Qed.

Lemma generate_enrollments_no_students_witness :
  open_view sample_state_before_students = Some seeded_departments /\
  exists s',
    generate_enrollments sample_env sample_state_before_students = (Ok tt, s') /\
    open_view s' = Some seeded_departments /\
    disk s' = disk sample_state_before_students /\
    rand_pos s' = rand_pos sample_state_before_students /\
    stdout s' = stdout sample_state_before_students.
Proof.
  assert (Hv : open_view sample_state_before_students = Some seeded_departments)
    by (vm_compute; reflexivity).
  split; [exact Hv|].
  exact (generate_enrollments_no_students sample_env sample_state_before_students
           seeded_departments empty_table empty_table empty_table
           Hv eq_refl eq_refl eq_refl eq_refl).
Defined.


(** ** The students in the order they are built *)

Lemma returns_keeps {A B} (f : state -> B) (m : M A) s (Q : A -> state -> Prop) :
  returns m s Q -> keeps f m ->
  returns m s (fun a s' => Q a s' /\ f s' = f s).
Proof.
  intros (a & s' & E & HQ) Hk. exists a, s'. split; [exact E|].
  split; [exact HQ|]. specialize (Hk s). rewrite E in Hk. exact Hk.
Qed.

Lemma pretty_N_go_length (x : N) :
  forall s, (String.length s <= String.length (pretty_N_go x s))%nat.
Proof.
  induction (N.lt_wf_0 x) as [x _ IH]; intros s.
  assert (x = 0 \/ 0 < x)%N as [->|Hx] by lia.
  - rewrite pretty_N_go_0. lia.
  - rewrite pretty_N_go_step by exact Hx.
    etransitivity; [|apply IH, N.div_lt; lia]. simpl. lia.
Qed.

Lemma pretty_N_nonempty (x : N) : pretty x <> "".
Proof.
  unfold pretty, pretty_N. destruct (decide (x = 0)%N) as [->|Hx]; [discriminate|].
  intros H. apply (f_equal String.length) in H.
  rewrite pretty_N_go_step in H by lia.
  pose proof (pretty_N_go_length (x `div` 10)
                (String (pretty_N_char (x `mod` 10)) "")) as Hl.
  rewrite H in Hl. simpl in Hl. lia.
Qed.

Lemma numbered_email_inj (base : string) (i j : nat) :
  numbered_email base i = numbered_email base j -> i = j.
Proof.
  unfold numbered_email. intros H. apply email_of_inj in H.
  destruct i as [|i], j as [|j]; [reflexivity| | |].
  - symmetry in H. apply pretty_N_nonempty in H. contradiction.
  - apply pretty_N_nonempty in H. contradiction.
  - apply (inj pretty) in H. lia.
Qed.

Section StudentsInOrder.

Context (env : oracle).

(** One turn of the loop of [generate_students]. *)
Lemma student_body_returns (students : list Student.t) (s : state) :
  returns
    (first_name ← fake_first_name env;
     last_name ← fake_last_name env;
     gender ← choice env gender_options;
     dob ← fake_date_of_birth env;
     email ← generate_unique_email first_name last_name;
     status ← choice env status_options;
     total_credits ← randint env 0 120;
     x ← uniform env 2 4;
     mret (students ++
             [Student.mk first_name last_name gender dob email status
                total_credits (py_round x 2)]))
    s
    (fun acc s' =>
       exists r, acc = students ++ [r] /\
         Student.first_name r = first_name_tape env (fake_pos s) /\
         Student.last_name r = last_name_tape env (S (fake_pos s)) /\
         Student.date_of_birth r = date_of_birth_tape env (S (S (fake_pos s))) /\
         (Student.email r ∉ used_emails s) /\
         first_free (used_emails s)
           (base_email (Student.first_name r) (Student.last_name r))
           (Student.email r) /\
         used_emails s' = {[Student.email r]} ∪ used_emails s /\
         fake_pos s' = S (S (S (fake_pos s)))).
Proof.
  apply returns_bind. eexists _, _. split; [reflexivity|].
  apply returns_bind. eexists _, _. split; [reflexivity|].
  apply returns_bind. eapply returns_mono.
  { apply (returns_keeps fake_pos);
      [apply choice_returns; done | apply keeps_choice; reflexivity]. }
  intros gender s3 [(_ & _ & U3 & _) F3].
  apply returns_bind. eexists _, _. split; [reflexivity|].
  apply returns_bind. eapply returns_mono.
  { apply (returns_keeps fake_pos);
      [apply generate_unique_email_returns
      |apply keeps_generate_unique_email; reflexivity]. }
  intros email s5 [(Hfresh & Hfirst & U5 & _) F5].
  apply returns_bind. eapply returns_mono.
  { apply (returns_keeps fake_pos);
      [apply choice_returns; done | apply keeps_choice; reflexivity]. }
  intros status s6 [(_ & _ & U6 & _) F6].
  apply returns_bind. eapply returns_mono.
  { apply (returns_keeps fake_pos);
      [apply randint_returns; lia | apply keeps_randint; reflexivity]. }
  intros total_credits s7 [(_ & _ & U7 & _) F7].
  apply returns_bind. eapply returns_mono.
  { apply (returns_keeps fake_pos);
      [apply (uniform_returns env 2 4); done | apply keeps_uniform; reflexivity]. }
  intros x s8 [(_ & _ & _ & U8 & _) F8].
  apply returns_ret. eexists. split; [reflexivity|]. simpl.
  simpl in U5, F5, Hfresh, Hfirst. rewrite U3 in U5, Hfresh, Hfirst.
  simpl in U5, Hfresh, Hfirst. rewrite F3 in F5. simpl in F5, F3.
  split; [reflexivity|]. split; [reflexivity|].
  split; [rewrite F3; reflexivity|].
  split; [exact Hfresh|]. split; [exact Hfirst|].
  split; congruence.
Qed.

Lemma build_students_in_order_spec (num_students : nat) (s : state) :
  exists students s',
    build_students env num_students s = (Ok students, s') /\
    length students = num_students /\
    fake_pos s' = (fake_pos s + 3 * num_students)%nat /\
    forall k r, students !! k = Some r ->
      Student.first_name r = first_name_tape env (fake_pos s + 3 * k) /\
      Student.last_name r = last_name_tape env (fake_pos s + 3 * k + 1) /\
      Student.date_of_birth r = date_of_birth_tape env (fake_pos s + 3 * k + 2) /\
      (Student.email r ∉ issued_before s students k) /\
      first_free (issued_before s students k)
        (base_email (Student.first_name r) (Student.last_name r))
        (Student.email r).
Proof.
  pose (Inv := fun (done : list nat) (students : list Student.t) (s' : state) =>
    length students = length done /\
    fake_pos s' = (fake_pos s + 3 * length done)%nat /\
    used_emails s' = list_to_set (Student.email <$> students) ∪ used_emails s /\
    forall k r, students !! k = Some r ->
      Student.first_name r = first_name_tape env (fake_pos s + 3 * k) /\
      Student.last_name r = last_name_tape env (fake_pos s + 3 * k + 1) /\
      Student.date_of_birth r = date_of_birth_tape env (fake_pos s + 3 * k + 2) /\
      (Student.email r ∉ issued_before s students k) /\
      first_free (issued_before s students k)
        (base_email (Student.first_name r) (Student.last_name r))
        (Student.email r)).
  assert (H : returns (build_students env num_students) s
                (Inv ([] ++ seq 0 num_students))).
  { unfold build_students. apply (for_acc_returns _ Inv _ [] [] s).
    - unfold Inv. simpl. split; [reflexivity|]. split; [lia|].
      split; [rewrite union_empty_l_L; reflexivity|].
      intros k r Hk. rewrite lookup_nil in Hk. discriminate.
    - intros done i students s0 (Hlen & Hpos & Hused & Hall) _.
      eapply returns_mono; [apply student_body_returns|].
      intros acc s1 (r & -> & Hf & Hl & Hd & Hfresh & Hfirst & Hused1 & Hpos1).
      assert (Hissued : issued_before s students (length students) = used_emails s0).
      { unfold issued_before. rewrite firstn_all, Hused. reflexivity. }
      unfold Inv. rewrite !length_app. simpl.
      split; [lia|]. split; [lia|]. split.
      { rewrite Hused1, Hused, fmap_app, list_to_set_app_L. simpl.
        apply set_eq. intros z.
        rewrite !elem_of_union, elem_of_singleton, elem_of_empty. tauto. }
      intros k r' Hk.
      destruct (decide (k < length students)%nat) as [Hlt|Hge].
      + rewrite lookup_app_l in Hk by exact Hlt.
        unfold issued_before. rewrite take_app_le by lia.
        exact (Hall k r' Hk).
      + assert (k = length students).
        { apply lookup_lt_Some in Hk. rewrite length_app in Hk. simpl in Hk. lia. }
        subst k. rewrite list_lookup_middle in Hk by reflexivity.
        injection Hk as <-.
        assert (Hi : issued_before s (students ++ [r]) (length students)
                     = used_emails s0).
        { rewrite <- Hissued. unfold issued_before.
          rewrite take_app_le by lia. reflexivity. }
        rewrite Hi.
        split; [rewrite Hf, Hpos, Hlen; f_equal; lia|].
        split; [rewrite Hl, Hpos, Hlen; f_equal; lia|].
        split; [rewrite Hd, Hpos, Hlen; f_equal; lia|].
        split; [exact Hfresh | exact Hfirst]. }
  destruct H as (students & s' & E & Hlen & Hpos & _ & Hall).
  simpl in Hlen, Hpos. rewrite length_seq in Hlen, Hpos.
  exists students, s'. auto.
Qed.

Lemma same_name_emails_spec (num_students : nat) (s : state)
    (first_name last_name : string) :
  (forall i, first_name_tape env i = first_name) ->
  (forall i, last_name_tape env i = last_name) ->
  used_emails s = ∅ ->
  exists students s',
    build_students env num_students s = (Ok students, s') /\
    Student.email <$> students =
      numbered_email (base_email first_name last_name) <$> seq 0 num_students.
Proof.
  intros Hfn Hln Hempty.
  destruct (build_students_in_order_spec num_students s)
    as (students & s' & E & Hlen & _ & Hall).
  exists students, s'. split; [exact E|].
  set (base := base_email first_name last_name).
  assert (Hk : forall k r, students !! k = Some r ->
                 Student.email r = numbered_email base k).
  { induction k as [k IH] using lt_wf_ind. intros r Hr.
    destruct (Hall k r Hr) as (Hf & Hl & _ & Hfresh & Hfirst).
    rewrite Hf, Hl, Hfn, Hln in Hfirst. fold base in Hfirst.
    assert (Hused : forall e, e ∈ issued_before s students k <->
                      exists i, (i < k)%nat /\ e = numbered_email base i).
    { intros e. unfold issued_before. rewrite Hempty, union_empty_r_L.
      rewrite elem_of_list_to_set, list_elem_of_fmap. split.
      - intros (r' & -> & Hin). apply list_elem_of_lookup in Hin as (i & Hi).
        apply lookup_take_Some in Hi as (Hi & Hlt).
        exists i. split; [exact Hlt|]. apply (IH i Hlt r' Hi).
      - intros (i & Hlt & ->).
        destruct (lookup_lt_is_Some_2 students i) as [r' Hi].
        { apply lookup_lt_Some in Hr. lia. }
        exists r'. split; [symmetry; apply (IH i Hlt r' Hi)|].
        apply list_elem_of_lookup. exists i.
        apply lookup_take_Some. auto. }
    destruct k as [|k].
    - destruct Hfirst as [[_ ->]|[Hin _]]; [reflexivity|].
      apply Hused in Hin as (i & Hi & _). lia.
    - destruct Hfirst as [[Hnot _]|(_ & j & Hj & Hemail & Hbelow)].
      + exfalso. apply Hnot, Hused. exists 0%nat. split; [lia | reflexivity].
      + assert (j = N.of_nat (S k)) as ->; [|exact Hemail].
        destruct (N.lt_trichotomy j (N.of_nat (S k))) as [Hlt|[Heq|Hgt]];
          [exfalso | exact Heq | exfalso].
        * apply Hfresh, Hused. exists (N.to_nat j). split; [lia|].
          rewrite Hemail. unfold numbered_email.
          destruct (N.to_nat j) as [|j'] eqn:Ej; [lia|].
          rewrite <- Ej, N2Nat.id. reflexivity.
        * assert (Hin : email_of base (pretty (N.of_nat (S k)))
                          ∈ issued_before s students (S k))
            by (apply Hbelow; lia).
          apply Hused in Hin as (i & Hi & Heq).
          apply (numbered_email_inj base (S k) i) in Heq. lia. }
  apply list_eq. intros k. rewrite !list_lookup_fmap.
  destruct (students !! k) as [r|] eqn:Hr; simpl.
  - rewrite lookup_seq_lt by (apply lookup_lt_Some in Hr; lia). simpl.
    f_equal. apply (Hk k r Hr).
  - apply lookup_ge_None in Hr.
    rewrite lookup_seq_ge by lia. reflexivity.
Qed.

End StudentsInOrder.

(** X12. [build_students], the loop of [generate_students], takes its
    names and dates from the [Faker] instance in order, three answers per
    student, and gives the [k]-th student the first free address of the
    series [base@university.edu], [base1@...], [base2@...], ... made from
    that student's own lower-cased names, free with respect to the
    addresses the manager had issued before the call and those of the
    students before. *)
Theorem build_students_in_order (env : oracle) (num_students : nat) (s : state) :
  exists students s',
    build_students env num_students s = (Ok students, s') /\
    length students = num_students /\
    fake_pos s' = (fake_pos s + 3 * num_students)%nat /\
    forall k r, students !! k = Some r ->
      Student.first_name r = first_name_tape env (fake_pos s + 3 * k) /\
      Student.last_name r = last_name_tape env (fake_pos s + 3 * k + 1) /\
      Student.date_of_birth r = date_of_birth_tape env (fake_pos s + 3 * k + 2) /\
      (Student.email r ∉ issued_before s students k) /\
      first_free (issued_before s students k)
        (base_email (Student.first_name r) (Student.last_name r))
        (Student.email r).
Proof. apply build_students_in_order_spec. Qed.

(** X13. If every student gets the same first and last name and the
    manager has issued no address yet, the students' emails are, in
    order, [base@university.edu], [base1@university.edu],
    [base2@university.edu], ...: the counter of
    [generate_unique_email] starts at 1 and each student takes the
    smallest suffix not yet taken. *)
Theorem same_name_emails (env : oracle) (num_students : nat) (s : state)
    (first_name last_name : string) :
  (forall i, first_name_tape env i = first_name) ->
  (forall i, last_name_tape env i = last_name) ->
  used_emails s = ∅ ->
  exists students s',
    build_students env num_students s = (Ok students, s') /\
    Student.email <$> students =
      numbered_email (base_email first_name last_name) <$> seq 0 num_students.
Proof. intros. eapply same_name_emails_spec; eassumption. Qed.

Lemma same_name_emails_witness :
  exists students s',
    build_students colliding_env 3 initial_state = (Ok students, s') /\
    Student.email <$> students =
      numbered_email (base_email "Ann" "Lee") <$> seq 0 3.
Proof.
  exact (same_name_emails colliding_env 3 initial_state "Ann" "Lee"
           (fun _ => eq_refl) (fun _ => eq_refl) eq_refl).
Defined.


(** ** When the department stage goes through *)

Lemma run_insert_department_exact (l : list (string * Z)) :
  forall v t,
    Departments v = Some t ->
    (NoDup (table_department_names t ++ l.*1) ->
     exists last,
       run_statements insert_department l v =
         inr (set_Departments
                (Some (mk_table
                   (rows t ++
                      department_rows_from (next_rowid Department.department_id t) l)
                   last)) v) /\
       (l = [] -> last = last_rowid t) /\
       (l <> [] ->
        last = next_rowid Department.department_id t + Z.of_nat (length l) - 1)) /\
    (NoDup (table_department_names t) ->
     ~ NoDup (table_department_names t ++ l.*1) ->
     run_statements insert_department l v =
       inl (IntegrityError "UNIQUE constraint failed: Departments.department_name")).
Proof.
  unfold table_department_names, department_rows_from.
  induction l as [|r l IH]; intros v t Ht; simpl.
  - rewrite !app_nil_r. split; [|tauto]. intros _.
    exists (last_rowid t). split; [|split; [reflexivity | congruence]]. f_equal.
    destruct v, t; unfold set_Departments; simpl in *; congruence.
  - unfold insert_department at 1 3. rewrite Ht.
    pose proof (next_rowid_succ Department.department_id
                  (fun i => Department.mk_row i r.1 r.2) t eq_refl) as Hnext.
    cbv beta in Hnext.
    set (id := next_rowid Department.department_id t) in *.
    destruct (IH (set_Departments
                    (Some (mk_table (rows t ++ [Department.mk_row id r.1 r.2]) id)) v)
                 (mk_table (rows t ++ [Department.mk_row id r.1 r.2]) id) eq_refl)
      as [IH1 IH2].
    simpl in IH1, IH2. rewrite fmap_app, <- !app_assoc in IH1, IH2.
    simpl in IH1, IH2.
    destruct (decide (r.1 ∈ Department.department_name <$> rows t)) as [Hin|Hnin].
    + rewrite (bool_decide_eq_true_2 _ Hin). split; [|reflexivity].
      intros Hnd. apply NoDup_app in Hnd as (_ & Hdisj & _).
      exfalso. apply (Hdisj _ Hin). left.
    + rewrite (bool_decide_eq_false_2 _ Hnin). cbv zeta. fold id. split.
      * intros Hnd. destruct (IH1 Hnd) as (last & Hrun & Hnil & Hcons).
        exists last. split; [|split; [discriminate|]].
        -- rewrite Hrun. unfold set_Departments. simpl.
           rewrite Hnext, <- app_assoc, seqZ_of_nat_S. reflexivity.
        -- intros _. destruct l as [|r' l'].
           ++ rewrite (Hnil eq_refl). simpl. lia.
           ++ rewrite Hcons by discriminate. rewrite Hnext.
              simpl length. lia.
      * intros Hnd Hdup. apply IH2; [|exact Hdup].
        apply NoDup_app. split; [exact Hnd|]. split; [|apply NoDup_singleton].
        intros x Hx Hx'. apply list_elem_of_singleton in Hx'. subst x.
        exact (Hnin Hx).
Qed.

Lemma departments_names_NoDup : NoDup departments.*1.
Proof. apply (bool_decide_unpack _). vm_compute. reflexivity. Qed.

Lemma generate_departments_spec (s : state) (v : database)
    (td : table Department.row) :
  open_view s = Some v -> Departments v = Some td ->
  NoDup (table_department_names td) ->
  (Forall (fun d => d.1 ∉ table_department_names td) departments ->
   exists s',
     generate_departments s = (Ok tt, s') /\
     open_view s' =
       Some (set_Departments
               (Some (mk_table
                  (rows td ++
                     department_rows_from (next_rowid Department.department_id td)
                       departments)
                  (next_rowid Department.department_id td + 6))) v) /\
     disk s' = disk s) /\
  (Exists (fun d => d.1 ∈ table_department_names td) departments ->
   exists s',
     generate_departments s =
       (Raise (IntegrityError "UNIQUE constraint failed: Departments.department_name"),
        s') /\
     disk s' = disk s).
Proof.
  intros Hv Ht Hnd.
  destruct (run_insert_department_exact departments v td Ht) as [Hok Hbad].
  pose proof (executemany_open insert_department departments s v Hv) as Hex.
  pose proof (keeps_generate_departments disk ltac:(reflexivity) s) as Hk.
  unfold generate_departments in *.
  split.
  - intros Hnew.
    destruct Hok as (last & Hrun & _ & Hlast).
    { apply NoDup_app. split; [exact Hnd|]. split; [|exact departments_names_NoDup].
      intros x Hx Hx'. apply list_elem_of_fmap in Hx' as (d & -> & Hd).
      rewrite Forall_forall in Hnew. exact (Hnew d Hd Hx). }
    rewrite Hrun in Hex. destruct Hex as (s' & E & Hv').
    exists s'. rewrite E in Hk. split; [exact E|]. split; [|exact Hk].
    rewrite Hv', (Hlast ltac:(discriminate)).
    replace (next_rowid Department.department_id td +
             Z.of_nat (length departments) - 1)
      with (next_rowid Department.department_id td + 6) by (simpl; lia).
    reflexivity.
  - intros Hold. rewrite Hbad in Hex.
    + destruct Hex as (s' & E). exists s'. rewrite E in Hk. auto.
    + exact Hnd.
    + intros Hnd'. apply NoDup_app in Hnd' as (_ & Hdisj & _).
      apply Exists_exists in Hold as (d & Hd & Hin).
      apply (Hdisj _ Hin). apply list_elem_of_fmap. exists d. auto.
Qed.

(** X14. Over an open connection whose Departments table holds distinct
    names, [generate_departments] succeeds exactly when none of its seven
    names is stored yet: then the seven rows are appended in order under
    consecutive ids, starting one above the largest id the table has
    held; if one of the names is stored it raises
    [sqlite3.IntegrityError] on [Departments.department_name], as on a
    second call without [create_tables] in between.  Either way the file
    is left as it was. *)
Theorem generate_departments_iff_new (s : state) (v : database)
    (td : table Department.row) :
  open_view s = Some v -> Departments v = Some td ->
  NoDup (table_department_names td) ->
  (Forall (fun d => d.1 ∉ table_department_names td) departments ->
   exists s',
     generate_departments s = (Ok tt, s') /\
     open_view s' =
       Some (set_Departments
               (Some (mk_table
                  (rows td ++
                     department_rows_from (next_rowid Department.department_id td)
                       departments)
                  (next_rowid Department.department_id td + 6))) v) /\
     disk s' = disk s) /\
  (Exists (fun d => d.1 ∈ table_department_names td) departments ->
   exists s',
     generate_departments s =
       (Raise (IntegrityError "UNIQUE constraint failed: Departments.department_name"),
        s') /\
     disk s' = disk s).
Proof. intros. eapply generate_departments_spec; eassumption. Qed.

Lemma generate_departments_iff_new_witness :
  (open_view sample_fresh_state = Some fresh_schema /\
   Departments fresh_schema = Some empty_table /\
   NoDup (table_department_names empty_table)) /\
  (Forall (fun d => d.1 ∉ table_department_names empty_table) departments ->
   exists s',
     generate_departments sample_fresh_state = (Ok tt, s') /\
     open_view s' =
       Some (set_Departments
               (Some (mk_table
                  (rows empty_table ++
                     department_rows_from
                       (next_rowid Department.department_id empty_table) departments)
                  (next_rowid Department.department_id empty_table + 6)))
               fresh_schema) /\
     disk s' = disk sample_fresh_state) /\
  (Exists (fun d => d.1 ∈ table_department_names empty_table) departments ->
   exists s',
     generate_departments sample_fresh_state =
       (Raise (IntegrityError "UNIQUE constraint failed: Departments.department_name"),
        s') /\
     disk s' = disk sample_fresh_state).
Proof.
  assert (Hv : open_view sample_fresh_state = Some fresh_schema) by reflexivity.
  assert (Ht : Departments fresh_schema = Some empty_table) by reflexivity.
  assert (Hnd : NoDup (table_department_names empty_table)) by apply NoDup_nil_2.
  split; [auto|].
  exact (generate_departments_iff_new sample_fresh_state fresh_schema empty_table
           Hv Ht Hnd).
Defined.

(** ** A table that holds addresses the manager does not know *)

Lemma run_insert_student_taken (l : list Student.t) :
  forall v t,
    Students v = Some t ->
    Forall student_ok l ->
    Exists (fun r => Student.email r ∈ table_emails t) l ->
    run_statements insert_student l v =
      inl (IntegrityError "UNIQUE constraint failed: Students.email").
Proof.
  unfold table_emails.
  induction l as [|r l IH]; intros v t Ht Hok Hex; [inversion Hex|].
  apply Forall_cons in Hok as [Hr Hok].
  destruct (student_ok_checks r Hr) as (Hg & Hs & Hgpa).
  simpl. unfold insert_student at 1. rewrite Ht, Hg, Hs, Hgpa. simpl negb. cbv iota.
  destruct (decide (Student.email r ∈
              (fun x => Student.email (Student.data x)) <$> rows t)) as [Hin|Hnin].
  - rewrite (bool_decide_eq_true_2 _ Hin). reflexivity.
  - rewrite (bool_decide_eq_false_2 _ Hnin). cbv zeta.
    apply Exists_cons in Hex as [Hhead|Htail]; [contradiction|].
    eapply IH; [reflexivity | exact Hok |].
    eapply Exists_impl; [exact Htail|].
    intros r' Hr'. simpl. rewrite fmap_app. apply elem_of_app. left. exact Hr'.
Qed.

Section StaleTable.

Context (env : oracle).

Lemma generate_students_stale_address_spec (num_students : nat) (s : state)
    (v : database) (ts : table Student.row) :
  open_view s = Some v -> Students v = Some ts ->
  (0 < num_students)%nat ->
  (email_of (base_email (first_name_tape env (fake_pos s))
                        (last_name_tape env (S (fake_pos s)))) "" ∉ used_emails s) ->
  email_of (base_email (first_name_tape env (fake_pos s))
                       (last_name_tape env (S (fake_pos s)))) "" ∈ table_emails ts ->
  exists s',
    generate_students env num_students s =
      (Raise (IntegrityError "UNIQUE constraint failed: Students.email"), s') /\
    disk s' = disk s.
Proof.
  intros Hv Ht Hn Hfree Hin.
  destruct (build_students_returns env num_students s)
    as (students & s1 & E & Hlen & _ & _ & _ & Hok & Hc & _).
  destruct (build_students_in_order_spec env num_students s)
    as (students' & s1' & E' & _ & _ & Hall).
  rewrite E in E'. injection E' as <- <-.
  destruct students as [|r rest]; [simpl in Hlen; lia|].
  destruct (Hall 0%nat r eq_refl) as (Hf & Hl & _ & _ & Hfirst).
  replace (fake_pos s + 3 * 0)%nat with (fake_pos s) in Hf by lia.
  replace (fake_pos s + 3 * 0 + 1)%nat with (S (fake_pos s)) in Hl by lia.
  rewrite Hf, Hl in Hfirst.
  assert (Hissued : issued_before s (r :: rest) 0 = used_emails s).
  { unfold issued_before. simpl. apply union_empty_l_L. }
  rewrite Hissued in Hfirst.
  assert (Hemail : Student.email r =
            email_of (base_email (first_name_tape env (fake_pos s))
                                 (last_name_tape env (S (fake_pos s)))) "").
  { destruct Hfirst as [[_ ->]|[Hused _]]; [reflexivity | contradiction]. }
  assert (Hv1 : open_view s1 = Some v)
    by (unfold open_view in *; rewrite Hc; exact Hv).
  pose proof (executemany_open insert_student (r :: rest) s1 v Hv1) as Hex.
  rewrite (run_insert_student_taken (r :: rest) v ts Ht Hok) in Hex.
  2:{ apply Exists_cons. left. rewrite Hemail. exact Hin. }
  destruct Hex as (s' & Hex). exists s'.
  assert (Hgen : generate_students env num_students s =
                 (Raise (IntegrityError "UNIQUE constraint failed: Students.email"), s')).
  { unfold generate_students. rewrite (bind_Ok _ _ _ _ _ E). exact Hex. }
  split; [exact Hgen|].
  pose proof (keeps_disk_generate_students env num_students s) as Hk.
  rewrite Hgen in Hk. exact Hk.
Qed.

End StaleTable.

(** X15. The set [used_emails] lives in the manager, the UNIQUE
    constraint in the table.  If the Students table already holds the
    plain address [first.last@university.edu] of the first names that
    [Faker] hands out, and the manager has not issued that address, then
    [generate_students] for at least one student raises
    [sqlite3.IntegrityError] on [Students.email] and the file is left as
    it was: the loop of [generate_unique_email] looks into the set
    only. *)
Theorem generate_students_stale_address (env : oracle) (num_students : nat)
    (s : state) (v : database) (ts : table Student.row) :
  open_view s = Some v -> Students v = Some ts ->
  (0 < num_students)%nat ->
  (email_of (base_email (first_name_tape env (fake_pos s))
                        (last_name_tape env (S (fake_pos s)))) "" ∉ used_emails s) ->
  email_of (base_email (first_name_tape env (fake_pos s))
                       (last_name_tape env (S (fake_pos s)))) "" ∈ table_emails ts ->
  exists s',
    generate_students env num_students s =
      (Raise (IntegrityError "UNIQUE constraint failed: Students.email"), s') /\
    disk s' = disk s.
Proof. intros. eapply generate_students_stale_address_spec; eassumption. Qed.

Lemma generate_students_stale_address_witness :
  (open_view lone_student_state = Some lone_student_database /\
   "ann.lee@university.edu" ∈
     table_emails
       (mk_table
          [Student.mk_row 1
             (Student.mk "Ann" "Lee" "Female" 0 "ann.lee@university.edu"
                "Active" 30 (Qmake 350 100))] 1)) /\
  exists s',
    generate_students colliding_env 3 lone_student_state =
      (Raise (IntegrityError "UNIQUE constraint failed: Students.email"), s') /\
    disk s' = disk lone_student_state.
Proof.
  assert (Hv : open_view lone_student_state = Some lone_student_database)
    by reflexivity.
  assert (Hin : "ann.lee@university.edu" ∈
     table_emails
       (mk_table
          [Student.mk_row 1
             (Student.mk "Ann" "Lee" "Female" 0 "ann.lee@university.edu"
                "Active" 30 (Qmake 350 100))] 1))
    by (unfold table_emails; simpl; apply list_elem_of_here).
  split; [auto|].
  refine (generate_students_stale_address colliding_env 3 lone_student_state
            lone_student_database _ Hv eq_refl _ _ Hin).
  - lia.
  - simpl. apply not_elem_of_empty.
Defined.
